(** * Machine-state coordination layer of moonraker-for-cnc

    A shallow embedding of the four Moonraker components
    [m2_restart_handler.py], [m30_handler.py], [cnc_extended_api.py] and
    [tool_database.py], followed by the properties of the modal-state
    protocol, the program-completion reset and the tool registry.

    Handlers are [async def] coroutines that talk to Klippy through
    [run_gcode] / [query_objects], write to the log and either return a
    value or raise.  They are embedded in a small monad that threads the
    server state, records every effect in order and carries Python's
    exceptions. *)

From Stdlib Require Import ZArith List Lia.
From stdpp Require Import base option list strings gmap pretty.

Open Scope Z_scope.
Open Scope string_scope.
Open Scope list_scope.

(** ** Python values *)

(** Python numbers ([int] and [float] alike) as they reach this layer from
    JSON: the handlers only embed integer literals, add, compare and
    format them. *)
Class PyNum (num : Type) := {
  num_of_Z : Z -> num;              (* an [int] such as the literal [0] *)
  float_zero : num;                 (* the literal [0.0] *)
  num_add : num -> num -> num;      (* [a + b] *)
  num_gtb : num -> num -> bool;     (* [a > b] *)
  num_eqb : num -> num -> bool;     (* [a == b] *)
  num_str : num -> string           (* [str(a)], as an f-string prints it *)
}.

(** [>] on numbers without NaN is a strict weak order: [1], [1.0] and
    [True] are distinct values that compare equal. *)
Class PyNumOrder (num : Type) `{PyNum num} := {
  num_gtb_irrefl : forall a, num_gtb a a = false;
  num_gtb_trans : forall a b c,
    num_gtb a b = true -> num_gtb b c = true -> num_gtb a c = true;
  num_gtb_negtrans : forall a b c,
    num_gtb a b = false -> num_gtb b c = false -> num_gtb a c = false
}.

(** Exceptions that cross this layer.  [ServerError] is Moonraker's own,
    [HTTPError] is tornado's. *)
Inductive exn :=
| ServerError (msg : string)
| HTTPError (status : Z) (log_message : string)
| KeyError (key : string)
| TypeError (msg : string)
| AttributeError (msg : string).

Definition http_reason (status : Z) : string :=
  if decide (status = 404) then "Not Found" else "Unknown".

(** [str(e)] *)
Definition exn_str (e : exn) : string :=
  match e with
  | ServerError msg => msg
  | HTTPError status msg =>
      "HTTP " +:+ pretty status +:+ ": " +:+ http_reason status
      +:+ " (" +:+ msg +:+ ")"
  | KeyError key => "'" +:+ key +:+ "'"
  | TypeError msg => msg
  | AttributeError msg => msg
  end.

Inductive outcome (A : Type) :=
| Return (a : A)
| Raise (e : exn).
Arguments Return {A} a.
Arguments Raise {A} e.

Inductive level := DEBUG | INFO | WARNING | ERROR.

(** One observable effect of a handler. *)
Inductive event :=
| Gcode (command : string) (accepted : bool)  (* a [run_gcode] call and whether it returned *)
| Query (object : string)                     (* a [query_objects] call *)
| Log (lvl : level) (message : string).

(** The commands handed to [run_gcode], in order. *)
Definition gcodes (evs : list event) : list string :=
  omap (fun ev => match ev with Gcode c _ => Some c | _ => None end) evs.

(** The same with the interpreter's verdict on each. *)
Definition attempts (evs : list event) : list (string * bool) :=
  omap (fun ev => match ev with Gcode c ok => Some (c, ok) | _ => None end) evs.

Definition logged (evs : list event) : list (level * string) :=
  omap (fun ev => match ev with Log l m => Some (l, m) | _ => None end) evs.

Section Values.
Context {num : Type} `{PyNum num}.

(** A JSON scalar as Python sees it. *)
Inductive pyval :=
| PNone
| PBool (b : bool)
| PNum (n : num)
| PStr (s : string).

(** The numeric reading of a value: [bool] is a subclass of [int]. *)
Definition as_num (v : pyval) : option num :=
  match v with
  | PNum n => Some n
  | PBool b => Some (num_of_Z (Z.b2z b))
  | _ => None
  end.

(** [a > b]; unordered types raise [TypeError]. *)
Definition py_gt (a b : pyval) : outcome bool :=
  match as_num a, as_num b with
  | Some x, Some y => Return (num_gtb x y)
  | _, _ =>
      match a, b with
      | PStr s, PStr t => Return (String.ltb t s)
      | _, _ => Raise (TypeError "'>' not supported")
      end
  end.

(** [a == b] never raises. *)
Definition py_eq (a b : pyval) : bool :=
  match as_num a, as_num b with
  | Some x, Some y => num_eqb x y
  | _, _ =>
      match a, b with
      | PStr s, PStr t => bool_decide (s = t)
      | PNone, PNone => true
      | _, _ => false
      end
  end.

(** Truthiness, as [if v:] and [not v] read it. *)
Definition truthy (v : pyval) : bool :=
  match v with
  | PNone => false
  | PBool b => b
  | PNum n => negb (num_eqb n (num_of_Z 0))
  | PStr s => negb (bool_decide (s = ""))
  end.

(** A JSON value of a request, as the argument parser leaves it: a body
    may carry any of them under a key. *)
#[local] Unset Elimination Schemes.
Inductive json :=
| JNull
| JBool (b : bool)
| JInt (z : Z)
| JFloat (n : num)
| JStr (s : string)
| JList (items : list json)
| JDict (items : list (string * json)).
#[local] Set Elimination Schemes.

(** [type(v).__name__] *)
Definition type_name (v : json) : string :=
  match v with
  | JNull => "NoneType"
  | JBool _ => "bool"
  | JInt _ => "int"
  | JFloat _ => "float"
  | JStr _ => "str"
  | JList _ => "list"
  | JDict _ => "dict"
  end.

End Values.
Arguments pyval num : clear implicits.
Arguments json num : clear implicits.

(** The status objects the handlers read. *)
Abbreviation status_object num := (gmap string (pyval num)).

(** A tool record of the [tool_database] object. *)
Abbreviation tool num := (gmap string (pyval num)).

(** ** Klippy and the server *)

Section Host.
Context {num : Type} `{PyNum num}.

(** [result['status']['tool_database']], a key that is missing is [None]. *)
Record tool_database_status := {
  td_tools : option (list (tool num));
  td_current_tool : option (tool num)
}.

(** What [klippy_connection.query_objects] answers: every level is read
    with [.get(key, {})]. *)
Record connection_status := {
  cs_tool_database : option tool_database_status;
  cs_tool_monitoring : option (status_object num)
}.

(** Klippy, the downstream interpreter, with state [K].  It belongs to
    another process; the handlers reach it through the [klippy_apis] and
    [klippy_connection] components, whose calls either return or raise. *)
Class Klippy (K : Type) := {
  apis_run_gcode : string -> K -> outcome unit * K;
  apis_query_objects : string -> K -> outcome (gmap string (status_object num)) * K;
  conn_run_gcode : string -> K -> outcome unit * K;
  conn_query_objects : string -> K -> outcome (option connection_status) * K;
  (* what [server.lookup_component] raises for a name that is not loaded *)
  component_missing : string -> exn
}.

(** The callbacks registered for [server:status_update]. *)
Inductive listener := M2RestartListener | M30Listener.

Context {K : Type} `{Klippy K}.

(** The server with its loaded components, the event registrations and
    the attributes of the component instances. *)
Record world := World {
  klippy : K;
  components : gset string;
  status_update_handlers : list listener;
  cnc_klippy_apis : bool;      (* [CNCMCodesHandler.klippy_apis is not None] *)
  tooldb_printer : bool        (* [ToolDatabaseAPI.printer is not None] *)
}.

Definition set_klippy (k : K) (w : world) : world :=
  World k (components w) (status_update_handlers w)
        (cnc_klippy_apis w) (tooldb_printer w).

(** ** The handler monad: state, ordered effects, exceptions *)

Record run (A : Type) := Run {
  result : outcome A;
  final : world;
  effects : list event
}.
Arguments Run {A} result final effects.
Arguments result {A} r.
Arguments final {A} r.
Arguments effects {A} r.

(** A coroutine of this layer, run to completion. *)
Definition coro (A : Type) : Type := world -> run A.
Local Abbreviation M := coro.

Definition ret {A} (a : A) : M A := fun w => Run (Return a) w [].

Definition raise {A} (e : exn) : M A := fun w => Run (Raise e) w [].

Definition bind {A B} (m : M A) (f : A -> M B) : M B := fun w =>
  let r := m w in
  match result r with
  | Return a =>
      let r' := f a (final r) in
      Run (result r') (final r') (effects r ++ effects r')
  | Raise e => Run (Raise e) (final r) (effects r)
  end.

(** [try: m  except Exception as e: h e] (a bare [except:] is the same
    for the exceptions modelled here). *)
Definition try_except {A} (m : M A) (h : exn -> M A) : M A := fun w =>
  let r := m w in
  match result r with
  | Return a => r
  | Raise e =>
      let r' := h e (final r) in
      Run (result r') (final r') (effects r ++ effects r')
  end.

Definition emit (ev : event) : M unit := fun w => Run (Return tt) w [ev].

Definition logging (lvl : level) (msg : string) : M unit := emit (Log lvl msg).

Definition get_world : M world := fun w => Run (Return w) w [].

Definition put_world (w' : world) : M unit := fun _ => Run (Return tt) w' [].

End Host.

Arguments world K : clear implicits.
Arguments tool_database_status num : clear implicits.
Arguments connection_status num : clear implicits.
Arguments coro K A : clear implicits.
Arguments Run {K A} result final effects.
Arguments result {K A} r.
Arguments final {K A} r.
Arguments effects {K A} r.

Declare Scope py_scope.
Delimit Scope py_scope with py.
Notation "x <- m ;; k" := (bind m (fun x => k))
  (at level 100, m at next level, right associativity) : py_scope.
Notation "m ;;; k" := (bind m (fun _ => k))
  (at level 100, right associativity) : py_scope.
Open Scope py_scope.

(** ** Server primitives *)

Section Server.
Context {num : Type} {PN : PyNum num} {K : Type} {KL : @Klippy num K}.
Local Abbreviation M := (coro K).

Definition is_return {A} (o : outcome A) : bool :=
  match o with Return _ => true | Raise _ => false end.

(** [self.server.lookup_component(name)] *)
Definition lookup_component (name : string) : M unit :=
  w <- get_world ;;
  if decide (name ∈ components w) then ret tt
  else raise (component_missing name).

(** [await klippy_apis.run_gcode(command)] *)
Definition klippy_apis_run_gcode (command : string) : M unit := fun w =>
  let '(o, k) := apis_run_gcode command (klippy w) in
  Run o (set_klippy k w) [Gcode command (is_return o)].

(** [await klippy_apis.query_objects({object: None})] *)
Definition klippy_apis_query_objects (object : string)
  : M (gmap string (status_object num)) := fun w =>
  let '(o, k) := apis_query_objects object (klippy w) in
  Run o (set_klippy k w) [Query object].

(** [self.server.register_event_handler("server:status_update", callback)] *)
Definition register_status_update_handler (l : listener) : M unit :=
  w <- get_world ;;
  put_world (World (klippy w) (components w)
                   (status_update_handlers w ++ [l])
                   (cnc_klippy_apis w) (tooldb_printer w)).

(** A JSON value of a response. *)
Inductive rval :=
| RNone
| RBool (b : bool)
| RInt (z : Z)
| RNum (n : num)
| RStr (s : string)
| RStrs (l : list string)
| RObj (o : (status_object num))
| RTool (t : option (tool num))
| RTools (l : list (tool num))
| RJson (v : json num).

(** A response is a dict literal: keys in the order they are written. *)
Definition response : Type := list (string * rval).

(** [status_update.get('print_stats', {}).get('state') == 'complete'] *)
Definition print_complete (status_update : gmap string (status_object num)) : bool :=
  let print_stats := default ∅ (status_update !! "print_stats") in
  match print_stats !! "state" with
  | Some state => py_eq state (PStr "complete")
  | None => false
  end.

End Server.
Arguments rval num : clear implicits.
Arguments response num : clear implicits.

(** ** m2_restart_handler.py *)

Module M2RestartHandler.
Section Handlers.
Context {num : Type} {PN : PyNum num} {K : Type} {KL : @Klippy num K}.
Local Abbreviation M := (coro K).

(** [_handle_restart_endpoint] *)
Definition handle_restart_endpoint : M (response num) :=
  try_except
    (message <-
       try_except
         (lookup_component "klippy_apis" ;;;
          klippy_apis_run_gcode "SDCARD_RESET_FILE" ;;;
          ret "M2 RESTART executed - file position reset for repeat")
         (fun _ => ret "M2 RESTART acknowledged (Klipper not connected)") ;;
     logging INFO message ;;;
     ret [("result", RStr "ok"); ("message", RStr message)])
    (fun e =>
       logging ERROR ("M2 RESTART Handler error: " +:+ exn_str e) ;;;
       ret [("error", RStr (exn_str e))]).

(** [_handle_klippy_ready] *)
Definition handle_klippy_ready : M unit :=
  try_except
    (lookup_component "klippy_connection" ;;;
     register_status_update_handler M2RestartListener ;;;
     logging INFO
       "M2 RESTART Handler ready - monitoring for virtual_sdcard:complete event")
    (fun e =>
       logging INFO
         ("M2 RESTART Handler: Could not hook into Klippy: " +:+ exn_str e)).

(** [_check_restart_execution] *)
Definition check_restart_execution
    (status_update : gmap string (status_object num)) : M unit :=
  if print_complete status_update then
    try_except
      (lookup_component "klippy_apis" ;;;
       klippy_apis_run_gcode "SDCARD_RESET_FILE" ;;;
       logging INFO
         "M2 RESTART detected - File position reset for repeat (CNC mode)")
      (fun e =>
         logging DEBUG ("Could not reset file position: " +:+ exn_str e))
  else ret tt.

End Handlers.
End M2RestartHandler.

(** ** m30_handler.py *)

Module M30Handler.
Section Handlers.
Context {num : Type} {PN : PyNum num} {K : Type} {KL : @Klippy num K}.
Local Abbreviation M := (coro K).

(** [_handle_m30_endpoint] *)
Definition handle_m30_endpoint : M (response num) :=
  try_except
    (message <-
       try_except
         (lookup_component "klippy_apis" ;;;
          klippy_apis_run_gcode "SDCARD_RESET_FILE" ;;;
          ret "M30 executed - file position reset for repeat")
         (fun _ => ret "M30 acknowledged (Klipper not connected)") ;;
     logging INFO message ;;;
     ret [("result", RStr "ok"); ("message", RStr message)])
    (fun e =>
       logging ERROR ("M30 Handler error: " +:+ exn_str e) ;;;
       ret [("error", RStr (exn_str e))]).

(** [_handle_klippy_ready] *)
Definition handle_klippy_ready : M unit :=
  try_except
    (lookup_component "klippy_connection" ;;;
     register_status_update_handler M30Listener ;;;
     logging INFO "M30 Handler ready - monitoring G-Code stream")
    (fun e =>
       logging INFO ("M30 Handler: Could not hook into Klippy: " +:+ exn_str e)).

(** [_check_m30_execution] *)
Definition check_m30_execution
    (status_update : gmap string (status_object num)) : M unit :=
  if print_complete status_update then
    try_except
      (lookup_component "klippy_apis" ;;;
       klippy_apis_run_gcode "SDCARD_RESET_FILE" ;;;
       logging INFO
         "Job complete - File position reset for repeat (M30 behavior)")
      (fun e =>
         logging DEBUG ("Could not reset file position: " +:+ exn_str e))
  else ret tt.

End Handlers.
End M30Handler.

(** ** Delivery of [server:status_update] *)

Section Events.
Context {num : Type} {PN : PyNum num} {K : Type} {KL : @Klippy num K}.
Local Abbreviation M := (coro K).

(** The coroutine behind a registration. *)
Definition callback (l : listener)
    (status_update : gmap string (status_object num)) : M unit :=
  match l with
  | M2RestartListener => M2RestartHandler.check_restart_execution status_update
  | M30Listener => M30Handler.check_m30_execution status_update
  end.

(** Modelled from the spec: the event bus is not among the sources.
    "EventSource delivers asynchronous status notifications to zero or more
    registered listeners; delivery is fire-and-forget, ordered per source,
    no replay": every registered callback is called once with the
    notification, and what one callback raises reaches no other. *)
Fixpoint deliver (ls : list listener)
    (status_update : gmap string (status_object num)) : M unit :=
  match ls with
  | [] => ret tt
  | l :: ls' =>
      try_except (callback l status_update) (fun _ => ret tt) ;;;
      deliver ls' status_update
  end.

Definition send_status_update
    (status_update : gmap string (status_object num)) : M unit :=
  w <- get_world ;;
  deliver (status_update_handlers w) status_update.

(** A stream of notifications, one after the other. *)
Fixpoint send_status_updates
    (updates : list (gmap string (status_object num))) : M unit :=
  match updates with
  | [] => ret tt
  | u :: us => send_status_update u ;;; send_status_updates us
  end.

End Events.

(** ** Requests *)

(** What a typed getter of the request finds under a key. *)
Inductive lookup (A : Type) :=
| Absent
| Supplied (a : A)
| Malformed (e : exn).    (* present, but the conversion raises [e] *)
Arguments Absent {A}.
Arguments Supplied {A} a.
Arguments Malformed {A} e.

(** Python's [str] operations used on request text. *)
Class PyText := {
  str_lower : string -> string;    (* [s.lower()] *)
  str_repr : string -> string      (* [repr(s)], as a container prints its text *)
}.

(** Modelled from the spec: [WebRequest] and [RequestType] belong to the
    server's request layer ("REST surface (owned by excluded collaborator)"),
    which is not among the sources.  [RequestType] is a flag enumeration
    with the members [GET], [POST] and [DELETE]; [get_request_type()]
    returns the member the request was made with. *)
Inductive RequestType := GET | POST | DELETE.

Section Requests.
Context {num : Type} {PN : PyNum num} {K : Type} {KL : @Klippy num K}.
Local Abbreviation M := (coro K).

(** Modelled from the spec: Moonraker's [WebRequest], seen through the
    getters the handlers call ("endpoints accept JSON bodies/query
    parameters").  [get] hands over the value as it was parsed, without
    conversion; the typed getters convert it, and the conversion behind
    them is the server's. *)
Record web_request := {
  get_request_type : RequestType;
  raw_arg : string -> option (json num); (* read by [get] *)
  str_arg : string -> lookup string;     (* read by [get_str] *)
  int_arg : string -> lookup Z;          (* read by [get_int] *)
  float_arg : string -> lookup num;      (* read by [get_float] *)
  boolean_arg : string -> lookup bool;   (* read by [get_boolean] *)
  no_data : string -> exn                (* a required argument is absent *)
}.

Definition get_converted {A B} (req : web_request) (inj : A -> B)
    (found : lookup A) (key : string) (default : option B) : M B :=
  match found with
  | Supplied a => ret (inj a)
  | Malformed e => raise e
  | Absent =>
      match default with
      | Some d => ret d
      | None => raise (no_data req key)
      end
  end.

(** [web_request.get(key, default)] with a [str] default *)
Definition get (req : web_request) (key fallback : string) : json num :=
  default (JStr fallback) (raw_arg req key).

(** What the handlers compare with a [str] literal. *)
Inductive pyobj :=
| Flag (member : RequestType)
| Json (v : json num).

(** [obj == text]: text equals equal text and nothing else; a member of a
    flag enumeration defines no equality with [str], and neither does a
    number, [None] or a container. *)
Definition eq_text (obj : pyobj) (text : string) : bool :=
  match obj with
  | Json (JStr s) => bool_decide (s = text)
  | _ => false
  end.

(** [v.lower()]: only [str] has the method. *)
Definition lower `{PyText} (v : json num) : M string :=
  match v with
  | JStr s => ret (str_lower s)
  | _ => raise (AttributeError ("'" +:+ type_name v
                                +:+ "' object has no attribute 'lower'"))
  end.

(** [table.get(key)] on a dict with [str] keys: a key of another hashable
    type is found nowhere, a list or a dict cannot be hashed. *)
Definition dict_get {V} (table : gmap string V) (key : json num)
  : M (option V) :=
  match key with
  | JStr s => ret (table !! s)
  | JList _ | JDict _ =>
      raise (TypeError ("unhashable type: '" +:+ type_name key +:+ "'"))
  | _ => ret None
  end.

(** [get_x(key)], [get_x(key, d)] and [get_x(key, None)] *)
Definition get_int (req : web_request) (key : string) : M Z :=
  get_converted req id (int_arg req key) key None.
Definition get_int_or (req : web_request) (key : string) (d : Z) : M Z :=
  get_converted req id (int_arg req key) key (Some d).
Definition get_int_opt (req : web_request) (key : string) : M (option Z) :=
  get_converted req Some (int_arg req key) key (Some None).

Definition get_float (req : web_request) (key : string) : M num :=
  get_converted req id (float_arg req key) key None.
Definition get_float_or (req : web_request) (key : string) (d : num) : M num :=
  get_converted req id (float_arg req key) key (Some d).
Definition get_float_opt (req : web_request) (key : string) : M (option num) :=
  get_converted req Some (float_arg req key) key (Some None).

Definition get_boolean (req : web_request) (key : string) : M bool :=
  get_converted req id (boolean_arg req key) key None.
Definition get_boolean_or (req : web_request) (key : string) (d : bool) : M bool :=
  get_converted req id (boolean_arg req key) key (Some d).
Definition get_boolean_opt (req : web_request) (key : string) : M (option bool) :=
  get_converted req Some (boolean_arg req key) key (Some None).

Definition get_str (req : web_request) (key : string) : M string :=
  get_converted req id (str_arg req key) key None.
Definition get_str_or (req : web_request) (key : string) (d : string) : M string :=
  get_converted req id (str_arg req key) key (Some d).
Definition get_str_opt (req : web_request) (key : string) : M (option string) :=
  get_converted req Some (str_arg req key) key (Some None).

(** [str(b)] *)
Definition bool_str (b : bool) : string := if b then "True" else "False".

(** [repr(v)] *)
Fixpoint json_repr `{PyText} (v : json num) : string :=
  match v with
  | JNull => "None"
  | JBool b => bool_str b
  | JInt z => pretty z
  | JFloat n => num_str n
  | JStr s => str_repr s
  | JList items =>
      "[" +:+ String.concat ", " (map json_repr items) +:+ "]"
  | JDict items =>
      "{" +:+ String.concat ", "
                (map (fun item => str_repr item.1 +:+ ": " +:+ json_repr item.2)
                     items)
      +:+ "}"
  end.

(** [str(v)], as an f-string prints it: text is printed as it is. *)
Definition json_str `{PyText} (v : json num) : string :=
  match v with
  | JStr s => s
  | _ => json_repr v
  end.

(** The line feed of ["\n".join(commands)]. *)
Definition newline : string := String (Ascii.ascii_of_nat 10) "".

Definition join_lines (commands : list string) : string :=
  String.concat newline commands.

Definition ropt {A} (f : A -> rval num) (o : option A) : rval num :=
  match o with Some a => f a | None => RNone end.

Definition rval_of (v : pyval num) : rval num :=
  match v with
  | PNone => RNone
  | PBool b => RBool b
  | PNum n => RNum n
  | PStr s => RStr s
  end.

(** A request value echoed in a response. *)
Definition rval_of_json (v : json num) : rval num :=
  match v with
  | JNull => RNone
  | JBool b => RBool b
  | JInt z => RInt z
  | JFloat n => RNum n
  | JStr s => RStr s
  | _ => RJson v
  end.

End Requests.
Arguments web_request num : clear implicits.
Arguments pyobj num : clear implicits.

(** ** cnc_extended_api.py *)

Module CNCMCodesHandler.
Section Handlers.
Context {num : Type} {PN : PyNum num} {PT : PyText}
        {K : Type} {KL : @Klippy num K}.
Local Abbreviation M := (coro K).
Local Abbreviation response := (response num).
Local Abbreviation Flag := (@Flag num).

(** [{'result': 'error', 'message': 'Klippy not connected'}] *)
Definition not_connected : response :=
  [("result", RStr "error"); ("message", RStr "Klippy not connected")].

(** [{'result': 'error', 'message': str(e)}] *)
Definition error_result (e : exn) : response :=
  [("result", RStr "error"); ("message", RStr (exn_str e))].

(** [self.klippy_apis] as a condition *)
Definition klippy_apis : M bool :=
  w <- get_world ;; ret (cnc_klippy_apis w).

(** [_handle_klippy_ready] *)
Definition handle_klippy_ready : M unit :=
  lookup_component "klippy_apis" ;;;
  w <- get_world ;;
  put_world (World (klippy w) (components w) (status_update_handlers w)
                   true (tooldb_printer w)) ;;;
  logging INFO "CNC M-Codes Handler: Connected to Klippy".

(** [_handle_tool_change] *)
Definition handle_tool_change (web_request : web_request num) : M response :=
  tool <- get_int_or web_request "tool" 0 ;;
  manual <- get_boolean_or web_request "manual" true ;;
  pause <- get_boolean_or web_request "pause" true ;;
  logging INFO ("CNC Tool Change: T" +:+ pretty tool +:+ " (manual="
                +:+ bool_str manual +:+ ", pause=" +:+ bool_str pause +:+ ")") ;;;
  apis <- klippy_apis ;;
  if negb apis then ret not_connected
  else
    try_except
      (let commands := [] in
       let commands := if pause then commands ++ ["M0"] else commands in
       let commands := commands ++ ["T" +:+ pretty tool] in
       let commands :=
         if manual
         then commands ++ ["M117 Insert Tool T{tool} and resume"]
         else commands in
       klippy_apis_run_gcode (join_lines commands) ;;;
       ret [("result", RStr "success"); ("tool", RInt tool);
            ("manual", RBool manual); ("commands", RStrs commands)])
      (fun e =>
         logging ERROR ("Tool change failed: " +:+ exn_str e) ;;;
         ret (error_result e)).

(** [_handle_cnc_status] *)
Definition handle_cnc_status (web_request : web_request num) : M response :=
  apis <- klippy_apis ;;
  if negb apis then ret not_connected
  else
    try_except
      (result <- klippy_apis_query_objects "cnc_m_codes" ;;
       let status := default ∅ (result !! "cnc_m_codes") in
       ret [("result", RStr "success"); ("status", RObj status)])
      (fun e =>
         logging ERROR ("Status query failed: " +:+ exn_str e) ;;;
         ret (error_result e)).

(** [_handle_coolant] *)
Definition handle_coolant (web_request : web_request num) : M response :=
  if eq_text (Flag (get_request_type web_request)) "GET" then
    apis <- klippy_apis ;;
    if negb apis then ret not_connected
    else
      try_except
        (result <- klippy_apis_query_objects "cnc_m_codes" ;;
         let status := default ∅ (result !! "cnc_m_codes") in
         ret [("result", RStr "success");
              ("coolant_mist",
               rval_of (default (PBool false) (status !! "coolant_mist")));
              ("coolant_flood",
               rval_of (default (PBool false) (status !! "coolant_flood")))])
        (fun e => ret (error_result e))
  else
    mist <- get_boolean_opt web_request "mist" ;;
    flood <- get_boolean_opt web_request "flood" ;;
    apis <- klippy_apis ;;
    if negb apis then ret not_connected
    else
      let commands := [] in
      let commands :=
        match mist with
        | Some mist => commands ++ [if mist then "M7" else "M9"]
        | None => commands
        end in
      let commands :=
        match flood with
        | Some flood => commands ++ [if flood then "M8" else "M9"]
        | None => commands
        end in
      try_except
        (klippy_apis_run_gcode (join_lines commands) ;;;
         ret [("result", RStr "success"); ("mist", ropt RBool mist);
              ("flood", ropt RBool flood)])
        (fun e => ret (error_result e)).

(** [_handle_spindle] *)
Definition handle_spindle (web_request : web_request num) : M response :=
  if eq_text (Flag (get_request_type web_request)) "GET" then
    apis <- klippy_apis ;;
    if negb apis then ret not_connected
    else
      try_except
        (result <- klippy_apis_query_objects "cnc_m_codes" ;;
         let status := default ∅ (result !! "cnc_m_codes") in
         ret [("result", RStr "success");
              ("spindle_running",
               rval_of (default (PBool false) (status !! "spindle_running")));
              ("spindle_direction",
               rval_of (default (PNum (num_of_Z 0))
                                (status !! "spindle_direction")));
              ("spindle_speed",
               rval_of (default (PNum (num_of_Z 0))
                                (status !! "spindle_speed")))])
        (fun e => ret (error_result e))
  else
    enable <- get_boolean web_request "enable" ;;
    direction <- lower (get web_request "direction" "cw") ;;
    speed <- get_int_or web_request "speed" 0 ;;
    apis <- klippy_apis ;;
    if negb apis then ret not_connected
    else
      let send (commands : list string) : M response :=
        try_except
          (klippy_apis_run_gcode (join_lines commands) ;;;
           ret [("result", RStr "success"); ("enable", RBool enable);
                ("direction", if enable then RStr direction else RNone);
                ("speed", RInt (if enable then speed else 0))])
          (fun e => ret (error_result e)) in
      let commands := [] in
      if enable then
        let commands :=
          if decide (speed > 0) then commands ++ ["S" +:+ pretty speed]
          else commands in
        if decide (direction = "cw") then send (commands ++ ["M3"])
        else if decide (direction = "ccw") then send (commands ++ ["M4"])
        else ret [("result", RStr "error");
                  ("message", RStr "Invalid direction")]
      else send (commands ++ ["M5"]).

(** The [command_map] of [_handle_modal_state] *)
Definition command_map : gmap string string :=
  list_to_map [("save", "M70"); ("restore", "M72");
               ("invalidate", "M71"); ("auto_save", "M73")].

(** [for _ in range(10): try: await run_gcode("M71") / except: break] *)
Fixpoint clear_states (iterations : list nat) : M unit :=
  match iterations with
  | [] => ret tt
  | _ :: rest =>
      cleared <- try_except (klippy_apis_run_gcode "M71" ;;; ret true)
                            (fun _ => ret false) ;;
      if cleared then clear_states rest
      else ret tt                       (* [break] *)
  end.

(** [_handle_modal_state] *)
Definition handle_modal_state (web_request : web_request num) : M response :=
  apis <- klippy_apis ;;
  if negb apis then ret not_connected
  else
    let request_type := Flag (get_request_type web_request) in
    if eq_text request_type "GET" then
      try_except
        (result <- klippy_apis_query_objects "cnc_m_codes" ;;
         ret [("result", RStr "success");
              ("message", RStr "Modal state tracking active")])
        (fun e => ret (error_result e))
    else if eq_text request_type "POST" then
      let action := get web_request "action" "save" in
      command <- dict_get command_map action ;;
      let invalid : M response :=
        ret [("result", RStr "error");
             ("message", RStr ("Invalid action: " +:+ json_str action))] in
      match command with
      | None => invalid
      | Some command =>
          if decide (command = "") then invalid
          else
            try_except
              (klippy_apis_run_gcode command ;;;
               ret [("result", RStr "success");
                    ("action", rval_of_json action);
                    ("command", RStr command)])
              (fun e => ret (error_result e))
      end
    else if eq_text request_type "DELETE" then
      try_except
        (clear_states (seq 0 10) ;;;
         ret [("result", RStr "success");
              ("message", RStr "All modal states cleared")])
        (fun e => ret (error_result e))
    else
      ret [("result", RStr "error"); ("message", RStr "Invalid request type")].

(** [_handle_pallet_change] *)
Definition handle_pallet_change (web_request : web_request num) : M response :=
  pause <- get_boolean_or web_request "pause" true ;;
  logging INFO ("CNC Pallet Change: M60 (pause=" +:+ bool_str pause +:+ ")") ;;;
  apis <- klippy_apis ;;
  if negb apis then ret not_connected
  else
    try_except
      (klippy_apis_run_gcode "M60" ;;;
       ret [("result", RStr "success"); ("command", RStr "M60");
            ("pause", RBool pause);
            ("message",
             RStr "Pallet change initiated - Exchange pallet and resume")])
      (fun e =>
         logging ERROR ("Pallet change failed: " +:+ exn_str e) ;;;
         ret (error_result e)).

(** [_handle_digital_io] *)
Definition handle_digital_io (web_request : web_request num) : M response :=
  if eq_text (Flag (get_request_type web_request)) "GET" then
    apis <- klippy_apis ;;
    if negb apis then ret not_connected
    else
      try_except
        (result <- klippy_apis_query_objects "cnc_extended_m_codes" ;;
         ret [("result", RStr "success");
              ("message", RStr "Digital I/O status retrieved")])
        (fun e => ret (error_result e))
  else
    let action := get web_request "action" "set" in
    if eq_text (Json action) "wait" then
      pin <- get_int web_request "pin" ;;
      mode <- get_int_or web_request "mode" 0 ;;
      timeout <- get_float_or web_request "timeout" float_zero ;;
      analog <- get_boolean_or web_request "analog" false ;;
      apis <- klippy_apis ;;
      if negb apis then ret not_connected
      else
        try_except
          (let command :=
             "M66 " +:+ (if analog then "E" else "P") +:+ pretty pin
             +:+ " L" +:+ pretty mode +:+ " Q" +:+ num_str timeout in
           klippy_apis_run_gcode command ;;;
           ret [("result", RStr "success"); ("command", RStr command);
                ("message",
                 RStr ("Waiting on " +:+ (if analog then "analog" else "digital")
                       +:+ " input " +:+ pretty pin))])
          (fun e => ret (error_result e))
    else
      pin <- get_int web_request "pin" ;;
      value <- get_boolean web_request "value" ;;
      synchronized <- get_boolean_or web_request "synchronized" false ;;
      apis <- klippy_apis ;;
      if negb apis then ret not_connected
      else
        try_except
          (let command :=
             (if synchronized
              then (if value then "M62 P" else "M63 P")
              else (if value then "M64 P" else "M65 P")) +:+ pretty pin in
           klippy_apis_run_gcode command ;;;
           ret [("result", RStr "success"); ("command", RStr command);
                ("pin", RInt pin); ("value", RBool value);
                ("synchronized", RBool synchronized)])
          (fun e => ret (error_result e)).

(** [_handle_analog_io] *)
Definition handle_analog_io (web_request : web_request num) : M response :=
  if eq_text (Flag (get_request_type web_request)) "GET" then
    apis <- klippy_apis ;;
    if negb apis then ret not_connected
    else
      try_except
        (result <- klippy_apis_query_objects "cnc_extended_m_codes" ;;
         ret [("result", RStr "success");
              ("message", RStr "Analog I/O status retrieved")])
        (fun e => ret (error_result e))
  else
    pin <- get_int web_request "pin" ;;
    value <- get_float web_request "value" ;;
    synchronized <- get_boolean_or web_request "synchronized" false ;;
    apis <- klippy_apis ;;
    if negb apis then ret not_connected
    else
      try_except
        (let command :=
           (if synchronized then "M67 E" else "M68 E") +:+ pretty pin
           +:+ " Q" +:+ num_str value in
         klippy_apis_run_gcode command ;;;
         ret [("result", RStr "success"); ("command", RStr command);
              ("pin", RInt pin); ("value", RNum value);
              ("synchronized", RBool synchronized)])
        (fun e => ret (error_result e)).

(** [_handle_subroutine] *)
Definition handle_subroutine (web_request : web_request num) : M response :=
  let action := get web_request "action" "call" in
  apis <- klippy_apis ;;
  if negb apis then ret not_connected
  else
    try_except
      (if eq_text (Json action) "call" then
         program <- get_int web_request "program" ;;
         repeats <- get_int_or web_request "repeats" 1 ;;
         let command := "M98 P" +:+ pretty program in
         let command :=
           if decide (repeats > 1) then command +:+ " L" +:+ pretty repeats
           else command in
         klippy_apis_run_gcode command ;;;
         ret [("result", RStr "success"); ("command", RStr command);
              ("action", RStr "call"); ("program", RInt program);
              ("repeats", RInt repeats);
              ("message",
               RStr ("Called subroutine O" +:+ pretty program +:+ " ("
                     +:+ pretty repeats +:+ " times)"))]
       else if eq_text (Json action) "return" then
         klippy_apis_run_gcode "M99" ;;;
         ret [("result", RStr "success"); ("command", RStr "M99");
              ("action", RStr "return");
              ("message", RStr "Returned from subroutine")]
       else
         ret [("result", RStr "error");
              ("message", RStr ("Invalid action: " +:+ json_str action))])
      (fun e =>
         logging ERROR ("Subroutine operation failed: " +:+ exn_str e) ;;;
         ret (error_result e)).

End Handlers.
End CNCMCodesHandler.

(** ** Python built-ins over tool records *)

Section Builtins.
Context {num : Type} {PN : PyNum num}.

(** [a + b] *)
Definition py_add (a b : pyval num) : outcome (pyval num) :=
  match as_num a, as_num b with
  | Some x, Some y => Return (PNum (num_add x y))
  | _, _ =>
      match a, b with
      | PStr s, PStr t => Return (PStr (s +:+ t))
      | _, _ => Raise (TypeError "unsupported operand type(s) for +")
      end
  end.

(** [sum(values)]: starts from the [int] 0 and adds from the left. *)
Fixpoint py_sum_from (acc : pyval num) (values : list (pyval num))
  : outcome (pyval num) :=
  match values with
  | [] => Return acc
  | v :: rest =>
      match py_add acc v with
      | Return acc' => py_sum_from acc' rest
      | Raise e => Raise e
      end
  end.

Definition py_sum (values : list (pyval num)) : outcome (pyval num) :=
  py_sum_from (PNum (num_of_Z 0)) values.

(** The loop of [max(iterable, key=key)]: the running maximum is replaced
    only by an item whose key is [>] the running key. *)
Fixpoint max_loop {A} (key : A -> pyval num) (maxitem : A)
    (maxval : pyval num) (rest : list A) : outcome A :=
  match rest with
  | [] => Return maxitem
  | item :: rest' =>
      let val := key item in
      match py_gt val maxval with
      | Return true => max_loop key item val rest'
      | Return false => max_loop key maxitem maxval rest'
      | Raise e => Raise e
      end
  end.

(** [max(items, key=key)] on a list that is not empty *)
Definition py_max {A} (key : A -> pyval num) (first : A) (rest : list A)
  : outcome A :=
  max_loop key first (key first) rest.

(** [t[key]] *)
Definition getitem (t : tool num) (key : string) : outcome (pyval num) :=
  match t !! key with
  | Some v => Return v
  | None => Raise (KeyError key)
  end.

(** [[t for t in tools if t[key] == value]] *)
Fixpoint select_eq (key : string) (value : pyval num) (tools : list (tool num))
  : outcome (list (tool num)) :=
  match tools with
  | [] => Return []
  | t :: rest =>
      match getitem t key with
      | Raise e => Raise e
      | Return v =>
          match select_eq key value rest with
          | Raise e => Raise e
          | Return kept => Return (if py_eq v value then t :: kept else kept)
          end
      end
  end.

(** [next((t for t in tools if t[key] == value), None)] *)
Fixpoint first_eq (key : string) (value : pyval num) (tools : list (tool num))
  : outcome (option (tool num)) :=
  match tools with
  | [] => Return None
  | t :: rest =>
      match getitem t key with
      | Raise e => Raise e
      | Return v => if py_eq v value then Return (Some t)
                    else first_eq key value rest
      end
  end.

(** Truthiness of a dict: it has a key. *)
Definition dict_truthy (t : tool num) : bool :=
  negb (bool_decide (t = ∅)).

(** The double quote of the quoted command parameters. *)
Definition dquote : string := String (Ascii.ascii_of_nat 34) "".

Definition quoted (s : string) : string := dquote +:+ s +:+ dquote.

End Builtins.

(** ** tool_database.py *)

Module ToolDatabaseAPI.
Section Handlers.
Context {num : Type} {PN : PyNum num} {K : Type} {KL : @Klippy num K}.
Local Abbreviation M := (coro K).
Local Abbreviation response := (response num).

(** A pure computation that may raise, run inside a coroutine. *)
Definition lift {A} (o : outcome A) : M A := fun w => Run o w [].

(** [_get_klippy_connection] *)
Definition get_klippy_connection : M unit :=
  w <- get_world ;;
  if tooldb_printer w then ret tt
  else
    lookup_component "klippy_connection" ;;;
    put_world (World (klippy w) (components w) (status_update_handlers w)
                     (cnc_klippy_apis w) true).

(** [_run_gcode] *)
Definition run_gcode (gcode : string) : M unit :=
  get_klippy_connection ;;;
  fun w =>
    let '(o, k) := conn_run_gcode gcode (klippy w) in
    Run o (set_klippy k w) [Gcode gcode (is_return o)].

(** [_query_printer_objects] *)
Definition query_printer_objects (object : string)
  : M (option (connection_status num)) :=
  get_klippy_connection ;;;
  fun w =>
    let '(o, k) := conn_query_objects object (klippy w) in
    Run o (set_klippy k w) [Query object].

(** [result.get('status', {}).get('tool_database', {})] *)
Definition tool_database_of (result : option (connection_status num))
  : option (tool_database_status num) :=
  result ≫= cs_tool_database.

(** [tool_db.get('tools', [])] *)
Definition tools_of (tool_db : option (tool_database_status num)) : list (tool num) :=
  default [] (tool_db ≫= td_tools).

(** [tool_db.get('current_tool')] *)
Definition current_tool_of (tool_db : option (tool_database_status num))
  : option (tool num) :=
  tool_db ≫= td_current_tool.

(** [_handle_list_tools] *)
Definition handle_list_tools (web_request : web_request num) : M response :=
  tool_type <- get_str_opt web_request "type" ;;
  result <- query_printer_objects "tool_database" ;;
  let tool_db := tool_database_of result in
  let tools := tools_of tool_db in
  tools <-
    match tool_type with
    | Some type =>
        if decide (type = "") then ret tools
        else lift (select_eq "type" (PStr type) tools)
    | None => ret tools
    end ;;
  ret [("tools", RTools tools);
       ("current_tool", RTool (current_tool_of tool_db));
       ("tool_count", RInt (Z.of_nat (length tools)))].

(** [_handle_add_tool] *)
Definition handle_add_tool (web_request : web_request num) : M response :=
  tool_id <- get_int web_request "id" ;;
  name <- get_str web_request "name" ;;
  tool_type <- get_str web_request "type" ;;
  diameter <- get_float web_request "diameter" ;;
  length <- get_float web_request "length" ;;
  flute_length <- get_float_or web_request "flute_length" float_zero ;;
  offset_x <- get_float_or web_request "offset_x" float_zero ;;
  offset_y <- get_float_or web_request "offset_y" float_zero ;;
  offset_z <- get_float_or web_request "offset_z" float_zero ;;
  max_rpm <- get_int_or web_request "max_rpm" 0 ;;
  feedrate <- get_float_or web_request "feedrate" float_zero ;;
  plunge_rate <- get_float_or web_request "plunge_rate" float_zero ;;
  angle <- get_float_or web_request "angle" float_zero ;;
  description <- get_str_or web_request "description" "" ;;
  let gcode := "ADD_TOOL ID=" +:+ pretty tool_id +:+ " NAME=" +:+ quoted name
               +:+ " TYPE=" +:+ tool_type +:+ " " in
  let gcode := gcode +:+ "DIAMETER=" +:+ num_str diameter
               +:+ " LENGTH=" +:+ num_str length +:+ " " in
  let gcode := gcode +:+ "FLUTE_LENGTH=" +:+ num_str flute_length +:+ " " in
  let gcode := gcode +:+ "OFFSET_X=" +:+ num_str offset_x
               +:+ " OFFSET_Y=" +:+ num_str offset_y
               +:+ " OFFSET_Z=" +:+ num_str offset_z +:+ " " in
  let gcode := gcode +:+ "MAX_RPM=" +:+ pretty max_rpm
               +:+ " FEEDRATE=" +:+ num_str feedrate
               +:+ " PLUNGE_RATE=" +:+ num_str plunge_rate +:+ " " in
  let gcode := gcode +:+ "ANGLE=" +:+ num_str angle
               +:+ " DESCRIPTION=" +:+ quoted description in
  run_gcode gcode ;;;
  ret [("success", RBool true);
       ("message", RStr ("Tool " +:+ pretty tool_id +:+ " added successfully"))].

Inductive param_type := str_param | float_param | int_param.

(** The [params] table of [_handle_update_tool] *)
Definition params : list (string * string * param_type) :=
  [("name", "NAME", str_param);
   ("type", "TYPE", str_param);
   ("diameter", "DIAMETER", float_param);
   ("length", "LENGTH", float_param);
   ("flute_length", "FLUTE_LENGTH", float_param);
   ("offset_x", "OFFSET_X", float_param);
   ("offset_y", "OFFSET_Y", float_param);
   ("offset_z", "OFFSET_Z", float_param);
   ("max_rpm", "MAX_RPM", int_param);
   ("feedrate", "FEEDRATE", float_param);
   ("plunge_rate", "PLUNGE_RATE", float_param);
   ("angle", "ANGLE", float_param);
   ("description", "DESCRIPTION", str_param);
   ("is_active", "IS_ACTIVE", int_param);
   ("max_runtime", "MAX_RUNTIME", int_param);
   ("max_distance", "MAX_DISTANCE", float_param);
   ("wear_warning_threshold", "WEAR_WARNING_THRESHOLD", int_param)].

(** The body of [for param_name, gcode_param, param_type in params]: a
    getter that raises leaves [gcode] as it was. *)
Definition update_param (web_request : web_request num) (gcode : string)
    (param : string * string * param_type) : M string :=
  let '(param_name, gcode_param, param_type) := param in
  try_except
    (match param_type with
     | str_param =>
         value <- get_str_opt web_request param_name ;;
         ret match value with
             | Some value => gcode +:+ " " +:+ gcode_param +:+ "=" +:+ quoted value
             | None => gcode
             end
     | float_param =>
         value <- get_float_opt web_request param_name ;;
         ret match value with
             | Some value => gcode +:+ " " +:+ gcode_param +:+ "=" +:+ num_str value
             | None => gcode
             end
     | int_param =>
         value <- get_int_opt web_request param_name ;;
         ret match value with
             | Some value => gcode +:+ " " +:+ gcode_param +:+ "=" +:+ pretty value
             | None => gcode
             end
     end)
    (fun _ => ret gcode).

Fixpoint update_params (web_request : web_request num) (gcode : string)
    (table : list (string * string * param_type)) : M string :=
  match table with
  | [] => ret gcode
  | param :: rest =>
      gcode <- update_param web_request gcode param ;;
      update_params web_request gcode rest
  end.

(** [_handle_update_tool] *)
Definition handle_update_tool (web_request : web_request num) : M response :=
  tool_id <- get_int web_request "id" ;;
  let gcode := "UPDATE_TOOL ID=" +:+ pretty tool_id in
  gcode <- update_params web_request gcode params ;;
  run_gcode gcode ;;;
  ret [("success", RBool true);
       ("message", RStr ("Tool " +:+ pretty tool_id +:+ " updated successfully"))].

(** [_handle_delete_tool] *)
Definition handle_delete_tool (web_request : web_request num) : M response :=
  tool_id <- get_int web_request "id" ;;
  let gcode := "REMOVE_TOOL ID=" +:+ pretty tool_id in
  run_gcode gcode ;;;
  ret [("success", RBool true);
       ("message", RStr ("Tool " +:+ pretty tool_id +:+ " deleted successfully"))].

(** [_handle_select_tool] *)
Definition handle_select_tool (web_request : web_request num) : M response :=
  tool_id <- get_int web_request "id" ;;
  let gcode := "SELECT_TOOL ID=" +:+ pretty tool_id in
  run_gcode gcode ;;;
  result <- query_printer_objects "tool_database" ;;
  let current_tool := current_tool_of (tool_database_of result) in
  ret [("success", RBool true);
       ("message", RStr ("Tool " +:+ pretty tool_id +:+ " selected"));
       ("tool", RTool current_tool)].

(** [if tool_id:] on the [Optional[int]] that [get_int('id', None)] gives *)
Definition id_truthy (tool_id : option Z) : bool :=
  match tool_id with
  | Some i => negb (bool_decide (i = 0))
  | None => false
  end.

(** [_handle_tool_info] *)
Definition handle_tool_info (web_request : web_request num) : M response :=
  tool_id <- get_int_opt web_request "id" ;;
  let gcode :=
    if id_truthy tool_id then "TOOL_INFO ID=" +:+ pretty (default 0 tool_id)
    else "TOOL_INFO" in
  run_gcode gcode ;;;
  result <- query_printer_objects "tool_database" ;;
  let tools := tools_of (tool_database_of result) in
  tool <-
    (if id_truthy tool_id then
       lift (first_eq "id" (PNum (num_of_Z (default 0 tool_id))) tools)
     else
       let current := current_tool_of (tool_database_of result) in
       ret match current with
           | Some t => if dict_truthy t then current else None
           | None => None
           end) ;;
  match tool with
  | Some t =>
      if dict_truthy t then ret [("tool", RTool tool)]
      else raise (HTTPError 404 "Tool not found")
  | None => raise (HTTPError 404 "Tool not found")
  end.

(** [t.get(key, fallback)] *)
Definition get_field (key : string) (fallback : pyval num) (t : tool num)
  : pyval num :=
  default fallback (t !! key).

(** [_handle_tool_stats] *)
Definition handle_tool_stats (web_request : web_request num) : M response :=
  result <- query_printer_objects "tool_database" ;;
  let tools := tools_of (tool_database_of result) in
  let active_tools :=
    filter (fun t => truthy (get_field "is_active" (PBool true) t) = true) tools in
  let inactive_tools :=
    filter (fun t => truthy (get_field "is_active" (PBool true) t) = false) tools in
  total_runtime <-
    lift (py_sum (map (get_field "total_runtime" (PNum (num_of_Z 0))) tools)) ;;
  total_distance <-
    lift (py_sum (map (get_field "total_distance" (PNum (num_of_Z 0))) tools)) ;;
  most_used <-
    match tools with
    | first :: rest =>
        t <- lift (py_max (get_field "total_runtime" (PNum (num_of_Z 0)))
                          first rest) ;;
        ret (Some t)
    | [] => ret None
    end ;;
  ret [("tool_count", RInt (Z.of_nat (length tools)));
       ("active_tools", RInt (Z.of_nat (length active_tools)));
       ("inactive_tools", RInt (Z.of_nat (length inactive_tools)));
       ("total_runtime", rval_of total_runtime);
       ("total_distance", rval_of total_distance);
       ("most_used_tool", RTool most_used)].

(** [_handle_start_monitoring] *)
Definition handle_start_monitoring (web_request : web_request num) : M response :=
  run_gcode "START_TOOL_MONITORING" ;;;
  ret [("success", RBool true); ("message", RStr "Tool monitoring started")].

(** [_handle_stop_monitoring] *)
Definition handle_stop_monitoring (web_request : web_request num) : M response :=
  run_gcode "STOP_TOOL_MONITORING" ;;;
  ret [("success", RBool true); ("message", RStr "Tool monitoring stopped")].

(** [_handle_monitoring_status]: the status object itself is the response. *)
Definition handle_monitoring_status (web_request : web_request num)
  : M (status_object num) :=
  result <- query_printer_objects "tool_monitoring" ;;
  ret (default ∅ (result ≫= cs_tool_monitoring)).

(** [_handle_export_tools] *)
Definition handle_export_tools (web_request : web_request num) : M response :=
  filename <- get_str_or web_request "filename" "tools_export.json" ;;
  let gcode := "EXPORT_TOOLS FILENAME=" +:+ quoted filename in
  run_gcode gcode ;;;
  ret [("success", RBool true); ("filename", RStr filename);
       ("path", RStr ("~/printer_data/tools/" +:+ filename))].

(** [_handle_import_tools] *)
Definition handle_import_tools (web_request : web_request num) : M response :=
  filename <- get_str web_request "filename" ;;
  overwrite <- get_boolean_or web_request "overwrite" false ;;
  let gcode := "IMPORT_TOOLS FILENAME=" +:+ quoted filename
               +:+ " OVERWRITE=" +:+ (if overwrite then "1" else "0") in
  run_gcode gcode ;;;
  ret [("success", RBool true); ("message", RStr "Tools imported successfully")].

End Handlers.
End ToolDatabaseAPI.

(** ** Vocabulary of the properties *)

Section Vocabulary.
Context {num : Type} {PN : PyNum num} {K : Type} {KL : @Klippy num K}.

(** The part of the server a callback can never touch. *)
Definition same_server (w w' : world K) : Prop :=
  components w' = components w /\
  status_update_handlers w' = status_update_handlers w /\
  cnc_klippy_apis w' = cnc_klippy_apis w /\
  tooldb_printer w' = tooldb_printer w.

(** What the reset of a completion listener runs into, if anything. *)
Definition reset_failure (w : world K) : option exn :=
  if decide ("klippy_apis" ∈ components w) then
    match (apis_run_gcode "SDCARD_RESET_FILE" (klippy w)).1 with
    | Raise e => Some e
    | Return _ => None
    end
  else Some (component_missing "klippy_apis").

(** The notifications that report a finished program. *)
Definition completions (updates : list (gmap string (status_object num)))
  : nat :=
  length (filter (fun u => print_complete u = true) updates).

(** The connection that [ToolDatabaseAPI] needs is cached or can be
    looked up. *)
Definition connection_available (w : world K) : Prop :=
  tooldb_printer w = true \/ "klippy_connection" ∈ components w.

(** The server once [ToolDatabaseAPI.printer] is set. *)
Definition cached (w : world K) : world K :=
  World (klippy w) (components w) (status_update_handlers w)
        (cnc_klippy_apis w) true.

(** The fields an update can change, each with the parameter it is written
    under and the type its value is converted to. *)
Definition updatable_fields
  : list (string * string * ToolDatabaseAPI.param_type) :=
  [("name", "NAME", ToolDatabaseAPI.str_param);
   ("type", "TYPE", ToolDatabaseAPI.str_param);
   ("diameter", "DIAMETER", ToolDatabaseAPI.float_param);
   ("length", "LENGTH", ToolDatabaseAPI.float_param);
   ("flute_length", "FLUTE_LENGTH", ToolDatabaseAPI.float_param);
   ("offset_x", "OFFSET_X", ToolDatabaseAPI.float_param);
   ("offset_y", "OFFSET_Y", ToolDatabaseAPI.float_param);
   ("offset_z", "OFFSET_Z", ToolDatabaseAPI.float_param);
   ("max_rpm", "MAX_RPM", ToolDatabaseAPI.int_param);
   ("feedrate", "FEEDRATE", ToolDatabaseAPI.float_param);
   ("plunge_rate", "PLUNGE_RATE", ToolDatabaseAPI.float_param);
   ("angle", "ANGLE", ToolDatabaseAPI.float_param);
   ("description", "DESCRIPTION", ToolDatabaseAPI.str_param);
   ("is_active", "IS_ACTIVE", ToolDatabaseAPI.int_param);
   ("max_runtime", "MAX_RUNTIME", ToolDatabaseAPI.int_param);
   ("max_distance", "MAX_DISTANCE", ToolDatabaseAPI.float_param);
   ("wear_warning_threshold", "WEAR_WARNING_THRESHOLD",
    ToolDatabaseAPI.int_param)].

(** The request carries a value under the field of the row, whether or not
    that value converts to the row's type. *)
Definition supplies (req : web_request num)
    (param : string * string * ToolDatabaseAPI.param_type) : bool :=
  let '(param_name, _, param_type) := param in
  match param_type with
  | ToolDatabaseAPI.str_param =>
      match str_arg req param_name with Absent => false | _ => true end
  | ToolDatabaseAPI.float_param =>
      match float_arg req param_name with Absent => false | _ => true end
  | ToolDatabaseAPI.int_param =>
      match int_arg req param_name with Absent => false | _ => true end
  end.

(** The value a request carries for a row when it converts to the row's
    type, as it is written into the command: text in double quotes,
    numbers as [str] prints them. *)
Definition converted (req : web_request num)
    (param : string * string * ToolDatabaseAPI.param_type) : option string :=
  let '(param_name, _, param_type) := param in
  match param_type with
  | ToolDatabaseAPI.str_param =>
      match str_arg req param_name with
      | Supplied value => Some (quoted value)
      | _ => None
      end
  | ToolDatabaseAPI.float_param =>
      match float_arg req param_name with
      | Supplied value => Some (num_str value)
      | _ => None
      end
  | ToolDatabaseAPI.int_param =>
      match int_arg req param_name with
      | Supplied value => Some (pretty value)
      | _ => None
      end
  end.

(** [ FIELD=<value>] for a row whose value converts, nothing for any
    other. *)
Definition update_pair (req : web_request num)
    (param : string * string * ToolDatabaseAPI.param_type) : option string :=
  match converted req param with
  | Some value => Some (" " +:+ param.1.2 +:+ "=" +:+ value)
  | None => None
  end.

(** [UPDATE_TOOL ID=<id>] followed by the pairs of the updatable fields
    whose value converts, in the order of the fields. *)
Definition update_command (req : web_request num) (tool_id : Z) : string :=
  "UPDATE_TOOL ID=" +:+ pretty tool_id
  +:+ String.concat "" (omap (update_pair req) updatable_fields).

(** The request without its [id] argument. *)
Definition without_id (req : web_request num) : web_request num := {|
  get_request_type := get_request_type req;
  raw_arg := raw_arg req;
  str_arg := str_arg req;
  int_arg := fun key => if decide (key = "id") then Absent else int_arg req key;
  float_arg := float_arg req;
  boolean_arg := boolean_arg req;
  no_data := no_data req
|}.

(** The tools Klippy lists in its answer to the [tool_database] query:
    [status -> tool_database -> tools], none where a level is missing. *)
Definition listing (answer : option (connection_status num)) : list (tool num) :=
  match answer with
  | Some {| cs_tool_database := Some {| td_tools := Some tools |} |} => tools
  | _ => []
  end.

(** The figure a tool record holds under [key]: the number stored there
    ([True] and [False] being 1 and 0), and 0 for a record without the key. *)
Definition figure (key : string) (t : tool num) : num :=
  match t !! key with
  | Some (PNum n) => n
  | Some (PBool b) => num_of_Z (Z.b2z b)
  | _ => num_of_Z 0
  end.

(** The accumulated runtime of a tool. *)
Definition runtime (t : tool num) : num := figure "total_runtime" t.

(** The accumulated travel distance of a tool. *)
Definition distance (t : tool num) : num := figure "total_distance" t.

(** What a record holds under [key], if anything, is a number. *)
Definition numeric_field (key : string) (t : tool num) : Prop :=
  match t !! key with
  | Some (PNum _) | Some (PBool _) | None => True
  | Some _ => False
  end.

(** A tool whose accumulated runtime and distance, where present, are
    numbers. *)
Definition numeric_usage (t : tool num) : Prop :=
  numeric_field "total_runtime" t /\ numeric_field "total_distance" t.

(** The active flag of a tool: what the record holds under [is_active]
    read as a condition, and active for a record without the key. *)
Definition active (t : tool num) : bool :=
  match t !! "is_active" with
  | Some v => truthy v
  | None => true
  end.

(** The [query_objects] calls among the effects. *)
Definition queries (evs : list event) : list string :=
  omap (fun ev => match ev with Query o => Some o | _ => None end) evs.

(** An exception that comes from the request's own getters. *)
Definition argument_error (req : web_request num) (e : exn) : Prop :=
  exists key : string,
    e = no_data req key \/ int_arg req key = Malformed e \/
    float_arg req key = Malformed e \/ boolean_arg req key = Malformed e \/
    str_arg req key = Malformed e.

(** The [AttributeError] of [.lower()] on a value that is not text. *)
Definition no_lower (v : json num) : exn :=
  AttributeError ("'" +:+ type_name v +:+ "' object has no attribute 'lower'").

(** An exception raised while a CNC endpoint reads its arguments: that of a
    getter, or that of [.lower()] on a [direction] that is not text. *)
Definition reading_error (req : web_request num) (e : exn) : Prop :=
  argument_error req e \/
  exists v : json num,
    raw_arg req "direction" = Some v /\ (forall s, v <> JStr s) /\
    e = no_lower v.

End Vocabulary.

Section Endpoints.
Context {num : Type} {PN : PyNum num} {PT : PyText}
        {K : Type} {KL : @Klippy num K}.

(** The endpoints [CNCMCodesHandler.__init__] registers. *)
Definition cnc_endpoints : list (web_request num -> coro K (response num)) :=
  [CNCMCodesHandler.handle_tool_change;
   CNCMCodesHandler.handle_cnc_status;
   CNCMCodesHandler.handle_coolant;
   CNCMCodesHandler.handle_spindle;
   CNCMCodesHandler.handle_modal_state;
   CNCMCodesHandler.handle_pallet_change;
   CNCMCodesHandler.handle_digital_io;
   CNCMCodesHandler.handle_analog_io;
   CNCMCodesHandler.handle_subroutine].

(** The endpoints [CNCMCodesHandler.__init__] registers for ['GET'] and
    ['POST'] alike, with a status branch and a control branch. *)
Definition status_and_control_endpoints
  : list (web_request num -> coro K (response num)) :=
  [CNCMCodesHandler.handle_coolant;
   CNCMCodesHandler.handle_spindle;
   CNCMCodesHandler.handle_digital_io;
   CNCMCodesHandler.handle_analog_io].

(** The endpoints [ToolDatabaseAPI.__init__] registers that answer with a
    dict literal; [_handle_monitoring_status] answers with the status
    object. *)
Definition tool_endpoints : list (web_request num -> coro K (response num)) :=
  [ToolDatabaseAPI.handle_list_tools;
   ToolDatabaseAPI.handle_add_tool;
   ToolDatabaseAPI.handle_update_tool;
   ToolDatabaseAPI.handle_delete_tool;
   ToolDatabaseAPI.handle_select_tool;
   ToolDatabaseAPI.handle_tool_info;
   ToolDatabaseAPI.handle_tool_stats;
   ToolDatabaseAPI.handle_start_monitoring;
   ToolDatabaseAPI.handle_stop_monitoring;
   ToolDatabaseAPI.handle_export_tools;
   ToolDatabaseAPI.handle_import_tools].

(** A coroutine that, run before the Klippy handle is set, touches neither
    Klippy nor the server and answers "not connected", unless reading the
    arguments of the request raised first. *)
Definition guarded (req : web_request num) (m : coro K (response num)) : Prop :=
  forall w : world K,
    cnc_klippy_apis w = false ->
    attempts (effects (m w)) = [] /\
    queries (effects (m w)) = [] /\
    final (m w) = w /\
    (result (m w) = Return CNCMCodesHandler.not_connected \/
     exists e, result (m w) = Raise e /\ reading_error req e).

(** Every call through the connection raises [err]. *)
Definition connection_fails (w : world K) (err : exn) : Prop :=
  (forall gcode, (conn_run_gcode gcode (klippy w)).1 = Raise err) /\
  (forall object, (conn_query_objects object (klippy w)).1 = Raise err).

(** A coroutine that raises when the connection fails: the connection's
    exception, or that of a getter of the request. *)
Definition propagates {A} (req : web_request num) (m : coro K A) : Prop :=
  forall (w : world K) (err : exn),
    connection_available w ->
    connection_fails w err ->
    exists e, result (m w) = Raise e /\ (e = err \/ argument_error req e).

End Endpoints.

(** The command vocabulary of the modal-state protocol, as the
    specification's table lists it: save [M70], invalidate [M71], restore
    [M72], auto-save enable [M73]. *)
Definition modal_vocabulary (action : string) : option string :=
  if decide (action = "save") then Some "M70"
  else if decide (action = "invalidate") then Some "M71"
  else if decide (action = "restore") then Some "M72"
  else if decide (action = "auto_save") then Some "M73"
  else None.

(** ** A reference Klippy for the examples *)

Module Sim.

(** The numbers of the examples: Python's [int], and the [float]s with a
    whole value of less than sixteen digits, which add exactly and print
    with their [.0]. *)
Inductive number :=
| Int (z : Z)
| Float (whole : Z).

Definition value (n : number) : Z :=
  match n with
  | Int z => z
  | Float z => z
  end.

#[global] Instance num_sim : PyNum number := {
  num_of_Z := Int;
  float_zero := Float 0;
  num_add a b :=
    match a, b with
    | Int x, Int y => Int (x + y)
    | _, _ => Float (value a + value b)
    end;
  num_gtb a b := Z.gtb (value a) (value b);
  num_eqb a b := Z.eqb (value a) (value b);
  num_str n :=
    match n with
    | Int z => pretty z
    | Float z => pretty z +:+ ".0"
    end
}.

Definition lower_ascii (c : Ascii.ascii) : Ascii.ascii :=
  let n := Ascii.nat_of_ascii c in
  if ((65 <=? n)%nat && (n <=? 90)%nat)%bool
  then Ascii.ascii_of_nat (n + 32) else c.

Fixpoint lower_text (s : string) : string :=
  match s with
  | EmptyString => EmptyString
  | String c s' => String (lower_ascii c) (lower_text s')
  end.

(** [str.lower] on ASCII text, and [repr] on text without quotes,
    backslashes or control characters. *)
#[global] Instance text_ascii : PyText := {
  str_lower := lower_text;
  str_repr s := "'" +:+ s +:+ "'"
}.

(** Modelled from the spec: the downstream interpreter is an external
    collaborator.  "ModalStateStack maintains a bounded stack of saved
    modal-state snapshots", "maximum depth (bounded, default 10)"; a save at
    the bound and a restore or invalidate on the empty stack are refused.
    Every call fails while the interpreter is not reachable. *)
Record sim := {
  online : bool;
  depth : nat;
  objects : option (connection_status number)
}.

Definition bound : nat := 10.

Definition sim_run_gcode (command : string) (s : sim) : outcome unit * sim :=
  if negb (online s) then (Raise (ServerError "Klippy Disconnected"), s)
  else if decide (command = "M70") then
    if decide (depth s < bound)%nat
    then (Return tt, {| online := true; depth := S (depth s); objects := objects s |})
    else (Raise (ServerError "Modal state stack is full"), s)
  else if decide (command = "M71" \/ command = "M72") then
    match depth s with
    | O => (Raise (ServerError "No modal state saved"), s)
    | S d => (Return tt, {| online := true; depth := d; objects := objects s |})
    end
  else (Return tt, s).

Definition sim_apis_query (object : string) (s : sim)
  : outcome (gmap string (status_object number)) * sim :=
  if negb (online s) then (Raise (ServerError "Klippy Disconnected"), s)
  else (Return ∅, s).

Definition sim_conn_query (object : string) (s : sim)
  : outcome (option (connection_status number)) * sim :=
  if negb (online s) then (Raise (ServerError "Klippy Disconnected"), s)
  else (Return (objects s), s).

#[global] Instance klippy_sim : @Klippy number sim := {
  apis_run_gcode := sim_run_gcode;
  apis_query_objects := sim_apis_query;
  conn_run_gcode := sim_run_gcode;
  conn_query_objects := sim_conn_query;
  component_missing name := ServerError ("Component (" +:+ name +:+ ") not found")
}.

(** A server with both Klippy components loaded. *)
Definition server (s : sim) (handlers : list listener) (apis : bool)
  : world sim :=
  World s {["klippy_apis"; "klippy_connection"]} handlers apis false.

(** What a getter without default raises for a key the request lacks. *)
Definition no_data_error (key : string) : exn :=
  ServerError ("No data for argument: " +:+ key).

(** What a typed getter raises for a value that does not convert. *)
Definition conversion_error (key type value : string) : exn :=
  ServerError ("Unable to convert argument [" +:+ key +:+ "] to <class '"
               +:+ type +:+ "'>: value recieved: " +:+ value).

(** A request without arguments. *)
Definition bare_request (request_type : RequestType) : web_request number := {|
  get_request_type := request_type;
  raw_arg := fun _ => None;
  str_arg := fun _ => Absent;
  int_arg := fun _ => Absent;
  float_arg := fun _ => Absent;
  boolean_arg := fun _ => Absent;
  no_data := no_data_error
|}.

(** A request whose body is [{"action": action}]. *)
Definition action_request (request_type : RequestType) (action : string)
  : web_request number := {|
  get_request_type := request_type;
  raw_arg := fun key => if decide (key = "action") then Some (JStr action) else None;
  str_arg := fun key => if decide (key = "action") then Supplied action else Absent;
  int_arg := fun _ => Absent;
  float_arg := fun _ => Absent;
  boolean_arg := fun _ => Absent;
  no_data := no_data_error
|}.

(** [{'print_stats': {'state': state}}] *)
Definition print_state (state : string) : gmap string (status_object number) :=
  {["print_stats" := {["state" := PStr state]}]}.

(** Klippy reachable, [n] modal states saved, no tool database. *)
Definition idle (n : nat) : sim :=
  {| online := true; depth := n; objects := None |}.

(** Klippy not reachable. *)
Definition unreachable : sim :=
  {| online := false; depth := 0; objects := None |}.

(** The server once [server:klippy_ready] has reached both completion
    handlers. *)
Definition both_ready : world sim :=
  final (M30Handler.handle_klippy_ready
           (final (M2RestartHandler.handle_klippy_ready
                     (server (idle 0) [] false)))).

(** A request whose only argument is the integer [id]. *)
Definition id_request (tool_id : Z) : web_request number := {|
  get_request_type := GET;
  raw_arg := fun key => if decide (key = "id") then Some (JInt tool_id) else None;
  str_arg := fun key =>
    if decide (key = "id") then Supplied (pretty tool_id) else Absent;
  int_arg := fun key => if decide (key = "id") then Supplied tool_id else Absent;
  float_arg := fun key =>
    if decide (key = "id") then Supplied (Float tool_id) else Absent;
  boolean_arg := fun key =>
    if decide (key = "id")
    then Malformed (conversion_error "id" "bool" (pretty tool_id))
    else Absent;
  no_data := no_data_error
|}.

(** An update of tool 1, [{"id": 1, "name": "Drill", "diameter": 35.0,
    "length": "long"}]: the length does not convert. *)
Definition update_request : web_request number := {|
  get_request_type := POST;
  raw_arg := fun key =>
    if decide (key = "id") then Some (JInt 1)
    else if decide (key = "name") then Some (JStr "Drill")
    else if decide (key = "diameter") then Some (JFloat (Float 35))
    else if decide (key = "length") then Some (JStr "long")
    else None;
  str_arg := fun key => if decide (key = "name") then Supplied "Drill" else Absent;
  int_arg := fun key => if decide (key = "id") then Supplied 1 else Absent;
  float_arg := fun key =>
    if decide (key = "diameter") then Supplied (Float 35)
    else if decide (key = "length")
         then Malformed (conversion_error "length" "float" "long")
         else Absent;
  boolean_arg := fun _ => Absent;
  no_data := no_data_error
|}.

Definition used_tool (tool_id total_runtime : Z) : tool number :=
  {["id" := PNum (Int tool_id); "total_runtime" := PNum (Int total_runtime)]}.

(** A tool that was never used: no [total_runtime]. *)
Definition new_tool (tool_id : Z) : tool number := {["id" := PNum (Int tool_id)]}.

(** Four tools, two of them tied for the longest runtime; tool 2 is
    selected. *)
Definition workshop : sim := {|
  online := true;
  depth := 0;
  objects := Some {|
    cs_tool_database := Some {|
      td_tools := Some [used_tool 1 5; used_tool 2 9; new_tool 0; used_tool 3 9];
      td_current_tool := Some (used_tool 2 9)
    |};
    cs_tool_monitoring := None
  |}
|}.

End Sim.

(** ** Conduct of a coroutine *)

Section Conduct.
Context {num : Type} {PN : PyNum num} {K : Type} {KL : @Klippy num K}.

(** A coroutine that leaves the registrations and the attributes of the
    components as they were: only Klippy may have moved. *)
Definition keeps {A} (m : coro K A) : Prop :=
  forall w : world K, same_server w (final (m w)).

(** A coroutine that returns, whatever the server and Klippy do. *)
Definition settles {A} (m : coro K A) : Prop :=
  forall w : world K, exists a, result (m w) = Return a.

(** A coroutine that raises nothing but what reading the arguments of the
    request raises. *)
Definition contains {A} (req : web_request num) (m : coro K A) : Prop :=
  forall w : world K,
    (exists a, result (m w) = Return a) \/
    (exists e, result (m w) = Raise e /\ reading_error req e).

(** Every listed tool has the key. *)
Definition all_have (key : string) (tools : list (tool num)) : Prop :=
  Forall (fun t => is_Some (t !! key)) tools.

(** [t[key] == value], false when the key is missing. *)
Definition field_is (key : string) (value : pyval num) (t : tool num) : bool :=
  match t !! key with
  | Some v => py_eq v value
  | None => false
  end.

(** The calls to Klippy among the effects: commands and queries. *)
Definition calls (evs : list event) : nat :=
  length (attempts evs) + length (queries evs).

(** A coroutine that never calls Klippy. *)
Definition quiet {A} (m : coro K A) : Prop :=
  forall w : world K, calls (effects (m w)) = 0%nat.

(** A coroutine that calls Klippy at most once. *)
Definition single {A} (m : coro K A) : Prop :=
  forall w : world K, (calls (effects (m w)) <= 1)%nat.

(** A coroutine that makes no query. *)
Definition asks_nothing {A} (m : coro K A) : Prop :=
  forall w : world K, queries (effects (m w)) = [].

(** What a manual reset endpoint answers and logs. *)
Definition manual_message (name : string) (w : world K) : string :=
  match reset_failure w with
  | Some _ => name +:+ " acknowledged (Klipper not connected)"
  | None => name +:+ " executed - file position reset for repeat"
  end.

(** The value a getter with a default hands over when nothing is
    malformed. *)
Definition arg_or {A} (found : lookup A) (fallback : A) : A :=
  match found with
  | Supplied a => a
  | _ => fallback
  end.

(** The getter finds a value that converts. *)
Definition is_supplied {A} (found : lookup A) : bool :=
  match found with
  | Supplied _ => true
  | _ => false
  end.

(** The getter finds a value or nothing: no conversion fails. *)
Definition well_formed {A} (found : lookup A) : Prop :=
  forall e, found <> Malformed e.

End Conduct.

(** ** Further requests and listings for the examples *)

Module Bench.

(** [{"enable": false, "direction": direction, "speed": 500}] *)
Definition spindle_request (direction : json Sim.number)
  : web_request Sim.number := {|
  get_request_type := POST;
  raw_arg := fun key =>
    if decide (key = "enable") then Some (JBool false)
    else if decide (key = "direction") then Some direction
    else if decide (key = "speed") then Some (JInt 500)
    else None;
  str_arg := fun _ => Absent;
  int_arg := fun key => if decide (key = "speed") then Supplied 500 else Absent;
  float_arg := fun _ => Absent;
  boolean_arg := fun key => if decide (key = "enable") then Supplied false else Absent;
  no_data := Sim.no_data_error
|}.

(** Spindle off, with a direction no branch knows and a speed. *)
Definition spindle_off : web_request Sim.number :=
  spindle_request (JStr "sideways").

(** Spindle off, with a number where the direction is expected. *)
Definition spindle_numbered : web_request Sim.number :=
  spindle_request (JInt 1).

(** [{"mist": "maybe"}]: the value is no boolean. *)
Definition coolant_maybe : web_request Sim.number := {|
  get_request_type := POST;
  raw_arg := fun key => if decide (key = "mist") then Some (JStr "maybe") else None;
  str_arg := fun key => if decide (key = "mist") then Supplied "maybe" else Absent;
  int_arg := fun _ => Absent;
  float_arg := fun _ => Absent;
  boolean_arg := fun key =>
    if decide (key = "mist")
    then Malformed (Sim.conversion_error "mist" "bool" "maybe")
    else Absent;
  no_data := Sim.no_data_error
|}.

(** A listing request with the filter [type]. *)
Definition type_request (ty : string) : web_request Sim.number := {|
  get_request_type := GET;
  raw_arg := fun key => if decide (key = "type") then Some (JStr ty) else None;
  str_arg := fun key => if decide (key = "type") then Supplied ty else Absent;
  int_arg := fun _ => Absent;
  float_arg := fun _ => Absent;
  boolean_arg := fun _ => Absent;
  no_data := Sim.no_data_error
|}.

Definition typed_tool (tool_id : Z) (ty : string) : tool Sim.number :=
  {["id" := PNum (Sim.Int tool_id); "type" := PStr ty]}.

(** Two drills around an end mill, the end mill selected. *)
Definition typed_shop : Sim.sim := {|
  Sim.online := true;
  Sim.depth := 0;
  Sim.objects := Some {|
    cs_tool_database := Some {|
      td_tools := Some [typed_tool 1 "drill"; typed_tool 2 "endmill";
                        typed_tool 3 "drill"];
      td_current_tool := Some (typed_tool 2 "endmill")
    |};
    cs_tool_monitoring := None
  |}
|}.

(** Three tools with runtime, distance and active flag: tool 2 is retired,
    tool 3 has not been used. *)
Definition worn_shop : Sim.sim := {|
  Sim.online := true;
  Sim.depth := 0;
  Sim.objects := Some {|
    cs_tool_database := Some {|
      td_tools :=
        Some [{["id" := PNum (Sim.Int 1); "total_runtime" := PNum (Sim.Int 5);
                "total_distance" := PNum (Sim.Float 120)]};
              {["id" := PNum (Sim.Int 2); "total_runtime" := PNum (Sim.Int 9);
                "total_distance" := PNum (Sim.Float 30);
                "is_active" := PBool false]};
              {["id" := PNum (Sim.Int 3)]}];
      td_current_tool := None
    |};
    cs_tool_monitoring := None
  |}
|}.

(** A listing in which tool 2 carries [null] as its runtime. *)
Definition null_shop : Sim.sim := {|
  Sim.online := true;
  Sim.depth := 0;
  Sim.objects := Some {|
    cs_tool_database := Some {|
      td_tools :=
        Some [Sim.used_tool 1 5;
              {["id" := PNum (Sim.Int 2); "total_runtime" := PNone]}];
      td_current_tool := None
    |};
    cs_tool_monitoring := None
  |}
|}.

(** A server on which no component is loaded. *)
Definition bare_server : world Sim.sim :=
  World (Sim.idle 0) ∅ [] false false.

(** Updates that report no finished program: another state, no
    [print_stats], no [state]. *)
Definition other_updates : list (gmap string (status_object Sim.number)) :=
  [Sim.print_state "printing"; ∅; {["print_stats" := ∅]}].

End Bench.

(** * Properties *)

(** ** Effects of sequenced coroutines *)

Section Effects.
Context {num : Type} {PN : PyNum num} {K : Type} {KL : @Klippy num K}.
Local Abbreviation M := (coro K).

Lemma gcodes_app (a b : list event) : gcodes (a ++ b) = gcodes a ++ gcodes b.
Proof. unfold gcodes. apply omap_app. Qed.

Lemma attempts_app (a b : list event) :
  attempts (a ++ b) = attempts a ++ attempts b.
Proof. unfold attempts. apply omap_app. Qed.

Lemma same_server_trans (w1 w2 w3 : world K) :
  same_server w1 w2 -> same_server w2 w3 -> same_server w1 w3.
Proof. unfold same_server. intros (?&?&?&?) (?&?&?&?). repeat split; congruence. Qed.

Lemma same_server_set_klippy (k : K) (w : world K) :
  same_server w (set_klippy k w).
Proof. by repeat split. Qed.

(** One listener, one notification. *)
Lemma callback_complete (l : listener) (u : gmap string (status_object num))
    (w : world K) :
  print_complete u = true ->
  "klippy_apis" ∈ components w ->
  let r := callback l u w in
  result r = Return tt /\
  gcodes (effects r) = ["SDCARD_RESET_FILE"] /\
  same_server w (final r).
Proof.
  intros Hu Hc.
  destruct l; cbn [callback];
    unfold M2RestartHandler.check_restart_execution,
           M30Handler.check_m30_execution;
    rewrite Hu;
    unfold try_except, bind, lookup_component, get_world, ret, raise,
           klippy_apis_run_gcode, logging, emit; cbn;
    (destruct (decide _) as [_|n]; [|done]); cbn;
    destruct (apis_run_gcode _ _) as [[[]|e] k]; cbn;
    repeat split; done.
Qed.

Lemma callback_not_complete (l : listener)
    (u : gmap string (status_object num)) (w : world K) :
  print_complete u = false ->
  callback l u w = Run (Return tt) w [].
Proof.
  intros Hu.
  destruct l; cbn [callback];
    unfold M2RestartHandler.check_restart_execution,
           M30Handler.check_m30_execution;
    by rewrite Hu.
Qed.

Lemma deliver_complete (ls : list listener)
    (u : gmap string (status_object num)) (w : world K) :
  print_complete u = true ->
  "klippy_apis" ∈ components w ->
  let r := deliver ls u w in
  result r = Return tt /\
  gcodes (effects r) = replicate (length ls) "SDCARD_RESET_FILE" /\
  same_server w (final r).
Proof.
  intros Hu. revert w.
  induction ls as [|l ls IH]; intros w Hc; cbn [deliver].
  - repeat split.
  - destruct (callback_complete l u w Hu Hc) as (Hr & Hg & Hs).
    assert (Hc' : "klippy_apis" ∈ components (final (callback l u w))).
    { destruct Hs as (-> & _). done. }
    destruct (IH _ Hc') as (Hr' & Hg' & Hs').
    unfold bind, try_except. cbn zeta.
    repeat (rewrite Hr; cbn [result final effects]).
    split; [done|split].
    + rewrite gcodes_app, Hg, Hg'. done.
    + eapply same_server_trans; eauto.
Qed.

Lemma deliver_not_complete (ls : list listener)
    (u : gmap string (status_object num)) (w : world K) :
  print_complete u = false ->
  deliver ls u w = Run (Return tt) w [].
Proof.
  intros Hu. induction ls as [|l ls IH]; [done|].
  cbn [deliver]. unfold bind, try_except.
  rewrite (callback_not_complete l u w Hu). cbn. by rewrite IH.
Qed.

Lemma send_status_update_resets (u : gmap string (status_object num))
    (w : world K) :
  "klippy_apis" ∈ components w ->
  let r := send_status_update u w in
  result r = Return tt /\
  gcodes (effects r) =
    replicate (if print_complete u then length (status_update_handlers w) else 0%nat)
              "SDCARD_RESET_FILE" /\
  same_server w (final r).
Proof.
  intros Hc. unfold send_status_update, bind, get_world. cbn.
  destruct (print_complete u) eqn:Hu.
  - apply deliver_complete; done.
  - rewrite deliver_not_complete by done. repeat split.
Qed.

Lemma bind_ret_l {A B} (a : A) (f : A -> coro K B) (w : world K) :
  bind (ret a) f w = f a w.
Proof. unfold bind, ret. cbn. by destruct (f a w). Qed.

Lemma bind_raise_l {A B} (e : exn) (f : A -> coro K B) (w : world K) :
  bind (raise e) f w = Run (Raise e) w [].
Proof. reflexivity. Qed.

Lemma queries_app (a b : list event) : queries (a ++ b) = queries a ++ queries b.
Proof. unfold queries. apply omap_app. Qed.

Lemma bind_Return {A B} (m : coro K A) (f : A -> coro K B) (w w' : world K)
    (a : A) (evs : list event) :
  m w = Run (Return a) w' evs ->
  bind m f w = Run (result (f a w')) (final (f a w')) (evs ++ effects (f a w')).
Proof. intros Hm. unfold bind. by rewrite Hm. Qed.

Lemma bind_Raise {A B} (m : coro K A) (f : A -> coro K B) (w w' : world K)
    (e : exn) (evs : list event) :
  m w = Run (Raise e) w' evs ->
  bind m f w = Run (Raise e) w' evs.
Proof. intros Hm. unfold bind. by rewrite Hm. Qed.

Lemma try_except_Return {A} (m : coro K A) (h : exn -> coro K A)
    (w w' : world K) (a : A) (evs : list event) :
  m w = Run (Return a) w' evs ->
  try_except m h w = Run (Return a) w' evs.
Proof. intros Hm. unfold try_except. by rewrite Hm. Qed.

Lemma try_except_Raise {A} (m : coro K A) (h : exn -> coro K A)
    (w w' : world K) (e : exn) (evs : list event) :
  m w = Run (Raise e) w' evs ->
  try_except m h w
  = Run (result (h e w')) (final (h e w')) (evs ++ effects (h e w')).
Proof. intros Hm. unfold try_except. by rewrite Hm. Qed.

(** The three steps both reset endpoints and both listeners share. *)
Lemma reset_attempt_run {A} (value : A) (w : world K) :
  (lookup_component "klippy_apis" ;;;
   klippy_apis_run_gcode "SDCARD_RESET_FILE" ;;; ret value) w
  = if decide ("klippy_apis" ∈ components w) then
      let '(o, k) := apis_run_gcode "SDCARD_RESET_FILE" (klippy w) in
      Run match o with Return _ => Return value | Raise e => Raise e end
          (set_klippy k w) [Gcode "SDCARD_RESET_FILE" (is_return o)]
    else Run (Raise (component_missing "klippy_apis")) w [].
Proof.
  unfold lookup_component, bind, get_world, ret, raise, klippy_apis_run_gcode.
  cbn [result final effects].
  destruct (decide ("klippy_apis" ∈ components w)) as [Hin|Hnot];
    cbn [result final effects]; [|done].
  by destruct (apis_run_gcode "SDCARD_RESET_FILE" (klippy w)) as [[[]|e'] k].
Qed.

End Effects.

(** ** The program-completion reset (C1, C5) *)

Section CompletionReset.
Context {num : Type} {PN : PyNum num} {K : Type} {KL : @Klippy num K}.

(** C1, as the code has it: the two completion handlers share no flag,
    generation token or re-arm signal.  Every registered listener sends one
    [SDCARD_RESET_FILE] for every delivered status update whose
    [print_stats] state is ['complete'] and none for any other update, so
    [n] registered listeners and [k] delivered completion updates give
    [n * k] reset commands. *)
Theorem reset_per_listener_per_completion
    (updates : list (gmap string (status_object num))) (w : world K) :
  "klippy_apis" ∈ components w ->
  gcodes (effects (send_status_updates updates w)) =
    replicate (length (status_update_handlers w) * completions updates)
              "SDCARD_RESET_FILE".
Proof.
  revert w. induction updates as [|u us IH]; intros w Hc.
  - cbn. by rewrite Nat.mul_0_r.
  - cbn [send_status_updates]. unfold bind. cbn zeta.
    destruct (send_status_update_resets u w Hc) as (Hr & Hg & Hs).
    rewrite Hr. cbn [result final effects].
    destruct Hs as (Hcomp & Hh & _).
    rewrite gcodes_app, Hg, IH by (by rewrite Hcomp).
    rewrite Hh, <- replicate_add. f_equal.
    unfold completions. rewrite filter_cons.
    destruct (print_complete u); cbn.
    + destruct (decide _); [|done]. cbn [length]. lia.
    + destruct (decide _); [done|]. lia.
Qed.

(** C5: a completion-triggered reset that fails (the [klippy_apis]
    component cannot be looked up, or [run_gcode] raises) is logged at
    DEBUG level with the text of the exception, the listener returns
    normally, the command was tried at most once and nothing in the server
    is changed that would run it again. *)
Theorem failed_reset_logged_and_swallowed (l : listener)
    (u : gmap string (status_object num)) (w : world K) (e : exn) :
  print_complete u = true ->
  reset_failure w = Some e ->
  let r := callback l u w in
  result r = Return tt /\
  logged (effects r)
    = [(DEBUG, "Could not reset file position: " +:+ exn_str e)] /\
  attempts (effects r)
    = (if decide ("klippy_apis" ∈ components w)
       then [("SDCARD_RESET_FILE", false)] else []) /\
  same_server w (final r).
Proof.
  intros Hu Hf. unfold reset_failure in Hf.
  destruct l; cbn [callback];
    unfold M2RestartHandler.check_restart_execution,
           M30Handler.check_m30_execution;
    rewrite Hu;
    unfold try_except, bind, lookup_component, get_world, ret, raise,
           klippy_apis_run_gcode, logging, emit; cbn;
    destruct (decide _) as [Hin|Hnot]; cbn;
    try (destruct (apis_run_gcode _ _) as [[[]|e'] k]; cbn in *);
    simplify_eq; repeat split; done.
Qed.

End CompletionReset.

(** C1, as stated, fails: one completion notification, delivered once to
    the two listeners that [server:klippy_ready] registered, yields two
    reset commands; and a notification delivered twice to one listener
    yields two as well. *)
Lemma completion_reset_twice :
  status_update_handlers Sim.both_ready = [M2RestartListener; M30Listener] /\
  gcodes (effects (send_status_update (Sim.print_state "complete")
                                      Sim.both_ready))
    = ["SDCARD_RESET_FILE"; "SDCARD_RESET_FILE"] /\
  gcodes (effects (send_status_updates
                     [Sim.print_state "complete"; Sim.print_state "complete"]
                     (Sim.server (Sim.idle 0) [M30Listener] false)))
    = ["SDCARD_RESET_FILE"; "SDCARD_RESET_FILE"] /\
  ~ (length (gcodes (effects (send_status_update (Sim.print_state "complete")
                                                 Sim.both_ready))) <= 1)%nat.
Proof.
  repeat split; try (vm_compute; reflexivity).
  vm_compute. lia.
Qed.

(** Two listeners, three notifications, two of them completions: four
    resets. *)
Lemma reset_per_listener_per_completion_witness :
  gcodes (effects (send_status_updates
                     [Sim.print_state "complete"; Sim.print_state "printing";
                      Sim.print_state "complete"]
                     Sim.both_ready))
    = replicate 4 "SDCARD_RESET_FILE".
Proof.
  apply (reset_per_listener_per_completion
           [Sim.print_state "complete"; Sim.print_state "printing";
            Sim.print_state "complete"] Sim.both_ready).
  vm_compute. reflexivity.
Defined.

(** The M30 listener with Klippy unreachable. *)
Lemma failed_reset_witness :
  let r := callback M30Listener (Sim.print_state "complete")
                    (Sim.server Sim.unreachable [M30Listener] false) in
  result r = Return tt /\
  logged (effects r)
    = [(DEBUG, "Could not reset file position: Klippy Disconnected")] /\
  attempts (effects r) = [("SDCARD_RESET_FILE", false)] /\
  same_server (Sim.server Sim.unreachable [M30Listener] false) (final r).
Proof.
  apply (failed_reset_logged_and_swallowed M30Listener
           (Sim.print_state "complete")
           (Sim.server Sim.unreachable [M30Listener] false)
           (ServerError "Klippy Disconnected")); vm_compute; reflexivity.
Defined.

(** ** The modal-state endpoint (C2, C3, C4, C8) *)

Section ModalState.
Context {num : Type} {PN : PyNum num} {PT : PyText}
        {K : Type} {KL : @Klippy num K}.
Import CNCMCodesHandler.

(** The command map is the vocabulary of the specification. *)
Lemma command_map_vocabulary (action : string) :
  command_map !! action = modal_vocabulary action.
Proof.
  unfold command_map, modal_vocabulary. cbn [list_to_map foldr uncurry fst snd].
  rewrite !lookup_insert, lookup_empty.
  repeat case_decide; simplify_eq; done.
Qed.

Lemma modal_vocabulary_nonempty (action command : string) :
  modal_vocabulary action = Some command -> command <> "".
Proof.
  unfold modal_vocabulary. repeat case_decide; intros; simplify_eq; done.
Qed.

Lemma modal_vocabulary_inj (a b command : string) :
  modal_vocabulary a = Some command -> modal_vocabulary b = Some command ->
  a = b.
Proof.
  unfold modal_vocabulary. repeat case_decide; intros; simplify_eq; done.
Qed.

(** What the endpoint does with a request.  The request type is a member
    of [RequestType], which equals none of the three texts it is compared
    with, so once the handle is set the last [return] is reached. *)
Lemma modal_state_run (req : web_request num) (w : world K) :
  handle_modal_state req w
  = Run (Return (if cnc_klippy_apis w
                 then [("result", RStr "error");
                       ("message", RStr "Invalid request type")]
                 else not_connected))
        w [].
Proof.
  unfold handle_modal_state, klippy_apis, bind, get_world, ret.
  cbn [result final effects].
  destruct (cnc_klippy_apis w); reflexivity.
Qed.



(** The clearing loop: accepted discards, then at most one refused discard
    that ends it. *)
Lemma clear_states_attempts (iterations : list nat) (w : world K) :
  let r := clear_states iterations w in
  result r = Return tt /\
  same_server w (final r) /\
  exists (m : nat) (refused : bool),
    attempts (effects r)
      = replicate m ("M71", true) ++ (if refused then [("M71", false)] else []) /\
    (if refused then m < length iterations else m = length iterations)%nat.
Proof.
  revert w. induction iterations as [|i rest IH]; intros w.
  - repeat split. exists 0%nat, false. by split.
  - cbn [clear_states].
    unfold try_except, bind, klippy_apis_run_gcode, ret.
    destruct (apis_run_gcode "M71" (klippy w)) as [[[]|e] k];
      cbn [is_return result final effects app].
    + destruct (IH (set_klippy k w)) as (Hr & Hs & m & refused & Ha & Hm).
      split; [done|]. split.
      { eapply same_server_trans; [apply same_server_set_klippy|done]. }
      exists (S m), refused. split.
      * change (attempts (Gcode "M71" true :: ?evs))
          with (("M71", true) :: attempts evs).
        by rewrite Ha.
      * cbn [length]. destruct refused; lia.
    + repeat split. exists 0%nat, true. split; [reflexivity|cbn; lia].
Qed.

(** C4: every invocation of the modal-state endpoint, a DELETE like any
    other, returns after at most ten discard attempts, whatever the
    interpreter's stack holds.  The clearing loop of the DELETE branch is
    bounded in itself: entered in any state it returns after at most ten
    [M71] attempts, every attempt but the last was accepted, and a refused
    attempt ends it. *)
Theorem modal_delete_bounded (req : web_request num) (w : world K) :
  (let r := handle_modal_state req w in
   (exists resp, result r = Return resp) /\
   (length (attempts (effects r)) <= 10)%nat) /\
  (let r := clear_states (seq 0 10) w in
   result r = Return tt /\
   exists (m : nat) (refused : bool),
     attempts (effects r)
       = replicate m ("M71", true) ++ (if refused then [("M71", false)] else []) /\
     (length (attempts (effects r)) <= 10)%nat /\
     (refused = false -> m = 10%nat)).
Proof.
  split; cbv zeta.
  - rewrite modal_state_run. cbn [result final effects attempts omap list_omap length].
    split; [eauto|lia].
  - destruct (clear_states_attempts (seq 0 10) w)
      as (Hr & _ & m & refused & Ha & Hm).
    split; [exact Hr|]. exists m, refused.
    rewrite length_seq in Hm. rewrite Ha. repeat split.
    + rewrite length_app, length_replicate. destruct refused; cbn; lia.
    + intros ->. done.
Qed.

End ModalState.





(** C8: the command map is the vocabulary of the specification, but no
    POST reaches it.  A save posted once the Klippy handle is set, with room
    on the stack, sends no [M70]: the request type it carries is a member of
    [RequestType] and equals no text, so the handler answers "Invalid
    request type". *)
Lemma modal_post_save_not_served :
  get_request_type (Sim.action_request POST "save") = POST /\
  CNCMCodesHandler.command_map !! "save" = Some "M70" /\
  CNCMCodesHandler.handle_modal_state
    (Sim.action_request POST "save") (Sim.server (Sim.idle 0) [] true)
  = Run (Return [("result", RStr "error");
                 ("message", RStr "Invalid request type")])
        (Sim.server (Sim.idle 0) [] true) [].
Proof. repeat split; vm_compute; reflexivity. Qed.

(** ** The tool registry (C7, C9, C10) *)

Lemma string_app_nil_r (s : string) : s +:+ "" = s.
Proof.
  induction s as [|c s IH]; [done|].
  change (String c (s +:+ "") = String c s). by rewrite IH.
Qed.

Lemma string_app_assoc (a b c : string) : (a +:+ b) +:+ c = a +:+ (b +:+ c).
Proof.
  induction a as [|x a IH]; [done|].
  change (String x ((a +:+ b) +:+ c) = String x (a +:+ (b +:+ c))).
  by rewrite IH.
Qed.

Lemma string_concat_empty_cons (s : string) (l : list string) :
  String.concat "" (s :: l) = s +:+ String.concat "" l.
Proof.
  destruct l as [|t l]; [|reflexivity].
  symmetry. apply string_app_nil_r.
Qed.

Section ToolRegistry.
Context {num : Type} {PN : PyNum num} {K : Type} {KL : @Klippy num K}.
Import ToolDatabaseAPI.

(** One row of the table: the pair is appended when the value of the row
    converts, and a getter that raises changes nothing. *)
Lemma update_param_run (req : web_request num) (gcode : string)
    (param : string * string * param_type) (w : world K) :
  update_param req gcode param w =
    Run (Return (gcode +:+ default "" (update_pair req param))) w [].
Proof.
  destruct param as [[param_name gcode_param] ty].
  unfold update_param, update_pair, converted.
  destruct ty; cbn [fst snd];
    unfold get_str_opt, get_float_opt, get_int_opt, get_converted,
           try_except, bind, ret, raise;
    [destruct (str_arg req param_name)
    |destruct (float_arg req param_name)
    |destruct (int_arg req param_name)];
    cbn; rewrite ?string_app_nil_r; reflexivity.
Qed.

Lemma update_params_run (req : web_request num) (gcode : string)
    (table : list (string * string * param_type)) (w : world K) :
  update_params req gcode table w =
    Run (Return (gcode +:+ String.concat "" (omap (update_pair req) table)))
        w [].
Proof.
  revert gcode. induction table as [|param rest IH]; intros gcode.
  - cbn. by rewrite string_app_nil_r.
  - cbn [update_params]. unfold bind. rewrite update_param_run.
    cbn [result final effects]. rewrite IH. cbn [result final effects app].
    f_equal. f_equal. cbn [omap list_omap].
    destruct (update_pair req param) as [pair|]; cbn [default].
    + by rewrite string_concat_empty_cons, string_app_assoc.
    + by rewrite string_app_nil_r.
Qed.

Lemma get_klippy_connection_run (w : world K) :
  connection_available w ->
  get_klippy_connection w = Run (Return tt) (cached w) [].
Proof.
  intros Hc. unfold get_klippy_connection, lookup_component, bind, get_world,
    put_world, ret, raise.
  cbn [result final effects].
  destruct (tooldb_printer w) eqn:Hp; cbn [result final effects].
  - destruct w. cbn in Hp. by subst.
  - destruct Hc as [?|Hin]; [congruence|].
    by rewrite decide_True by done.
Qed.

Lemma run_gcode_run (gcode : string) (w : world K) :
  connection_available w ->
  run_gcode gcode w =
    let '(o, k) := conn_run_gcode gcode (klippy w) in
    Run o (set_klippy k (cached w)) [Gcode gcode (is_return o)].
Proof.
  intros Hc. unfold run_gcode, bind.
  rewrite (get_klippy_connection_run w Hc). cbn [result final effects klippy cached].
  by destruct (conn_run_gcode gcode (klippy w)) as [[[]|e] k].
Qed.

Lemma query_printer_objects_run (object : string) (w : world K) :
  connection_available w ->
  query_printer_objects object w =
    let '(o, k) := conn_query_objects object (klippy w) in
    Run o (set_klippy k (cached w)) [Query object].
Proof.
  intros Hc. unfold query_printer_objects, bind.
  rewrite (get_klippy_connection_run w Hc). cbn [result final effects klippy cached].
  by destruct (conn_query_objects object (klippy w)) as [[st|e] k].
Qed.

Lemma connection_available_cached (k : K) (w : world K) :
  connection_available (set_klippy k (cached w)).
Proof. by left. Qed.

Lemma run_gcode_available (gcode : string) (w : world K) :
  connection_available w ->
  gcodes (effects (run_gcode gcode w)) = [gcode].
Proof.
  intros Hc. rewrite (run_gcode_run gcode w Hc).
  by destruct (conn_run_gcode gcode (klippy w)).
Qed.

(** The table of the handler lists the updatable fields. *)
Lemma params_updatable : params = updatable_fields.
Proof. reflexivity. Qed.

(** The whole run of an update whose [id] converts. *)
Lemma update_tool_run (req : web_request num) (w : world K) (tool_id : Z) :
  int_arg req "id" = Supplied tool_id ->
  connection_available w ->
  handle_update_tool req w
  = let '(o, k) := conn_run_gcode (update_command req tool_id) (klippy w) in
    Run match o with
        | Return _ =>
            Return [("success", RBool true);
                    ("message",
                     RStr ("Tool " +:+ pretty tool_id +:+ " updated successfully"))]
        | Raise e => Raise e
        end
        (set_klippy k (cached w))
        [Gcode (update_command req tool_id) (is_return o)].
Proof.
  intros Hid Hc.
  unfold handle_update_tool, get_int. rewrite Hid, params_updatable.
  cbn [get_converted]. rewrite bind_ret_l. cbn [id].
  rewrite (bind_Return _ _ _ _ _ _ (update_params_run _ _ _ _)).
  rewrite string_app_assoc. fold (update_command req tool_id).
  cbn [result final effects app].
  unfold bind, ret. rewrite (run_gcode_run _ w Hc).
  by destruct (conn_run_gcode (update_command req tool_id) (klippy w))
    as [[[]|e1] k1].
Qed.

(** C9, as the code has it.  An update request whose [id] converts sends
    exactly one command, once the connection is at hand: [UPDATE_TOOL
    ID=<id>] followed, in the order of the updatable fields, by one
    [FIELD=<value>] pair for every field whose value converts to the type
    of the field, text in double quotes, and by nothing for any other
    field.  Without an [id] that converts the getter's exception is raised
    and nothing is sent. *)
Theorem update_sends_converted_fields (req : web_request num) (w : world K) :
  (forall tool_id : Z,
      int_arg req "id" = Supplied tool_id ->
      connection_available w ->
      gcodes (effects (handle_update_tool req w))
        = [update_command req tool_id]) /\
  (is_supplied (int_arg req "id") = false ->
   effects (handle_update_tool req w) = [] /\
   exists e, result (handle_update_tool req w) = Raise e /\
             argument_error req e).
Proof.
  split.
  - intros tool_id Hid Hc. rewrite (update_tool_run req w tool_id Hid Hc).
    by destruct (conn_run_gcode (update_command req tool_id) (klippy w))
      as [[[]|e1] k1].
  - intros Hid. unfold handle_update_tool, get_int, get_converted.
    destruct (int_arg req "id") as [|tool_id|e] eqn:Hfound; [|done|].
    + split; [reflexivity|]. eexists. split; [reflexivity|].
      exists "id". by left.
    + split; [reflexivity|]. eexists. split; [reflexivity|].
      exists "id". auto.
Qed.

Lemma tool_info_zero_as_bare (req : web_request num) (w : world K) :
  int_arg req "id" = Supplied 0 ->
  handle_tool_info req w = handle_tool_info (without_id req) w.
Proof.
  intros Hid. unfold handle_tool_info, get_int_opt, get_converted.
  rewrite Hid. cbn [without_id int_arg].
  rewrite decide_True by done. reflexivity.
Qed.

(** What a request without [id] is answered. *)
Lemma tool_info_bare_run (req : web_request num) (w : world K) :
  int_arg req "id" = Absent ->
  connection_available w ->
  let r := handle_tool_info req w in
  gcodes (effects r) = ["TOOL_INFO"] /\
  forall (k1 k2 : K) (status : option (connection_status num)),
    conn_run_gcode "TOOL_INFO" (klippy w) = (Return tt, k1) ->
    conn_query_objects "tool_database" k1 = (Return status, k2) ->
    result r =
      match current_tool_of (tool_database_of status) with
      | Some t => if dict_truthy t then Return [("tool", RTool (Some t))]
                  else Raise (HTTPError 404 "Tool not found")
      | None => Raise (HTTPError 404 "Tool not found")
      end.
Proof.
  intros Hid Hc.
  unfold handle_tool_info, get_int_opt, get_converted. rewrite Hid.
  unfold bind, ret, raise, lift. cbn [result final effects id_truthy].
  rewrite (run_gcode_run "TOOL_INFO" w Hc).
  destruct (conn_run_gcode "TOOL_INFO" (klippy w)) as [[[]|e1] k1] eqn:H1;
    cbn [result final effects is_return].
  2: { split; [done|]. intros; congruence. }
  rewrite (query_printer_objects_run "tool_database" _
             (connection_available_cached k1 w)).
  cbn [klippy set_klippy cached].
  destruct (conn_query_objects "tool_database" k1) as [[st|e2] k2] eqn:H2;
    cbn [result final effects].
  2: { split; [done|]. intros; simplify_eq; congruence. }
  split.
  - destruct (current_tool_of (tool_database_of st)) as [t|];
      [destruct (dict_truthy t) eqn:Ht|];
      cbn [result final effects]; rewrite ?Ht; reflexivity.
  - intros k1' k2' status Hk Hq. simplify_eq.
    rewrite H2 in Hq. simplify_eq.
    destruct (current_tool_of (tool_database_of status)) as [t|];
      [destruct (dict_truthy t) eqn:Ht|];
      cbn [result final effects]; rewrite ?Ht; reflexivity.
Qed.

(** C10: a tool-info request with [id] 0 is answered exactly as the
    request without [id]: the bare [TOOL_INFO] is sent, the tool list is not
    searched, and the answer is the current tool of the refreshed status,
    or 404 when there is none (no [current_tool], or an empty record). *)
Theorem tool_info_zero_is_current (req : web_request num) (w : world K) :
  int_arg req "id" = Supplied 0 ->
  connection_available w ->
  let r := handle_tool_info req w in
  r = handle_tool_info (without_id req) w /\
  gcodes (effects r) = ["TOOL_INFO"] /\
  forall (k1 k2 : K) (status : option (connection_status num)),
    conn_run_gcode "TOOL_INFO" (klippy w) = (Return tt, k1) ->
    conn_query_objects "tool_database" k1 = (Return status, k2) ->
    result r =
      match current_tool_of (tool_database_of status) with
      | Some t => if dict_truthy t then Return [("tool", RTool (Some t))]
                  else Raise (HTTPError 404 "Tool not found")
      | None => Raise (HTTPError 404 "Tool not found")
      end.
Proof.
  intros Hid Hc r. subst r.
  rewrite (tool_info_zero_as_bare req w Hid).
  split; [done|].
  apply tool_info_bare_run; [|done].
  cbn. by rewrite decide_True.
Qed.

End ToolRegistry.

(** ** The most used tool (C7) *)

Section MostUsed.
Context {num : Type} {PN : PyNum num} {PO : @PyNumOrder num PN}
        {K : Type} {KL : @Klippy num K}.
Import ToolDatabaseAPI.

Lemma num_gtb_asym (a b : num) : num_gtb a b = true -> num_gtb b a = false.
Proof.
  intros Hab. destruct (num_gtb b a) eqn:Hba; [|done].
  pose proof (num_gtb_trans a b a Hab Hba) as Haa.
  by rewrite num_gtb_irrefl in Haa.
Qed.

Lemma py_sum_from_numeric (values : list (pyval num)) (acc : num) :
  Forall (fun v => is_Some (as_num v)) values ->
  exists n, py_sum_from (PNum acc) values = Return (PNum n).
Proof.
  revert acc. induction values as [|v rest IH]; intros acc Hall.
  - by exists acc.
  - apply Forall_cons in Hall as [[x Hx] Hrest].
    cbn [py_sum_from]. unfold py_add. cbn [as_num]. rewrite Hx.
    by apply IH.
Qed.

(** The invariant of [max]'s loop: the running maximum [m] beats every
    item before it and is not beaten by any item seen since. *)
Lemma max_loop_first_maximum {A} (key : A -> pyval num) (nk : A -> num)
    (rest pre mid : list A) (m : A) :
  (forall x, x ∈ pre ++ m :: mid ++ rest -> as_num (key x) = Some (nk x)) ->
  (forall x, x ∈ pre -> num_gtb (nk m) (nk x) = true) ->
  (forall x, x ∈ mid -> num_gtb (nk x) (nk m) = false) ->
  exists (pre' : list A) (t : A) (post' : list A),
    max_loop key m (key m) rest = Return t /\
    pre ++ m :: mid ++ rest = pre' ++ t :: post' /\
    (forall x, x ∈ pre' -> num_gtb (nk t) (nk x) = true) /\
    (forall x, x ∈ post' -> num_gtb (nk x) (nk t) = false).
Proof.
  revert pre mid m. induction rest as [|item rest IH]; intros pre mid m Hnum Hpre Hmid.
  - exists pre, m, mid. rewrite app_nil_r. by repeat split.
  - cbn [max_loop]. unfold py_gt.
    rewrite (Hnum item) by set_solver. rewrite (Hnum m) by set_solver.
    destruct (num_gtb (nk item) (nk m)) eqn:Hgt.
    + destruct (IH (pre ++ m :: mid) [] item) as (pre' & t & post' & Hr & Heq & H1 & H2).
      * intros x Hx. apply Hnum. rewrite <- app_assoc in Hx. set_solver.
      * intros x [Hx|Hx]%elem_of_app.
        { eapply num_gtb_trans; eauto. }
        apply elem_of_cons in Hx as [->|Hx]; [done|].
        destruct (num_gtb (nk item) (nk x)) eqn:Hix; [done|].
        pose proof (num_gtb_negtrans _ _ _ Hix (Hmid x Hx)). congruence.
      * intros x Hx. by apply elem_of_nil in Hx.
      * exists pre', t, post'. repeat split; try done.
        rewrite <- Heq. by rewrite <- app_assoc.
    + destruct (IH pre (mid ++ [item]) m) as (pre' & t & post' & Hr & Heq & H1 & H2).
      * intros x Hx. apply Hnum. rewrite <- app_assoc in Hx. done.
      * done.
      * intros x [Hx|Hx]%elem_of_app; [by apply Hmid|].
        apply list_elem_of_singleton in Hx as ->. done.
      * exists pre', t, post'. repeat split; try done.
        rewrite <- Heq. by rewrite <- app_assoc.
Qed.

(** [sum] over values that are not all numbers raises [TypeError], and
    over numbers it returns a number. *)
Lemma py_sum_from_cases (values : list (pyval num)) (acc : num) :
  (Forall (fun v => is_Some (as_num v)) values /\
   exists n, py_sum_from (PNum acc) values = Return (PNum n)) \/
  (~ Forall (fun v => is_Some (as_num v)) values /\
   exists msg, py_sum_from (PNum acc) values = Raise (TypeError msg)).
Proof.
  revert acc. induction values as [|v rest IH]; intros acc.
  - left. split; [constructor|by exists acc].
  - cbn [py_sum_from]. unfold py_add. cbn [as_num].
    destruct (as_num v) as [x|] eqn:Hx.
    + destruct (IH (num_add acc x)) as [[Hall Hsum]|[Hnot Hsum]].
      * left. split; [constructor; eauto|done].
      * right. split; [|done]. intros Hall.
        apply Forall_cons in Hall as [_ Hrest]. by apply Hnot.
    + right. split.
      * intros Hall. apply Forall_cons in Hall as [[y Hy] _]. congruence.
      * destruct v; try discriminate Hx; eauto.
Qed.

(** The listing the handler works on is the one Klippy answered. *)
Lemma tools_of_listing (answer : option (connection_status num)) :
  tools_of (tool_database_of answer) = listing answer.
Proof. by destruct answer as [[[[[tools|] current]|] monitoring]|]. Qed.

(** [t.get(key, 0)] is the figure under [key] where that is a number. *)
Lemma get_field_figure (key : string) (t : tool num) :
  numeric_field key t ->
  as_num (get_field key (PNum (num_of_Z 0)) t) = Some (figure key t).
Proof.
  unfold numeric_field, get_field, figure.
  by destruct (t !! key) as [[]|].
Qed.

Lemma get_field_numeric (key : string) (t : tool num) :
  is_Some (as_num (get_field key (PNum (num_of_Z 0)) t)) ->
  numeric_field key t.
Proof.
  unfold numeric_field, get_field.
  destruct (t !! key) as [[]|]; cbn; try done; by intros [? ?].
Qed.

Lemma usage_values_numeric (key : string) (tools : list (tool num)) :
  Forall (numeric_field key) tools <->
  Forall (fun v => is_Some (as_num v))
         (map (get_field key (PNum (num_of_Z 0))) tools).
Proof.
  rewrite Forall_map.
  split; intros Hall; (eapply Forall_impl; [exact Hall|]); intros t Ht.
  - cbn. rewrite (get_field_figure key t Ht). by eexists.
  - by apply get_field_numeric.
Qed.


End MostUsed.

(** ** The registry on the reference Klippy *)

#[global] Instance num_sim_order : @PyNumOrder Sim.number Sim.num_sim.
Proof.
  split; cbn; intros *; rewrite ?Z.gtb_ltb, ?Z.ltb_lt, ?Z.ltb_ge; lia.
Qed.

Example update_command_example :
  gcodes (effects (ToolDatabaseAPI.handle_update_tool
                     Sim.update_request (Sim.server Sim.workshop [] false)))
  = ["UPDATE_TOOL ID=1 NAME=" +:+ quoted "Drill" +:+ " DIAMETER=35.0"].
Proof. vm_compute. reflexivity. Qed.

Example most_used_example :
  (result (ToolDatabaseAPI.handle_tool_stats
             (Sim.bare_request GET) (Sim.server Sim.workshop [] false)))
  = Return [("tool_count", RInt 4); ("active_tools", RInt 4);
            ("inactive_tools", RInt 0); ("total_runtime", RNum (Sim.Int 23));
            ("total_distance", RNum (Sim.Int 0));
            ("most_used_tool", RTool (Some (Sim.used_tool 2 9)))].
Proof. vm_compute. reflexivity. Qed.

Example tool_info_by_id_example :
  result (ToolDatabaseAPI.handle_tool_info
            (Sim.id_request 3) (Sim.server Sim.workshop [] false))
  = Return [("tool", RTool (Some (Sim.used_tool 3 9)))].
Proof. vm_compute. reflexivity. Qed.

(** The reference server has [klippy_connection] loaded. *)
Lemma sim_connection_available (s : Sim.sim) (ls : list listener) (apis : bool) :
  connection_available (Sim.server s ls apis).
Proof. right. cbn. set_solver. Qed.

(** Every usage figure of the workshop listing is a number. *)
Lemma workshop_numeric :
  Forall numeric_usage (listing (Sim.objects Sim.workshop)).
Proof.
  repeat (apply Forall_cons; split); [..|apply Forall_nil];
    split; vm_compute; done.
Qed.

(** C9, as stated, fails: the update of tool 1 supplies a length, but the
    length does not convert; the command carries no [LENGTH] pair and the
    request is answered as a success. *)
Lemma update_drops_unconvertible_field :
  raw_arg Sim.update_request "length" = Some (JStr "long") /\
  supplies Sim.update_request ("length", "LENGTH", ToolDatabaseAPI.float_param)
    = true /\
  ToolDatabaseAPI.handle_update_tool
    Sim.update_request (Sim.server Sim.workshop [] false)
  = Run (Return [("success", RBool true);
                 ("message", RStr "Tool 1 updated successfully")])
        (cached (Sim.server Sim.workshop [] false))
        [Gcode ("UPDATE_TOOL ID=1 NAME=" +:+ quoted "Drill"
                +:+ " DIAMETER=35.0") true].
Proof. repeat split; vm_compute; reflexivity. Qed.

(** The update of tool 1 on the reference server, and an update without
    [id]. *)
Lemma update_sends_converted_fields_witness :
  gcodes (effects (ToolDatabaseAPI.handle_update_tool
                     Sim.update_request (Sim.server Sim.workshop [] false)))
    = ["UPDATE_TOOL ID=1 NAME=" +:+ quoted "Drill" +:+ " DIAMETER=35.0"] /\
  effects (ToolDatabaseAPI.handle_update_tool
             (Sim.bare_request POST) (Sim.server Sim.workshop [] false)) = [] /\
  exists e,
    result (ToolDatabaseAPI.handle_update_tool
              (Sim.bare_request POST) (Sim.server Sim.workshop [] false))
      = Raise e /\
    argument_error (Sim.bare_request POST) e.
Proof.
  split.
  - refine (eq_trans
              (proj1 (update_sends_converted_fields Sim.update_request
                        (Sim.server Sim.workshop [] false))
                     1 eq_refl (sim_connection_available _ _ _)) _).
    vm_compute. reflexivity.
  - exact (proj2 (update_sends_converted_fields (Sim.bare_request POST)
                    (Sim.server Sim.workshop [] false)) eq_refl).
Defined.

Example tool_info_zero_example :
  result (ToolDatabaseAPI.handle_tool_info
            (Sim.id_request 0) (Sim.server Sim.workshop [] false))
  = Return [("tool", RTool (Some (Sim.used_tool 2 9)))].
Proof. vm_compute. reflexivity. Qed.

(** Tool 0 is listed and tool 2 is current: [id=0] answers tool 2. *)
Lemma tool_info_zero_is_current_witness :
  ToolDatabaseAPI.handle_tool_info (Sim.id_request 0)
                                   (Sim.server Sim.workshop [] false)
  = ToolDatabaseAPI.handle_tool_info (without_id (Sim.id_request 0))
                                     (Sim.server Sim.workshop [] false) /\
  gcodes (effects (ToolDatabaseAPI.handle_tool_info
                     (Sim.id_request 0) (Sim.server Sim.workshop [] false)))
  = ["TOOL_INFO"] /\
  result (ToolDatabaseAPI.handle_tool_info
            (Sim.id_request 0) (Sim.server Sim.workshop [] false))
  = Return [("tool", RTool (Some (Sim.used_tool 2 9)))].
Proof.
  destruct (tool_info_zero_is_current (Sim.id_request 0)
              (Sim.server Sim.workshop [] false) eq_refl
              (sim_connection_available _ _ _)) as (Hbare & Hsent & Hanswer).
  split; [exact Hbare|]. split; [exact Hsent|].
  exact (Hanswer Sim.workshop Sim.workshop (Sim.objects Sim.workshop)
                 eq_refl eq_refl).
Defined.



(** ** Reaching Klippy (C6) *)

Section Connectivity.
Context {num : Type} {PN : PyNum num} {PT : PyText}
        {K : Type} {KL : @Klippy num K}.

Lemma guarded_get_converted {A B} (req : web_request num) (inj : A -> B)
    (found : lookup A) (key : string) (fallback : option B)
    (f : B -> coro K (response num)) :
  (forall e, found = Malformed e -> argument_error req e) ->
  (forall b, guarded req (f b)) ->
  guarded req (bind (get_converted req inj found key fallback) f).
Proof.
  intros Hm Hf w Hw. unfold get_converted.
  destruct found as [|a|e]; [destruct fallback as [d|]|..];
    rewrite ?bind_ret_l, ?bind_raise_l; try by apply Hf.
  - repeat split. right. eexists. split; [done|]. left. exists key. by left.
  - repeat split. right. eexists. split; [done|]. left. by apply Hm.
Qed.

(** What [.lower()] does to the direction of a request: it hands over the
    text in lower case, or raises for a value that is not text. *)
Lemma lower_direction (req : web_request num) (w : world K) :
  (exists s, lower (get req "direction" "cw") w = Run (Return s) w []) \/
  (exists e, lower (get req "direction" "cw") w = Run (Raise e) w [] /\
             reading_error req e).
Proof.
  unfold get.
  destruct (raw_arg req "direction") as [v|] eqn:Hv; cbn [default];
    [|left; by eexists].
  destruct v; try (left; by eexists);
    right; (eexists; split; [reflexivity|]);
    right; (eexists; split; [exact Hv|]); by split.
Qed.

Lemma guarded_lower (req : web_request num)
    (f : string -> coro K (response num)) :
  (forall s, guarded req (f s)) ->
  guarded req (bind (lower (get req "direction" "cw")) f).
Proof.
  intros Hf w Hw.
  destruct (lower_direction req w) as [[s Hs]|[e [He Herr]]].
  - rewrite (bind_Return _ _ _ _ _ _ Hs). cbn [app].
    destruct (f s w) eqn:Hrun. specialize (Hf s w Hw). by rewrite Hrun in Hf.
  - rewrite (bind_Raise _ _ _ _ _ _ He). repeat split. right. eauto.
Qed.

Lemma guarded_logging (req : web_request num) (lvl : level) (msg : string)
    (m : coro K (response num)) :
  guarded req m -> guarded req (bind (logging lvl msg) (fun _ => m)).
Proof.
  intros Hm w Hw. destruct (Hm w Hw) as (Ha & Hq & Hf & Hr).
  unfold bind, logging, emit. cbn [result final effects].
  by rewrite attempts_app, queries_app, Ha, Hq.
Qed.

Lemma guarded_check (req : web_request num) (m : coro K (response num)) :
  guarded req
    (bind CNCMCodesHandler.klippy_apis
          (fun apis => if negb apis then ret CNCMCodesHandler.not_connected
                       else m)).
Proof.
  intros w Hw.
  unfold CNCMCodesHandler.klippy_apis, bind, get_world, ret.
  cbn [result final effects]. rewrite Hw. cbn. repeat split. by left.
Qed.

Lemma int_arg_error (req : web_request num) (key : string) (e : exn) :
  int_arg req key = Malformed e -> argument_error req e.
Proof. intros. exists key. auto. Qed.

Lemma float_arg_error (req : web_request num) (key : string) (e : exn) :
  float_arg req key = Malformed e -> argument_error req e.
Proof. intros. exists key. auto. Qed.

Lemma boolean_arg_error (req : web_request num) (key : string) (e : exn) :
  boolean_arg req key = Malformed e -> argument_error req e.
Proof. intros. exists key. auto. Qed.

Lemma str_arg_error (req : web_request num) (key : string) (e : exn) :
  str_arg req key = Malformed e -> argument_error req e.
Proof. intros. exists key. auto 6. Qed.

End Connectivity.

Create HintDb arg_errors.
#[global] Hint Resolve int_arg_error float_arg_error boolean_arg_error
  str_arg_error : arg_errors.

Ltac unfold_getters :=
  unfold get_int, get_int_or, get_int_opt, get_float, get_float_or,
    get_float_opt, get_boolean, get_boolean_or, get_boolean_opt,
    get_str, get_str_or, get_str_opt.

(** Peels getters and log calls off a CNC handler until the check of the
    Klippy handle is reached. *)
(** A member of [RequestType] equals no text. *)
Ltac flag_steps :=
  repeat match goal with
    | |- context [eq_text (Flag ?member) ?text] =>
        change (eq_text (Flag member) text) with false
    end.

Ltac guarded_steps :=
  repeat first
    [ progress cbv beta iota zeta
    | progress flag_steps
    | apply guarded_check
    | apply guarded_logging
    | apply guarded_get_converted; [eauto with arg_errors | intros ?]
    | apply guarded_lower; intros ?
    | match goal with
      | |- guarded _ (if eq_text ?obj ?text then _ else _) =>
          destruct (eq_text obj text)
      end
    | case_decide ].

Section ConnectivityClaims.
Context {num : Type} {PN : PyNum num} {PT : PyText}
        {K : Type} {KL : @Klippy num K}.

Lemma cnc_endpoints_guarded (h : web_request num -> coro K (response num))
    (req : web_request num) :
  h ∈ cnc_endpoints -> guarded req (h req).
Proof.
  unfold cnc_endpoints. rewrite !elem_of_cons, elem_of_nil.
  intros [->|[->|[->|[->|[->|[->|[->|[->|[->|[]]]]]]]]]].
  - unfold CNCMCodesHandler.handle_tool_change. unfold_getters. guarded_steps.
  - unfold CNCMCodesHandler.handle_cnc_status. unfold_getters. guarded_steps.
  - unfold CNCMCodesHandler.handle_coolant. unfold_getters. guarded_steps.
  - unfold CNCMCodesHandler.handle_spindle. unfold_getters. guarded_steps.
  - unfold CNCMCodesHandler.handle_modal_state. unfold_getters. guarded_steps.
  - unfold CNCMCodesHandler.handle_pallet_change. unfold_getters. guarded_steps.
  - unfold CNCMCodesHandler.handle_digital_io. unfold_getters. guarded_steps.
  - unfold CNCMCodesHandler.handle_analog_io. unfold_getters. guarded_steps.
  - unfold CNCMCodesHandler.handle_subroutine. unfold_getters. guarded_steps.
Qed.

Lemma propagates_get_converted {A B C} (req : web_request num) (inj : A -> B)
    (found : lookup A) (key : string) (fallback : option B)
    (f : B -> coro K C) :
  (forall e, found = Malformed e -> argument_error req e) ->
  (forall b, propagates req (f b)) ->
  propagates req (bind (get_converted req inj found key fallback) f).
Proof.
  intros Hm Hf w err Hc Hfail. unfold get_converted.
  destruct found as [|a|e]; [destruct fallback as [d|]|..];
    rewrite ?bind_ret_l, ?bind_raise_l; try by eapply Hf.
  - eexists. split; [done|]. right. exists key. by left.
  - eexists. split; [done|]. right. by apply Hm.
Qed.

Lemma propagates_run_gcode {C} (req : web_request num) (gcode : string)
    (f : unit -> coro K C) :
  propagates req (bind (ToolDatabaseAPI.run_gcode gcode) f).
Proof.
  intros w err Hc [Hrun _]. unfold bind.
  rewrite (run_gcode_run gcode w Hc). specialize (Hrun gcode).
  destruct (conn_run_gcode gcode (klippy w)) as [o k]. cbn in Hrun. subst o.
  cbn. eauto.
Qed.

Lemma propagates_query {C} (req : web_request num) (object : string)
    (f : option (connection_status num) -> coro K C) :
  propagates req (bind (ToolDatabaseAPI.query_printer_objects object) f).
Proof.
  intros w err Hc [_ Hquery]. unfold bind.
  rewrite (query_printer_objects_run object w Hc). specialize (Hquery object).
  destruct (conn_query_objects object (klippy w)) as [o k]. cbn in Hquery.
  subst o. cbn. eauto.
Qed.

Lemma propagates_update_params {C} (req : web_request num) (gcode : string)
    (table : list (string * string * ToolDatabaseAPI.param_type))
    (f : string -> coro K C) :
  (forall g, propagates req (f g)) ->
  propagates req (bind (ToolDatabaseAPI.update_params req gcode table) f).
Proof.
  intros Hf w err Hc Hfail. unfold bind. rewrite update_params_run.
  cbn [result final effects]. by eapply Hf.
Qed.

Lemma tool_endpoints_propagate (h : web_request num -> coro K (response num))
    (req : web_request num) :
  h ∈ tool_endpoints -> propagates req (h req).
Proof.
  unfold tool_endpoints. rewrite !elem_of_cons, elem_of_nil.
  intros [->|[->|[->|[->|[->|[->|[->|[->|[->|[->|[->|[]]]]]]]]]]]].
  - unfold ToolDatabaseAPI.handle_list_tools. unfold_getters.
    apply propagates_get_converted; [eauto with arg_errors|intros ?].
    apply propagates_query.
  - unfold ToolDatabaseAPI.handle_add_tool. unfold_getters.
    repeat (apply propagates_get_converted; [eauto with arg_errors|intros ?]).
    apply propagates_run_gcode.
  - unfold ToolDatabaseAPI.handle_update_tool. unfold_getters.
    apply propagates_get_converted; [eauto with arg_errors|intros ?].
    apply propagates_update_params. intros ?. apply propagates_run_gcode.
  - unfold ToolDatabaseAPI.handle_delete_tool. unfold_getters.
    apply propagates_get_converted; [eauto with arg_errors|intros ?].
    apply propagates_run_gcode.
  - unfold ToolDatabaseAPI.handle_select_tool. unfold_getters.
    apply propagates_get_converted; [eauto with arg_errors|intros ?].
    apply propagates_run_gcode.
  - unfold ToolDatabaseAPI.handle_tool_info. unfold_getters.
    apply propagates_get_converted; [eauto with arg_errors|intros ?].
    apply propagates_run_gcode.
  - unfold ToolDatabaseAPI.handle_tool_stats. apply propagates_query.
  - unfold ToolDatabaseAPI.handle_start_monitoring. apply propagates_run_gcode.
  - unfold ToolDatabaseAPI.handle_stop_monitoring. apply propagates_run_gcode.
  - unfold ToolDatabaseAPI.handle_export_tools. unfold_getters.
    apply propagates_get_converted; [eauto with arg_errors|intros ?].
    apply propagates_run_gcode.
  - unfold ToolDatabaseAPI.handle_import_tools. unfold_getters.
    repeat (apply propagates_get_converted; [eauto with arg_errors|intros ?]).
    apply propagates_run_gcode.
Qed.

(** C6, as the code has it.  Every endpoint of [CNCMCodesHandler] that is
    called before its Klippy handle is set sends no command and no query,
    leaves the server as it was and answers [{'result': 'error', 'message':
    'Klippy not connected'}], unless reading its arguments raised before the
    check: the exception of one of its argument getters, or the
    [AttributeError] of [.lower()] on a [direction] that is not text.  The
    endpoints of [ToolDatabaseAPI] have no such check and no [try]: when the
    calls through the connection raise, the handler raises as well. *)
Theorem guard_before_klippy_ready :
  (forall (h : web_request num -> coro K (response num)) (req : web_request num),
      h ∈ cnc_endpoints -> guarded req (h req)) /\
  (forall (h : web_request num -> coro K (response num)) (req : web_request num),
      h ∈ tool_endpoints -> propagates req (h req)) /\
  (forall req : web_request num,
      propagates req (ToolDatabaseAPI.handle_monitoring_status req)).
Proof.
  split; [|split].
  - apply cnc_endpoints_guarded.
  - apply tool_endpoints_propagate.
  - intros req. unfold ToolDatabaseAPI.handle_monitoring_status.
    apply propagates_query.
Qed.

End ConnectivityClaims.

(** C6, as stated, fails.  With Klippy unreachable a tool-database command
    is handed to the connection and its exception reaches the caller; a
    pallet change made after the handle was set is sent as well, its failure
    coming back as the error result with the exception's text; and a spindle
    request whose direction is a number raises before any check. *)
Lemma unreachable_klippy_still_called :
  result (ToolDatabaseAPI.handle_start_monitoring
            (Sim.bare_request POST) (Sim.server Sim.unreachable [] false))
    = Raise (ServerError "Klippy Disconnected") /\
  attempts (effects (ToolDatabaseAPI.handle_start_monitoring
                       (Sim.bare_request POST)
                       (Sim.server Sim.unreachable [] false)))
    = [("START_TOOL_MONITORING", false)] /\
  CNCMCodesHandler.handle_pallet_change
    (Sim.bare_request POST) (Sim.server Sim.unreachable [] true)
    = Run (Return [("result", RStr "error");
                   ("message", RStr "Klippy Disconnected")])
          (Sim.server Sim.unreachable [] true)
          [Log INFO "CNC Pallet Change: M60 (pause=True)";
           Gcode "M60" false;
           Log ERROR "Pallet change failed: Klippy Disconnected"] /\
  CNCMCodesHandler.handle_spindle
    Bench.spindle_numbered (Sim.server Sim.unreachable [] false)
    = Run (Raise (AttributeError "'int' object has no attribute 'lower'"))
          (Sim.server Sim.unreachable [] false) [].
Proof. repeat split; vm_compute; reflexivity. Qed.

(** A save before [server:klippy_ready], and a delete with Klippy
    unreachable. *)
Lemma guard_before_klippy_ready_witness :
  (let r := CNCMCodesHandler.handle_modal_state
              (Sim.action_request POST "save")
              (Sim.server (Sim.idle 0) [] false) in
   attempts (effects r) = [] /\ queries (effects r) = [] /\
   final r = Sim.server (Sim.idle 0) [] false /\
   (result r = Return CNCMCodesHandler.not_connected \/
    exists e, result r = Raise e /\
              reading_error (Sim.action_request POST "save") e)) /\
  (exists e,
      result (ToolDatabaseAPI.handle_delete_tool
                (Sim.id_request 3) (Sim.server Sim.unreachable [] false))
        = Raise e /\
      (e = ServerError "Klippy Disconnected" \/
       argument_error (Sim.id_request 3) e)).
Proof.
  split.
  - apply (proj1 guard_before_klippy_ready
             CNCMCodesHandler.handle_modal_state
             (Sim.action_request POST "save")).
    + unfold cnc_endpoints. set_solver.
    + reflexivity.
  - apply (proj1 (proj2 guard_before_klippy_ready)
             ToolDatabaseAPI.handle_delete_tool (Sim.id_request 3)).
    + unfold tool_endpoints. set_solver.
    + apply sim_connection_available.
    + split; intros; reflexivity.
Defined.

(** * Further properties of the handlers *)

(** ** What the CNC endpoints let out *)

Section Containment.
Context {num : Type} {PN : PyNum num} {PT : PyText}
        {K : Type} {KL : @Klippy num K}.

Lemma server_unchanged (w : world K) : same_server w w.
Proof. by repeat split. Qed.

Lemma keeps_ret {A} (a : A) : keeps (K:=K) (ret a).
Proof. intros w. apply server_unchanged. Qed.

Lemma keeps_raise {A} (e : exn) : keeps (K:=K) (raise (A:=A) e).
Proof. intros w. apply server_unchanged. Qed.

Lemma keeps_logging (lvl : level) (msg : string) : keeps (K:=K) (logging lvl msg).
Proof. intros w. apply server_unchanged. Qed.

Lemma keeps_bind {A B} (m : coro K A) (f : A -> coro K B) :
  keeps m -> (forall a, keeps (f a)) -> keeps (bind m f).
Proof.
  intros Hm Hf w. unfold bind.
  destruct (result (m w)) as [a|e]; cbn [final]; [|apply Hm].
  eapply same_server_trans; [apply Hm|apply Hf].
Qed.

Lemma keeps_try_except {A} (m : coro K A) (h : exn -> coro K A) :
  keeps m -> (forall e, keeps (h e)) -> keeps (try_except m h).
Proof.
  intros Hm Hh w. unfold try_except.
  destruct (result (m w)) as [a|e]; cbn [final]; [apply Hm|].
  eapply same_server_trans; [apply Hm|apply Hh].
Qed.

Lemma keeps_run_gcode (command : string) :
  keeps (K:=K) (klippy_apis_run_gcode command).
Proof.
  intros w. unfold klippy_apis_run_gcode.
  destruct (apis_run_gcode command (klippy w)) as [o k].
  apply same_server_set_klippy.
Qed.

Lemma keeps_query_objects (object : string) :
  keeps (K:=K) (klippy_apis_query_objects object).
Proof.
  intros w. unfold klippy_apis_query_objects.
  destruct (apis_query_objects object (klippy w)) as [o k].
  apply same_server_set_klippy.
Qed.

Lemma keeps_get_converted {A B} (req : web_request num) (inj : A -> B)
    (found : lookup A) (key : string) (fallback : option B) :
  keeps (K:=K) (get_converted req inj found key fallback).
Proof.
  intros w. unfold get_converted.
  destruct found; [destruct fallback|..]; apply server_unchanged.
Qed.

Lemma keeps_klippy_apis : keeps (K:=K) CNCMCodesHandler.klippy_apis.
Proof. intros w. apply server_unchanged. Qed.

Lemma keeps_clear_states (iterations : list nat) :
  keeps (K:=K) (CNCMCodesHandler.clear_states iterations).
Proof. intros w. apply clear_states_attempts. Qed.

Lemma settles_ret {A} (a : A) : settles (K:=K) (ret a).
Proof. intros w. by exists a. Qed.

Lemma settles_bind {A B} (m : coro K A) (f : A -> coro K B) :
  settles m -> (forall a, settles (f a)) -> settles (bind m f).
Proof.
  intros Hm Hf w. unfold bind. destruct (Hm w) as [a ->].
  cbn [result]. apply Hf.
Qed.

Lemma settles_logging (lvl : level) (msg : string) :
  settles (K:=K) (logging lvl msg).
Proof. intros w. by exists tt. Qed.

Lemma settles_klippy_apis : settles (K:=K) CNCMCodesHandler.klippy_apis.
Proof. intros w. by eexists. Qed.

(** [try] with a handler that returns: nothing gets out. *)
Lemma settles_try_except {A} (m : coro K A) (h : exn -> coro K A) :
  (forall e, settles (h e)) -> settles (try_except m h).
Proof.
  intros Hh w. unfold try_except.
  destruct (result (m w)) as [a|e] eqn:Hr; [by exists a|].
  cbn [result]. apply Hh.
Qed.

Lemma contains_settles {A} (req : web_request num) (m : coro K A) :
  settles m -> contains req m.
Proof. intros Hm w. left. apply Hm. Qed.

Lemma contains_get_converted {A B C} (req : web_request num) (inj : A -> B)
    (found : lookup A) (key : string) (fallback : option B)
    (f : B -> coro K C) :
  (forall e, found = Malformed e -> argument_error req e) ->
  (forall b, contains req (f b)) ->
  contains req (bind (get_converted req inj found key fallback) f).
Proof.
  intros Hm Hf w. unfold get_converted.
  destruct found as [|a|e]; [destruct fallback as [d|]|..];
    rewrite ?bind_ret_l, ?bind_raise_l; try by apply Hf.
  - right. eexists. split; [done|]. left. exists key. by left.
  - right. eexists. split; [done|]. left. by apply Hm.
Qed.

Lemma keeps_lower (v : json num) : keeps (K:=K) (lower v).
Proof. intros w. destruct v; apply server_unchanged. Qed.

Lemma contains_lower {C} (req : web_request num) (f : string -> coro K C) :
  (forall s, contains req (f s)) ->
  contains req (bind (lower (get req "direction" "cw")) f).
Proof.
  intros Hf w.
  destruct (lower_direction req w) as [[s Hs]|[e [He Herr]]].
  - rewrite (bind_Return _ _ _ _ _ _ Hs). cbn [result]. apply Hf.
  - rewrite (bind_Raise _ _ _ _ _ _ He). right. eauto.
Qed.

End Containment.

Ltac conduct_steps :=
  repeat first
    [ progress cbv beta iota zeta
    | progress flag_steps
    | apply keeps_ret | apply keeps_raise | apply keeps_logging
    | apply keeps_run_gcode | apply keeps_query_objects
    | apply keeps_get_converted | apply keeps_klippy_apis
    | apply keeps_clear_states | apply keeps_lower
    | apply settles_ret | apply settles_logging | apply settles_klippy_apis
    | apply settles_try_except; intros ?
    | apply keeps_try_except; [|intros ?]
    | apply settles_bind; [|intros ?]
    | apply keeps_bind; [|intros ?]
    | apply contains_get_converted; [eauto with arg_errors | intros ?]
    | apply contains_lower; intros ?
    | match goal with
      | |- contains _ (match ?x with _ => _ end) => destruct x
      | |- settles (match ?x with _ => _ end) => destruct x
      | |- keeps (match ?x with _ => _ end) => destruct x
      end
    | apply contains_settles ].

Section ContainmentClaims.
Context {num : Type} {PN : PyNum num} {PT : PyText}
        {K : Type} {KL : @Klippy num K}.

Lemma cnc_endpoints_contain (h : web_request num -> coro K (response num))
    (req : web_request num) :
  h ∈ cnc_endpoints -> contains req (h req) /\ keeps (h req).
Proof.
  unfold cnc_endpoints. rewrite !elem_of_cons, elem_of_nil.
  intros [->|[->|[->|[->|[->|[->|[->|[->|[->|[]]]]]]]]]].
  - unfold CNCMCodesHandler.handle_tool_change. unfold_getters. split; conduct_steps.
  - unfold CNCMCodesHandler.handle_cnc_status. unfold_getters. split; conduct_steps.
  - unfold CNCMCodesHandler.handle_coolant. unfold_getters. split; conduct_steps.
  - unfold CNCMCodesHandler.handle_spindle. unfold_getters. split; conduct_steps.
  - unfold CNCMCodesHandler.handle_modal_state. unfold_getters. split; conduct_steps.
  - unfold CNCMCodesHandler.handle_pallet_change. unfold_getters. split; conduct_steps.
  - unfold CNCMCodesHandler.handle_digital_io. unfold_getters. split; conduct_steps.
  - unfold CNCMCodesHandler.handle_analog_io. unfold_getters. split; conduct_steps.
  - unfold CNCMCodesHandler.handle_subroutine. unfold_getters. split; conduct_steps.
Qed.

End ContainmentClaims.

Section ContainmentTheorems.
Context {num : Type} {PN : PyNum num} {PT : PyText}
        {K : Type} {KL : @Klippy num K}.

(** X1: no endpoint of [CNCMCodesHandler] lets an exception of Klippy out:
    whatever Klippy and the server do, it returns a response, or raises
    what reading its own arguments raised, the exception of a getter or the
    [AttributeError] of [.lower()] on a direction that is not text; and it
    leaves the registrations and the component attributes as they were. *)
Theorem cnc_endpoints_contain_klippy
    (h : web_request num -> coro K (response num))
    (req : web_request num) (w : world K) :
  h ∈ cnc_endpoints ->
  ((exists resp, result (h req w) = Return resp) \/
   (exists e, result (h req w) = Raise e /\ reading_error req e)) /\
  same_server w (final (h req w)).
Proof.
  intros Hh. destruct (cnc_endpoints_contain h req Hh) as [Hc Hk].
  split; [apply Hc|apply Hk].
Qed.

(** X2: the status, modal-state and subroutine endpoints return a response
    for every request and every server.  The status endpoint reads no
    argument; the modal-state endpoint reaches no branch that reads one;
    the subroutine endpoint reads [action] without conversion and compares
    it, which no value can make raise, and reads [program] inside the
    [try]. *)
Theorem status_modal_subroutine_always_return (req : web_request num)
    (w : world K) :
  (exists resp, result (CNCMCodesHandler.handle_cnc_status req w) = Return resp) /\
  (exists resp, result (CNCMCodesHandler.handle_modal_state req w) = Return resp) /\
  (exists resp, result (CNCMCodesHandler.handle_subroutine req w) = Return resp).
Proof.
  split; [|split].
  - assert (Hs : settles (CNCMCodesHandler.handle_cnc_status (K:=K) req)).
    { unfold CNCMCodesHandler.handle_cnc_status. conduct_steps. }
    apply Hs.
  - assert (Hs : settles (CNCMCodesHandler.handle_modal_state (K:=K) req)).
    { unfold CNCMCodesHandler.handle_modal_state. conduct_steps. }
    apply Hs.
  - assert (Hs : settles (CNCMCodesHandler.handle_subroutine (K:=K) req)).
    { unfold CNCMCodesHandler.handle_subroutine. conduct_steps. }
    apply Hs.
Qed.

End ContainmentTheorems.

(** ** The manual endpoints and the listeners *)

Section ResetEndpoints.
Context {num : Type} {PN : PyNum num} {K : Type} {KL : @Klippy num K}.

(** X3: the manual reset endpoints answer ["ok"] whatever happens.  The
    reset is tried at most once; when it fails, for a missing
    [klippy_apis] or a refusal of Klippy alike, the only trace is the
    message "acknowledged (Klipper not connected)", returned and logged at
    INFO. *)
Theorem manual_reset_always_ok (w : world K) :
  (let r := M2RestartHandler.handle_restart_endpoint (num:=num) w in
   result r = Return [("result", RStr "ok");
                      ("message", RStr (manual_message "M2 RESTART" w))] /\
   logged (effects r) = [(INFO, manual_message "M2 RESTART" w)] /\
   (length (attempts (effects r)) <= 1)%nat) /\
  (let r := M30Handler.handle_m30_endpoint (num:=num) w in
   result r = Return [("result", RStr "ok");
                      ("message", RStr (manual_message "M30" w))] /\
   logged (effects r) = [(INFO, manual_message "M30" w)] /\
   (length (attempts (effects r)) <= 1)%nat).
Proof.
  unfold manual_message, reset_failure.
  split; cbv zeta;
    unfold M2RestartHandler.handle_restart_endpoint,
           M30Handler.handle_m30_endpoint;
    match goal with
    | |- context [try_except (bind (try_except ?body ?h) ?f) ?h'] =>
        pose proof (reset_attempt_run
                      (K:=K) (A:=string)
                      ltac:(match body with
                            | context [ret ?msg] => exact msg end) w) as Hbody
    end;
    (destruct (decide ("klippy_apis" ∈ components w)) as [Hin|Hnot];
     [destruct (apis_run_gcode "SDCARD_RESET_FILE" (klippy w)) as [[[]|e1] k1]|]);
    cbn [fst] in *;
    first
      [ erewrite try_except_Return;
        [|erewrite bind_Return;
          [|erewrite try_except_Return; [|exact Hbody]; reflexivity];
          reflexivity]
      | erewrite try_except_Return;
        [|erewrite bind_Return;
          [|erewrite try_except_Raise; [|exact Hbody]; reflexivity];
          reflexivity] ];
    cbn [result final effects]; repeat split; cbn; lia.
Qed.

(** X4: status updates that do not report a finished program (another
    state, no [state], no [print_stats] at all) have no effect whatever:
    nothing is sent or logged and the server is as before, for any
    registrations. *)
Theorem other_updates_have_no_effect
    (updates : list (gmap string (status_object num))) (w : world K) :
  Forall (fun u => print_complete u = false) updates ->
  send_status_updates updates w = Run (Return tt) w [].
Proof.
  induction 1 as [|u us Hu Hus IH]; [done|].
  cbn [send_status_updates]. unfold send_status_update, bind, get_world.
  cbn [result final effects].
  rewrite (deliver_not_complete _ u w Hu). cbn [result final effects].
  by rewrite IH.
Qed.

(** X5: the two completion listeners are interchangeable for Klippy: on
    every update and server they return the same, try the same command with
    the same verdict and leave the same server; only the text they log
    differs. *)
Theorem completion_listeners_alike (u : gmap string (status_object num))
    (w : world K) :
  let m2 := callback M2RestartListener u w in
  let m30 := callback M30Listener u w in
  result m2 = result m30 /\
  attempts (effects m2) = attempts (effects m30) /\
  final m2 = final m30 /\
  (logged (effects m2)).*1 = (logged (effects m30)).*1.
Proof.
  cbn [callback].
  unfold M2RestartHandler.check_restart_execution,
         M30Handler.check_m30_execution.
  destruct (print_complete u); [|done].
  unfold try_except, lookup_component, bind, get_world, ret, raise,
         klippy_apis_run_gcode, logging, emit.
  cbn [result final effects].
  destruct (decide ("klippy_apis" ∈ components w)) as [Hin|Hnot];
    cbn [result final effects]; [|done].
  by destruct (apis_run_gcode "SDCARD_RESET_FILE" (klippy w)) as [[[]|e1] k1].
Qed.

End ResetEndpoints.

(** ** Klippy becoming ready *)

Section Readiness.
Context {num : Type} {PN : PyNum num} {PT : PyText}
        {K : Type} {KL : @Klippy num K}.

(** X6: [server:klippy_ready] never makes a completion handler raise.
    With [klippy_connection] loaded it adds the handler's own listener to
    the registrations, once more at every call; without it nothing is
    registered.  Either way one line is logged at INFO and Klippy is not
    called. *)
Theorem completion_handlers_ready (w : world K) :
  (let r := M2RestartHandler.handle_klippy_ready w in
   result r = Return tt /\
   (exists msg, effects r = [Log INFO msg]) /\
   klippy (final r) = klippy w /\
   status_update_handlers (final r)
     = if decide ("klippy_connection" ∈ components w)
       then status_update_handlers w ++ [M2RestartListener]
       else status_update_handlers w) /\
  (let r := M30Handler.handle_klippy_ready w in
   result r = Return tt /\
   (exists msg, effects r = [Log INFO msg]) /\
   klippy (final r) = klippy w /\
   status_update_handlers (final r)
     = if decide ("klippy_connection" ∈ components w)
       then status_update_handlers w ++ [M30Listener]
       else status_update_handlers w).
Proof.
  split; cbv zeta;
    unfold M2RestartHandler.handle_klippy_ready, M30Handler.handle_klippy_ready,
           try_except, register_status_update_handler, lookup_component,
           bind, get_world, put_world, ret, raise, logging, emit;
    cbn [result final effects];
    destruct (decide ("klippy_connection" ∈ components w)) as [Hin|Hnot];
    cbn [result final effects klippy status_update_handlers app];
    repeat split; eauto.
Qed.

(** X7: [server:klippy_ready] sets the Klippy handle of [CNCMCodesHandler]
    when [klippy_apis] is loaded and raises, changing nothing, when it is
    not.  Once it has returned the guard is open: a pallet change is sent
    as [M60]. *)
Theorem cnc_ready_opens_guard (w : world K) :
  ("klippy_apis" ∈ components w ->
   let r := CNCMCodesHandler.handle_klippy_ready w in
   result r = Return tt /\
   cnc_klippy_apis (final r) = true /\
   klippy (final r) = klippy w /\
   forall req : web_request num,
     well_formed (boolean_arg req "pause") ->
     gcodes (effects (CNCMCodesHandler.handle_pallet_change req (final r)))
       = ["M60"]) /\
  ("klippy_apis" ∉ components w ->
   CNCMCodesHandler.handle_klippy_ready w
     = Run (Raise (component_missing "klippy_apis")) w []).
Proof.
  split; intros Hc; cbv zeta;
    unfold CNCMCodesHandler.handle_klippy_ready, lookup_component,
           bind, get_world, put_world, ret, raise, logging, emit;
    cbn [result final effects].
  - rewrite decide_True by done.
    cbn [result final effects klippy cnc_klippy_apis].
    repeat split. intros req Hpause.
    unfold CNCMCodesHandler.handle_pallet_change, get_boolean_or,
           get_converted.
    destruct (boolean_arg req "pause") as [|pause|e]; [| |by destruct (Hpause e)];
      unfold CNCMCodesHandler.klippy_apis, try_except, bind, get_world, ret,
             klippy_apis_run_gcode, logging, emit;
      cbn [result final effects cnc_klippy_apis negb klippy];
      by destruct (apis_run_gcode "M60" (klippy w)) as [[[]|e1] k1].
  - by rewrite decide_False by done.
Qed.

(** X8: once the Klippy handle is set the modal-state endpoint serves no
    request: whatever the type and the arguments, it answers "Invalid
    request type" and calls Klippy not at all, so that no [M70] to [M73] is
    sent and no state is cleared.  The request type it reads is a member of
    [RequestType], which equals none of the texts the branches compare it
    with. *)
Theorem modal_state_serves_no_request (req : web_request num) (w : world K) :
  cnc_klippy_apis w = true ->
  CNCMCodesHandler.handle_modal_state req w
  = Run (Return [("result", RStr "error");
                 ("message", RStr "Invalid request type")])
        w [].
Proof. intros Hapis. by rewrite modal_state_run, Hapis. Qed.

End Readiness.

(** ** The commands of the CNC endpoints *)

Section CncCommands.
Context {num : Type} {PN : PyNum num} {PT : PyText}
        {K : Type} {KL : @Klippy num K}.

Lemma get_converted_well_formed {A B} (req : web_request num) (inj : A -> B)
    (found : lookup A) (key : string) (d : B) :
  well_formed found ->
  get_converted (K:=K) req inj found key (Some d)
  = ret (match found with Supplied a => inj a | _ => d end).
Proof.
  intros Hwf. unfold get_converted.
  destruct found as [|a|e]; [done|done|]. by destruct (Hwf e).
Qed.

Lemma klippy_apis_set (w : world K) (f : bool -> coro K (response num)) :
  cnc_klippy_apis w = true ->
  bind CNCMCodesHandler.klippy_apis f w = f true w.
Proof.
  intros Hw. unfold CNCMCodesHandler.klippy_apis, bind, get_world, ret.
  cbn [result final effects]. rewrite Hw. by destruct (f true w).
Qed.

(** One command in a [try] whose handler answers the error result. *)
Lemma send_or_error (command : string) (resp : response num) (w : world K) :
  try_except (klippy_apis_run_gcode command ;;; ret resp)
             (fun e => ret (CNCMCodesHandler.error_result e)) w
  = let '(o, k) := apis_run_gcode command (klippy w) in
    Run (Return match o with
                | Return _ => resp
                | Raise e => CNCMCodesHandler.error_result e
                end)
        (set_klippy k w) [Gcode command (is_return o)].
Proof.
  unfold try_except, bind, klippy_apis_run_gcode, ret.
  by destruct (apis_run_gcode command (klippy w)) as [[[]|e1] k1].
Qed.

(** X9: with [enable] false the spindle endpoint, whatever the type of the
    request, sends exactly [M5] and reports no direction and speed 0,
    whatever text the direction is, an unknown one included, and whatever
    the speed that converts.  Both are read all the same before anything is
    sent: a direction that is not text raises [AttributeError] and a speed
    that does not convert raises the getter's exception, with no effect. *)
Theorem spindle_off_ignores_direction (req : web_request num) (w : world K) :
  boolean_arg req "enable" = Supplied false ->
  cnc_klippy_apis w = true ->
  (forall direction : string,
      get req "direction" "cw" = JStr direction ->
      well_formed (int_arg req "speed") ->
      CNCMCodesHandler.handle_spindle req w
      = let '(o, k) := apis_run_gcode "M5" (klippy w) in
        Run (Return match o with
                    | Return _ =>
                        [("result", RStr "success"); ("enable", RBool false);
                         ("direction", RNone); ("speed", RInt 0)]
                    | Raise e => CNCMCodesHandler.error_result e
                    end)
            (set_klippy k w) [Gcode "M5" (is_return o)]) /\
  (forall v : json num,
      get req "direction" "cw" = v -> (forall s, v <> JStr s) ->
      CNCMCodesHandler.handle_spindle req w = Run (Raise (no_lower v)) w []) /\
  (forall (direction : string) (e : exn),
      get req "direction" "cw" = JStr direction ->
      int_arg req "speed" = Malformed e ->
      CNCMCodesHandler.handle_spindle req w = Run (Raise e) w []).
Proof.
  intros Henable Hapis.
  assert (Hstart : CNCMCodesHandler.handle_spindle req w
                   = bind (lower (get req "direction" "cw"))
                          (fun direction =>
                           speed <- get_int_or req "speed" 0 ;;
                           apis <- CNCMCodesHandler.klippy_apis ;;
                           if negb apis then ret CNCMCodesHandler.not_connected
                           else
                             try_except
                               (klippy_apis_run_gcode (join_lines ([] ++ ["M5"])) ;;;
                                ret [("result", RStr "success");
                                     ("enable", RBool false);
                                     ("direction", RNone); ("speed", RInt 0)])
                               (fun e => ret (CNCMCodesHandler.error_result e)))
                          w).
  { unfold CNCMCodesHandler.handle_spindle. flag_steps. cbv iota.
    unfold get_boolean. rewrite Henable. cbn [get_converted].
    by rewrite bind_ret_l. }
  rewrite Hstart. clear Hstart.
  split; [|split].
  - intros direction Hdir Hspeed. rewrite Hdir. cbn [lower].
    rewrite bind_ret_l. unfold get_int_or.
    rewrite (get_converted_well_formed _ _ _ _ _ Hspeed), bind_ret_l.
    rewrite klippy_apis_set by done. cbn [negb].
    apply (send_or_error "M5").
  - intros v Hv Hnot. rewrite Hv.
    destruct v; try reflexivity. by destruct (Hnot s).
  - intros direction e Hdir Hspeed. rewrite Hdir. cbn [lower].
    rewrite bind_ret_l. unfold get_int_or. rewrite Hspeed.
    cbn [get_converted]. by rewrite bind_raise_l.
Qed.

(** X10: once the Klippy handle is set, a coolant request of any type, a
    GET included, whose [mist] and [flood] convert or are absent makes
    exactly one [run_gcode] call and no query.  Its script has a line for
    mist when [mist] is supplied ([M7] on, [M9] off), then a line for flood
    when [flood] is supplied ([M8] on, [M9] off); with neither supplied the
    script is empty and is sent all the same.  A [mist] or [flood] that
    does not convert raises the getter's exception and nothing is sent. *)
Theorem coolant_one_script (req : web_request num) (w : world K) :
  cnc_klippy_apis w = true ->
  let line (found : lookup bool) (on : string) : list string :=
    match found with
    | Supplied b => [if b then on else "M9"]
    | _ => []
    end in
  (well_formed (boolean_arg req "mist") ->
   well_formed (boolean_arg req "flood") ->
   attempts (effects (CNCMCodesHandler.handle_coolant req w))
     = [(join_lines (line (boolean_arg req "mist") "M7"
                     ++ line (boolean_arg req "flood") "M8"),
         is_return (apis_run_gcode
                      (join_lines (line (boolean_arg req "mist") "M7"
                                   ++ line (boolean_arg req "flood") "M8"))
                      (klippy w)).1)] /\
   queries (effects (CNCMCodesHandler.handle_coolant req w)) = []) /\
  (forall e : exn,
      boolean_arg req "mist" = Malformed e \/
      (well_formed (boolean_arg req "mist") /\
       boolean_arg req "flood" = Malformed e) ->
      CNCMCodesHandler.handle_coolant req w = Run (Raise e) w []).
Proof.
  intros Hapis line. split.
  - intros Hmist Hflood.
    unfold CNCMCodesHandler.handle_coolant. flag_steps. cbv iota.
    unfold get_boolean_opt.
    rewrite !(get_converted_well_formed _ _ _ _ _ Hmist), bind_ret_l.
    rewrite !(get_converted_well_formed _ _ _ _ _ Hflood), bind_ret_l.
    rewrite klippy_apis_set by done. cbn [negb].
    subst line.
    destruct (boolean_arg req "mist") as [|mist|e1];
      destruct (boolean_arg req "flood") as [|flood|e2]; cbv zeta;
      rewrite send_or_error;
      by destruct (apis_run_gcode _ (klippy w)) as [[[]|e3] k3].
  - intros e Hbad.
    unfold CNCMCodesHandler.handle_coolant. flag_steps. cbv iota.
    unfold get_boolean_opt.
    destruct Hbad as [Hmist|[Hmist Hflood]].
    + rewrite Hmist. cbn [get_converted]. by rewrite bind_raise_l.
    + rewrite !(get_converted_well_formed _ _ _ _ _ Hmist), bind_ret_l.
      rewrite Hflood. cbn [get_converted]. by rewrite bind_raise_l.
Qed.

(** X11: a subroutine call without [program] is not an exception: the
    getter fails inside the [try], so the answer is the error result with
    the getter's message, logged at ERROR, and nothing is sent. *)
Theorem subroutine_without_program (req : web_request num) (w : world K) :
  get req "action" "call" = JStr "call" ->
  int_arg req "program" = Absent ->
  cnc_klippy_apis w = true ->
  CNCMCodesHandler.handle_subroutine req w
  = Run (Return [("result", RStr "error");
                 ("message", RStr (exn_str (no_data req "program")))])
        w
        [Log ERROR ("Subroutine operation failed: "
                    +:+ exn_str (no_data req "program"))].
Proof.
  intros Haction Hprogram Hapis.
  unfold CNCMCodesHandler.handle_subroutine.
  rewrite klippy_apis_set by done. cbn [negb]. rewrite Haction.
  change (eq_text (Json (JStr "call")) "call") with true. cbv iota.
  unfold get_int. rewrite Hprogram. cbn [get_converted].
  erewrite try_except_Raise; [|apply bind_raise_l].
  reflexivity.
Qed.

(** X12: a tool change makes one [run_gcode] call whose script is [M0]
    when [pause] (the default), then [T<tool>] (tool 0 by default), then,
    when [manual] (the default), an [M117] line.  That line is a plain
    string, not an f-string: it reads [T{tool}] for every tool. *)
Theorem tool_change_script (req : web_request num) (w : world K) :
  well_formed (int_arg req "tool") ->
  well_formed (boolean_arg req "manual") ->
  well_formed (boolean_arg req "pause") ->
  cnc_klippy_apis w = true ->
  let tool := arg_or (int_arg req "tool") 0 in
  let manual := arg_or (boolean_arg req "manual") true in
  let pause := arg_or (boolean_arg req "pause") true in
  gcodes (effects (CNCMCodesHandler.handle_tool_change req w))
    = [join_lines ((if pause then ["M0"] else [])
                   ++ ["T" +:+ pretty tool]
                   ++ (if manual
                       then ["M117 Insert Tool T{tool} and resume"]
                       else []))].
Proof.
  intros Htool Hmanual Hpause Hapis tool manual pause.
  unfold CNCMCodesHandler.handle_tool_change.
  unfold get_int_or, get_boolean_or.
  rewrite (get_converted_well_formed req id _ "tool" 0 Htool), bind_ret_l.
  rewrite (get_converted_well_formed req id _ "manual" true Hmanual), bind_ret_l.
  rewrite (get_converted_well_formed req id _ "pause" true Hpause), bind_ret_l.
  change (match int_arg req "tool" with Supplied a => id a | _ => 0 end)
    with tool.
  change (match boolean_arg req "manual" with Supplied a => id a | _ => true end)
    with manual.
  change (match boolean_arg req "pause" with Supplied a => id a | _ => true end)
    with pause.
  clearbody tool manual pause.
  unfold bind at 1. unfold logging at 1, emit.
  cbn [result final effects].
  rewrite klippy_apis_set by done. cbn [negb].
  unfold try_except, bind, klippy_apis_run_gcode, ret, logging, emit.
  cbn [result final effects].
  destruct pause, manual; cbn [app];
    match goal with
    | |- context [apis_run_gcode ?c (klippy w)] =>
        destruct (apis_run_gcode c (klippy w)) as [[[]|e1] k1]
    end;
    reflexivity.
Qed.

End CncCommands.

(** ** Listings of the tool database *)

Section Listing.
Context {num : Type} {PN : PyNum num} {K : Type} {KL : @Klippy num K}.
Import ToolDatabaseAPI.

Lemma py_sum_from_foldl (values : list (pyval num)) (acc : num) :
  Forall (fun v => is_Some (as_num v)) values ->
  py_sum_from (PNum acc) values
  = Return (PNum (foldl num_add acc
                        (map (fun v => default (num_of_Z 0) (as_num v)) values))).
Proof.
  revert acc. induction values as [|v rest IH]; intros acc Hall; [done|].
  apply Forall_cons in Hall as [[x Hx] Hrest].
  cbn [py_sum_from map foldl]. unfold py_add. cbn [as_num]. rewrite Hx.
  cbn [default]. by apply IH.
Qed.

Lemma filter_partition {A} (f : A -> bool) (l : list A) :
  length (filter (fun a => f a = false) l)
  = (length l - length (filter (fun a => f a = true) l))%nat /\
  (length (filter (fun a => f a = true) l) <= length l)%nat.
Proof.
  induction l as [|a l [IH1 IH2]]; [done|].
  rewrite !filter_cons. destruct (f a) eqn:Hf.
  - rewrite decide_False by done. rewrite decide_True by done.
    cbn [length]. lia.
  - rewrite decide_True by done. rewrite decide_False by done.
    cbn [length]. lia.
Qed.

Lemma max_loop_returns {A} (key : A -> pyval num) (rest : list A)
    (maxitem : A) (maxval : pyval num) :
  is_Some (as_num maxval) ->
  Forall (fun a => is_Some (as_num (key a))) rest ->
  exists t, max_loop key maxitem maxval rest = Return t.
Proof.
  revert maxitem maxval. induction rest as [|item rest IH];
    intros maxitem maxval [m Hm] Hall; [by eexists|].
  apply Forall_cons in Hall as [[x Hx] Hrest].
  cbn [max_loop]. unfold py_gt. rewrite Hx, Hm.
  destruct (num_gtb x m); apply IH; eauto.
Qed.

Lemma select_eq_filter (key : string) (value : pyval num)
    (tools : list (tool num)) :
  all_have key tools ->
  select_eq key value tools
  = Return (filter (fun t => field_is key value t = true) tools).
Proof.
  induction 1 as [|t rest [v Hv] Hrest IH]; [done|].
  assert (Hf : field_is key value t = py_eq v value).
  { unfold field_is. by rewrite Hv. }
  cbn [select_eq]. unfold getitem. rewrite Hv, IH.
  rewrite filter_cons, Hf.
  destruct (py_eq v value).
  - by rewrite decide_True.
  - by rewrite decide_False.
Qed.

Lemma select_eq_missing (key : string) (value : pyval num)
    (tools : list (tool num)) :
  ~ all_have key tools ->
  select_eq key value tools = Raise (KeyError key).
Proof.
  induction tools as [|t rest IH]; intros Hnot.
  - destruct Hnot. constructor.
  - cbn [select_eq]. unfold getitem.
    destruct (t !! key) as [v|] eqn:Hv; [|done].
    rewrite IH; [done|]. intros Hrest. apply Hnot. by constructor.
Qed.

Lemma first_eq_head (key : string) (value : pyval num)
    (tools : list (tool num)) :
  all_have key tools ->
  first_eq key value tools
  = Return (head (filter (fun t => field_is key value t = true) tools)).
Proof.
  induction 1 as [|t rest [v Hv] Hrest IH]; [done|].
  assert (Hf : field_is key value t = py_eq v value).
  { unfold field_is. by rewrite Hv. }
  cbn [first_eq]. unfold getitem. rewrite Hv.
  rewrite filter_cons, Hf.
  destruct (py_eq v value).
  - by rewrite decide_True.
  - by rewrite decide_False.
Qed.

Lemma field_is_truthy (key : string) (value : pyval num) (t : tool num) :
  field_is key value t = true -> dict_truthy t = true.
Proof.
  unfold field_is, dict_truthy. intros Hf.
  rewrite bool_decide_eq_false_2; [done|].
  intros ->. by rewrite lookup_empty in Hf.
Qed.

Lemma query_run_Return (object : string) (w : world K)
    (status : option (connection_status num)) (k : K) :
  connection_available w ->
  conn_query_objects object (klippy w) = (Return status, k) ->
  query_printer_objects object w
  = Run (Return status) (set_klippy k (cached w)) [Query object].
Proof.
  intros Hc Hq. by rewrite (query_printer_objects_run object w Hc), Hq.
Qed.

End Listing.

Section Registry.
Context {num : Type} {PN : PyNum num} {K : Type} {KL : @Klippy num K}.
Import ToolDatabaseAPI.

Lemma most_used_returns (tools : list (tool num)) (w : world K) :
  Forall numeric_usage tools ->
  exists most_used : option (tool num),
    match tools with
    | first :: rest =>
        t <- lift (py_max (get_field "total_runtime" (PNum (num_of_Z 0)))
                          first rest) ;;
        ret (Some t)
    | [] => ret None
    end w
    = Run (Return most_used) w [].
Proof.
  intros Hnum.
  assert (Hkeys : Forall (fun t => is_Some (as_num (get_field "total_runtime"
                                                      (PNum (num_of_Z 0)) t)))
                         tools).
  { eapply Forall_impl; [exact Hnum|]. intros t [Ht _]. cbn.
    rewrite (get_field_figure _ _ Ht). by eexists. }
  destruct tools as [|first rest]; [by exists None|].
  apply Forall_cons in Hkeys as [Hfirst Hrest].
  destruct (max_loop_returns
              (get_field "total_runtime" (PNum (num_of_Z 0))) rest first
              (get_field "total_runtime" (PNum (num_of_Z 0)) first))
    as [t Ht]; [done|done|].
  exists (Some t). unfold bind, lift, py_max, ret. by rewrite Ht.
Qed.

(** [t.get(key, 0)], read as a number, is the figure under [key]. *)
Lemma figure_get_field (key : string) (t : tool num) :
  default (num_of_Z 0) (as_num (get_field key (PNum (num_of_Z 0)) t))
  = figure key t.
Proof. unfold get_field, figure. by destruct (t !! key) as [[]|]. Qed.

Lemma usage_sum (key : string) (tools : list (tool num)) :
  Forall (numeric_field key) tools ->
  py_sum (map (get_field key (PNum (num_of_Z 0))) tools)
  = Return (PNum (foldl num_add (num_of_Z 0) (map (figure key) tools))).
Proof.
  intros Hnum. unfold py_sum. rewrite py_sum_from_foldl.
  - rewrite map_map. do 3 f_equal. apply map_ext. intros t.
    apply figure_get_field.
  - by apply usage_values_numeric.
Qed.

(** [t.get('is_active', True)] as a condition is the active flag. *)
Lemma filter_active (b : bool) (tools : list (tool num)) :
  filter (fun t => truthy (get_field "is_active" (PBool true) t) = b) tools
  = filter (fun t => active t = b) tools.
Proof.
  induction tools as [|t rest IH]; [done|].
  assert (Ht : truthy (get_field "is_active" (PBool true) t) = active t).
  { unfold get_field, active. by destruct (t !! "is_active"). }
  rewrite !filter_cons, IH.
  destruct (decide (truthy _ = b)), (decide (active t = b)); congruence.
Qed.


(** X14: a type filter keeps, in listing order, exactly the tools whose
    [type] equals the filter, and [tool_count] counts the tools that are
    returned, while [current_tool] is reported unfiltered; without a filter,
    or with the empty string as filter, the whole listing is returned. *)
Theorem list_tools_filter (req : web_request num) (w : world K)
    (status : option (connection_status num)) (k : K) :
  connection_available w ->
  conn_query_objects "tool_database" (klippy w) = (Return status, k) ->
  let tools := tools_of (tool_database_of status) in
  let answer (kept : list (tool num)) : outcome (response num) :=
    Return [("tools", RTools kept);
            ("current_tool", RTool (current_tool_of (tool_database_of status)));
            ("tool_count", RInt (Z.of_nat (length kept)))] in
  (forall ty : string,
      str_arg req "type" = Supplied ty -> ty <> "" ->
      all_have "type" tools ->
      result (handle_list_tools req w)
      = answer (filter (fun t => field_is "type" (PStr ty) t = true) tools)) /\
  (str_arg req "type" = Absent \/ str_arg req "type" = Supplied "" ->
   result (handle_list_tools req w) = answer tools).
Proof.
  intros Hc Hq tools answer.
  pose proof (query_run_Return "tool_database" w status k Hc Hq) as Hrun.
  split.
  - intros ty Hty Hne Hall.
    unfold handle_list_tools, get_str_opt. rewrite Hty.
    cbn [get_converted]. rewrite bind_ret_l.
    rewrite (bind_Return _ _ _ _ _ _ Hrun). cbn [result].
    rewrite decide_False by done. fold tools.
    rewrite (select_eq_filter "type" (PStr ty) tools Hall).
    reflexivity.
  - intros Hty.
    unfold handle_list_tools, get_str_opt.
    destruct Hty as [-> | ->]; cbn [get_converted]; rewrite bind_ret_l;
      rewrite (bind_Return _ _ _ _ _ _ Hrun); reflexivity.
Qed.

(** X15: with a type filter, one listed tool without [type] is enough for
    the listing to fail: the query is made and [KeyError('type')] reaches
    the caller. *)
Theorem list_tools_missing_type (req : web_request num) (w : world K)
    (status : option (connection_status num)) (k : K) (ty : string) :
  connection_available w ->
  conn_query_objects "tool_database" (klippy w) = (Return status, k) ->
  str_arg req "type" = Supplied ty -> ty <> "" ->
  ~ all_have "type" (tools_of (tool_database_of status)) ->
  result (handle_list_tools req w) = Raise (KeyError "type") /\
  effects (handle_list_tools req w) = [Query "tool_database"].
Proof.
  intros Hc Hq Hty Hne Hmissing.
  pose proof (query_run_Return "tool_database" w status k Hc Hq) as Hrun.
  unfold handle_list_tools, get_str_opt. rewrite Hty.
  cbn [get_converted]. rewrite bind_ret_l.
  rewrite (bind_Return _ _ _ _ _ _ Hrun). cbn [result effects].
  rewrite decide_False by done.
  rewrite (select_eq_missing "type" (PStr ty) _ Hmissing).
  split; reflexivity.
Qed.

(** X16: a tool-info request with an [id] other than 0 sends [TOOL_INFO
    ID=<id>] and answers the first listed tool whose [id] equals it, the
    current tool playing no part; when no listed tool has that [id] the
    answer is 404. *)
Theorem tool_info_by_id (req : web_request num) (w : world K) (tool_id : Z)
    (status : option (connection_status num)) (k1 k2 : K) :
  int_arg req "id" = Supplied tool_id ->
  tool_id <> 0 ->
  connection_available w ->
  conn_run_gcode ("TOOL_INFO ID=" +:+ pretty tool_id) (klippy w)
    = (Return tt, k1) ->
  conn_query_objects "tool_database" k1 = (Return status, k2) ->
  all_have "id" (tools_of (tool_database_of status)) ->
  let r := handle_tool_info req w in
  gcodes (effects r) = ["TOOL_INFO ID=" +:+ pretty tool_id] /\
  result r =
    match head (filter (fun t => field_is "id" (PNum (num_of_Z tool_id)) t = true)
                       (tools_of (tool_database_of status))) with
    | Some t => Return [("tool", RTool (Some t))]
    | None => Raise (HTTPError 404 "Tool not found")
    end.
Proof.
  intros Hid Hne Hc Hrun Hq Hall.
  assert (Hcmd : run_gcode ("TOOL_INFO ID=" +:+ pretty tool_id) w
                 = Run (Return tt) (set_klippy k1 (cached w))
                       [Gcode ("TOOL_INFO ID=" +:+ pretty tool_id) true]).
  { by rewrite (run_gcode_run _ w Hc), Hrun. }
  assert (Hst : query_printer_objects "tool_database" (set_klippy k1 (cached w))
                = Run (Return status) (set_klippy k2 (cached w))
                      [Query "tool_database"]).
  { rewrite (query_run_Return "tool_database" _ status k2); [done| |done].
    apply connection_available_cached. }
  cbv zeta. unfold handle_tool_info, get_int_opt. rewrite Hid.
  cbn [get_converted]. rewrite bind_ret_l.
  cbn [id_truthy default]. rewrite bool_decide_eq_false_2 by done.
  cbn [negb].
  rewrite (bind_Return _ _ _ _ _ _ Hcmd). cbn [result final effects].
  rewrite (bind_Return _ _ _ _ _ _ Hst). cbn [result final effects].
  rewrite (first_eq_head "id" _ _ Hall).
  unfold bind, lift, ret, raise. cbn [result final effects].
  destruct (head _) as [t|] eqn:Hhead; cbn [result final effects].
  - apply head_Some_elem_of, list_elem_of_filter in Hhead as [Hf _].
    rewrite (field_is_truthy _ _ _ Hf). by split.
  - by split.
Qed.

(** X17: [ADD_TOOL] is sent only for a request that supplies every
    required field: when [id], [name], [type], [diameter] or [length] is
    absent or does not convert, the handler raises the getter's exception
    and has no effect at all. *)
Theorem add_tool_requires_fields (req : web_request num) (w : world K) :
  is_supplied (int_arg req "id") && is_supplied (str_arg req "name")
  && is_supplied (str_arg req "type") && is_supplied (float_arg req "diameter")
  && is_supplied (float_arg req "length") = false ->
  effects (handle_add_tool req w) = [] /\
  final (handle_add_tool req w) = w /\
  exists e, result (handle_add_tool req w) = Raise e /\ argument_error req e.
Proof.
  intros Hmissing.
  assert (Hstop : forall {A C} (found : lookup A) (key : string)
                         (f : A -> coro K C),
             (forall e, found = Malformed e -> argument_error req e) ->
             is_supplied found = false ->
             effects (bind (get_converted req id found key None) f w) = [] /\
             final (bind (get_converted req id found key None) f w) = w /\
             exists e, result (bind (get_converted req id found key None) f w)
                       = Raise e /\ argument_error req e).
  { intros A C found key f Hm Hs. destruct found as [|a|e]; [|done|];
      cbn [get_converted]; rewrite bind_raise_l; repeat split.
    - eexists. split; [done|]. exists key. by left.
    - eexists. split; [done|]. by apply Hm. }
  unfold handle_add_tool, get_int, get_str, get_float.
  destruct (is_supplied (int_arg req "id")) eqn:H1;
    [|apply Hstop; eauto with arg_errors].
  destruct (int_arg req "id") as [|tool_id|] eqn:E1; try done.
  cbn [get_converted]. rewrite bind_ret_l.
  destruct (is_supplied (str_arg req "name")) eqn:H2;
    [|apply Hstop; eauto with arg_errors].
  destruct (str_arg req "name") as [|name|] eqn:E2; try done.
  cbn [get_converted]. rewrite bind_ret_l.
  destruct (is_supplied (str_arg req "type")) eqn:H3;
    [|apply Hstop; eauto with arg_errors].
  destruct (str_arg req "type") as [|type|] eqn:E3; try done.
  cbn [get_converted]. rewrite bind_ret_l.
  destruct (is_supplied (float_arg req "diameter")) eqn:H4;
    [|apply Hstop; eauto with arg_errors].
  destruct (float_arg req "diameter") as [|diameter|] eqn:E4; try done.
  cbn [get_converted]. rewrite bind_ret_l.
  destruct (is_supplied (float_arg req "length")) eqn:H5;
    [|apply Hstop; eauto with arg_errors].
  done.
Qed.

(** X18: an update is answered by what Klippy does with the command and by
    nothing else: success when it is accepted, Klippy's exception when it
    is refused.  Optional fields that are absent or do not convert never
    fail the request. *)
Theorem update_outcome_is_klippys (req : web_request num) (w : world K)
    (tool_id : Z) :
  int_arg req "id" = Supplied tool_id ->
  connection_available w ->
  handle_update_tool req w
  = let '(o, k) := conn_run_gcode (update_command req tool_id) (klippy w) in
    Run match o with
        | Return _ =>
            Return [("success", RBool true);
                    ("message",
                     RStr ("Tool " +:+ pretty tool_id +:+ " updated successfully"))]
        | Raise e => Raise e
        end
        (set_klippy k (cached w))
        [Gcode (update_command req tool_id) (is_return o)].
Proof. apply update_tool_run. Qed.

(** X19: selecting a tool reads the current tool back after the command:
    the status is queried from the state in which [SELECT_TOOL] left
    Klippy, and a refused [SELECT_TOOL] raises before any query is made. *)
Theorem select_reads_back (req : web_request num) (w : world K) (tool_id : Z) :
  int_arg req "id" = Supplied tool_id ->
  connection_available w ->
  let command := "SELECT_TOOL ID=" +:+ pretty tool_id in
  (forall (k1 k2 : K) (status : option (connection_status num)),
      conn_run_gcode command (klippy w) = (Return tt, k1) ->
      conn_query_objects "tool_database" k1 = (Return status, k2) ->
      handle_select_tool req w
      = Run (Return [("success", RBool true);
                     ("message",
                      RStr ("Tool " +:+ pretty tool_id +:+ " selected"));
                     ("tool", RTool (current_tool_of (tool_database_of status)))])
            (set_klippy k2 (cached w))
            [Gcode command true; Query "tool_database"]) /\
  (forall (k1 : K) (e : exn),
      conn_run_gcode command (klippy w) = (Raise e, k1) ->
      handle_select_tool req w
      = Run (Raise e) (set_klippy k1 (cached w)) [Gcode command false]).
Proof.
  intros Hid Hc command.
  split.
  - intros k1 k2 status Hrun Hq.
    unfold handle_select_tool, get_int. rewrite Hid.
    cbn [get_converted]. rewrite bind_ret_l. cbn [id]. fold command.
    erewrite bind_Return; [|by rewrite (run_gcode_run _ w Hc), Hrun].
    erewrite bind_Return;
      [|by rewrite (query_run_Return "tool_database" _ status k2);
           [| apply connection_available_cached | exact Hq]].
    reflexivity.
  - intros k1 e Hrun.
    unfold handle_select_tool, get_int. rewrite Hid.
    cbn [get_converted]. rewrite bind_ret_l. cbn [id]. fold command.
    erewrite bind_Raise; [|by rewrite (run_gcode_run _ w Hc), Hrun].
    reflexivity.
Qed.

End Registry.

(** ** Calls to Klippy per request *)

Section Calls.
Context {num : Type} {PN : PyNum num} {PT : PyText}
        {K : Type} {KL : @Klippy num K}.

Lemma calls_app (a b : list event) : calls (a ++ b) = (calls a + calls b)%nat.
Proof.
  unfold calls. rewrite attempts_app, queries_app, !length_app. lia.
Qed.

Lemma quiet_ret {A} (a : A) : quiet (K:=K) (ret a).
Proof. by intros w. Qed.

Lemma quiet_raise {A} (e : exn) : quiet (K:=K) (raise (A:=A) e).
Proof. by intros w. Qed.

Lemma quiet_logging (lvl : level) (msg : string) : quiet (K:=K) (logging lvl msg).
Proof. by intros w. Qed.

Lemma quiet_klippy_apis : quiet (K:=K) CNCMCodesHandler.klippy_apis.
Proof. by intros w. Qed.

Lemma quiet_get_converted {A B} (req : web_request num) (inj : A -> B)
    (found : lookup A) (key : string) (fallback : option B) :
  quiet (K:=K) (get_converted req inj found key fallback).
Proof.
  intros w. unfold get_converted. by destruct found; [destruct fallback|..].
Qed.

Lemma quiet_lower `{PyText} (v : json num) : quiet (K:=K) (lower v).
Proof. intros w. by destruct v. Qed.

Lemma quiet_bind {A B} (m : coro K A) (f : A -> coro K B) :
  quiet m -> (forall a, quiet (f a)) -> quiet (bind m f).
Proof.
  intros Hm Hf w. unfold bind.
  destruct (result (m w)) as [a|e]; cbn [effects]; [|apply Hm].
  by rewrite calls_app, Hm, Hf.
Qed.

Lemma single_quiet {A} (m : coro K A) : quiet m -> single m.
Proof. intros Hm w. rewrite Hm. lia. Qed.

Lemma single_bind_l {A B} (m : coro K A) (f : A -> coro K B) :
  quiet m -> (forall a, single (f a)) -> single (bind m f).
Proof.
  intros Hm Hf w. unfold bind.
  destruct (result (m w)) as [a|e]; cbn [effects]; [|rewrite Hm; lia].
  rewrite calls_app, Hm. apply Hf.
Qed.

Lemma single_bind_r {A B} (m : coro K A) (f : A -> coro K B) :
  single m -> (forall a, quiet (f a)) -> single (bind m f).
Proof.
  intros Hm Hf w. unfold bind.
  destruct (result (m w)) as [a|e]; cbn [effects]; [|apply Hm].
  rewrite calls_app, Hf. specialize (Hm w). lia.
Qed.

Lemma single_try_except {A} (m : coro K A) (h : exn -> coro K A) :
  single m -> (forall e, quiet (h e)) -> single (try_except m h).
Proof.
  intros Hm Hh w. unfold try_except.
  destruct (result (m w)) as [a|e]; cbn [effects]; [apply Hm|].
  rewrite calls_app, Hh. specialize (Hm w). lia.
Qed.

Lemma single_run_gcode (command : string) :
  single (K:=K) (klippy_apis_run_gcode command).
Proof.
  intros w. unfold klippy_apis_run_gcode.
  destruct (apis_run_gcode command (klippy w)). cbn. lia.
Qed.

Lemma single_query_objects (object : string) :
  single (K:=K) (klippy_apis_query_objects object).
Proof.
  intros w. unfold klippy_apis_query_objects.
  destruct (apis_query_objects object (klippy w)). cbn. lia.
Qed.

End Calls.

Ltac quiet_steps :=
  repeat first
    [ progress cbv beta iota zeta
    | progress flag_steps
    | apply quiet_ret | apply quiet_raise | apply quiet_logging
    | apply quiet_klippy_apis | apply quiet_get_converted
    | apply quiet_lower
    | apply quiet_bind; [|intros ?]
    | match goal with
      | |- quiet (match ?x with _ => _ end) => destruct x
      end ].

Ltac single_steps :=
  repeat first
    [ progress cbv beta iota zeta
    | progress flag_steps
    | apply single_run_gcode | apply single_query_objects
    | apply single_try_except; [|intros ?; solve [quiet_steps]]
    | apply single_bind_l; [solve [quiet_steps]|intros ?]
    | apply single_bind_r; [|intros ?; solve [quiet_steps]]
    | match goal with
      | |- single (match ?x with _ => _ end) => destruct x
      end
    | apply single_quiet; solve [quiet_steps] ].

Section Asking.
Context {num : Type} {PN : PyNum num} {PT : PyText}
        {K : Type} {KL : @Klippy num K}.

Lemma asks_nothing_quiet {A} (m : coro K A) : quiet m -> asks_nothing m.
Proof.
  intros Hm w. specialize (Hm w). unfold calls in Hm.
  destruct (queries (effects (m w))); [done|]. cbn in Hm. lia.
Qed.

Lemma asks_nothing_bind {A B} (m : coro K A) (f : A -> coro K B) :
  asks_nothing m -> (forall a, asks_nothing (f a)) -> asks_nothing (bind m f).
Proof.
  intros Hm Hf w. unfold bind.
  destruct (result (m w)) as [a|e]; cbn [effects]; [|apply Hm].
  by rewrite queries_app, Hm, Hf.
Qed.

Lemma asks_nothing_try_except {A} (m : coro K A) (h : exn -> coro K A) :
  asks_nothing m -> (forall e, asks_nothing (h e)) ->
  asks_nothing (try_except m h).
Proof.
  intros Hm Hh w. unfold try_except.
  destruct (result (m w)) as [a|e]; cbn [effects]; [apply Hm|].
  by rewrite queries_app, Hm, Hh.
Qed.

Lemma asks_nothing_run_gcode (command : string) :
  asks_nothing (K:=K) (klippy_apis_run_gcode command).
Proof.
  intros w. unfold klippy_apis_run_gcode.
  by destruct (apis_run_gcode command (klippy w)).
Qed.

End Asking.

Ltac asks_steps :=
  repeat first
    [ progress cbv beta iota zeta
    | progress flag_steps
    | apply asks_nothing_run_gcode
    | apply asks_nothing_quiet, quiet_ret
    | apply asks_nothing_quiet, quiet_logging
    | apply asks_nothing_quiet, quiet_klippy_apis
    | apply asks_nothing_quiet, quiet_get_converted
    | apply asks_nothing_quiet, quiet_lower
    | apply asks_nothing_try_except; [|intros ?]
    | apply asks_nothing_bind; [|intros ?]
    | match goal with
      | |- asks_nothing (match ?x with _ => _ end) => destruct x
      end ].

Section CallsTheorems.
Context {num : Type} {PN : PyNum num} {PT : PyText}
        {K : Type} {KL : @Klippy num K}.

(** X20: every endpoint of [CNCMCodesHandler] calls Klippy at most once
    per request, one command or one query, whatever the request holds and
    whatever its type. *)
Theorem cnc_endpoints_call_once
    (h : web_request num -> coro K (response num))
    (req : web_request num) (w : world K) :
  h ∈ cnc_endpoints ->
  (length (attempts (effects (h req w)))
   + length (queries (effects (h req w))) <= 1)%nat.
Proof.
  intros Hh. revert w. change (single (h req)).
  revert Hh. unfold cnc_endpoints. rewrite !elem_of_cons, elem_of_nil.
  intros [->|[->|[->|[->|[->|[->|[->|[->|[->|[]]]]]]]]]].
  - unfold CNCMCodesHandler.handle_tool_change. unfold_getters. single_steps.
  - unfold CNCMCodesHandler.handle_cnc_status. unfold_getters. single_steps.
  - unfold CNCMCodesHandler.handle_coolant. unfold_getters. single_steps.
  - unfold CNCMCodesHandler.handle_spindle. unfold_getters. single_steps.
  - intros w. rewrite modal_state_run. cbn. lia.
  - unfold CNCMCodesHandler.handle_pallet_change. unfold_getters. single_steps.
  - unfold CNCMCodesHandler.handle_digital_io. unfold_getters. single_steps.
  - unfold CNCMCodesHandler.handle_analog_io. unfold_getters. single_steps.
  - unfold CNCMCodesHandler.handle_subroutine. unfold_getters. single_steps.
Qed.

(** X22: no request makes the coolant, spindle, digital I/O or analog I/O
    endpoint query Klippy.  The status branch of these handlers, the only
    place where they call [query_objects], is taken when the request type
    equals ['GET'], and a member of [RequestType] never does: a GET is
    served by the control branch like a POST. *)
Theorem status_branches_never_taken
    (h : web_request num -> coro K (response num))
    (req : web_request num) (w : world K) :
  h ∈ status_and_control_endpoints ->
  queries (effects (h req w)) = [].
Proof.
  intros Hh. revert w. change (asks_nothing (h req)).
  revert Hh. unfold status_and_control_endpoints.
  rewrite !elem_of_cons, elem_of_nil.
  intros [->|[->|[->|[->|[]]]]].
  - unfold CNCMCodesHandler.handle_coolant. unfold_getters. asks_steps.
  - unfold CNCMCodesHandler.handle_spindle. unfold_getters. asks_steps.
  - unfold CNCMCodesHandler.handle_digital_io. unfold_getters. asks_steps.
  - unfold CNCMCodesHandler.handle_analog_io. unfold_getters. asks_steps.
Qed.

End CallsTheorems.

Section ReadyAgain.
Context {num : Type} {PN : PyNum num} {K : Type} {KL : @Klippy num K}.

Lemma m30_ready_run (w : world K) :
  "klippy_connection" ∈ components w ->
  M30Handler.handle_klippy_ready w
  = Run (Return tt)
        (World (klippy w) (components w)
               (status_update_handlers w ++ [M30Listener])
               (cnc_klippy_apis w) (tooldb_printer w))
        [Log INFO "M30 Handler ready - monitoring G-Code stream"].
Proof.
  intros Hc.
  unfold M30Handler.handle_klippy_ready, try_except,
         register_status_update_handler, lookup_component,
         bind, get_world, put_world, ret, raise, logging, emit.
  cbn [result final effects]. rewrite decide_True by done. reflexivity.
Qed.

(** X21: the listener is registered again each time Klippy becomes ready,
    so after a second [server:klippy_ready] one completion makes the M30
    handler alone send the reset twice. *)
Theorem ready_again_resets_again (w : world K)
    (u : gmap string (status_object num)) :
  "klippy_connection" ∈ components w ->
  "klippy_apis" ∈ components w ->
  print_complete u = true ->
  let ready := fun w => final (M30Handler.handle_klippy_ready w) in
  gcodes (effects (send_status_update u (ready (ready w))))
  = replicate (length (status_update_handlers w) + 2) "SDCARD_RESET_FILE".
Proof.
  intros Hconn Hapis Hu ready. subst ready. cbv beta.
  rewrite (m30_ready_run w Hconn). cbn [final].
  rewrite m30_ready_run by done.
  cbn [final klippy components status_update_handlers cnc_klippy_apis
       tooldb_printer].
  match goal with
  | |- gcodes (effects (send_status_update u ?w2)) = _ =>
      destruct (send_status_update_resets u w2 Hapis) as (_ & Hg & _)
  end.
  rewrite Hg, Hu. cbn [status_update_handlers].
  rewrite !length_app. cbn [length]. f_equal. lia.
Qed.

End ReadyAgain.

(** ** The further properties on the reference Klippy *)

(** A spindle request with a number as direction, and a subroutine return
    with Klippy unreachable. *)
Lemma cnc_endpoints_contain_klippy_witness :
  (((exists resp,
        result (CNCMCodesHandler.handle_spindle
                  Bench.spindle_numbered
                  (Sim.server (Sim.idle 0) [] true)) = Return resp) \/
    (exists e,
        result (CNCMCodesHandler.handle_spindle
                  Bench.spindle_numbered
                  (Sim.server (Sim.idle 0) [] true)) = Raise e /\
        reading_error Bench.spindle_numbered e)) /\
   same_server (Sim.server (Sim.idle 0) [] true)
     (final (CNCMCodesHandler.handle_spindle
               Bench.spindle_numbered (Sim.server (Sim.idle 0) [] true)))) /\
  result (CNCMCodesHandler.handle_spindle
            Bench.spindle_numbered (Sim.server (Sim.idle 0) [] true))
    = Raise (AttributeError "'int' object has no attribute 'lower'") /\
  result (CNCMCodesHandler.handle_subroutine
            (Sim.action_request POST "return")
            (Sim.server Sim.unreachable [] true))
    = Return [("result", RStr "error");
              ("message", RStr "Klippy Disconnected")].
Proof.
  split; [|split; vm_compute; reflexivity].
  apply (cnc_endpoints_contain_klippy CNCMCodesHandler.handle_spindle).
  unfold cnc_endpoints. set_solver.
Defined.

(** Three updates, none of them a completion, to two listeners. *)
Lemma other_updates_have_no_effect_witness :
  send_status_updates Bench.other_updates Sim.both_ready
  = Run (Return tt) Sim.both_ready [].
Proof.
  apply (other_updates_have_no_effect Bench.other_updates Sim.both_ready).
  repeat constructor.
Defined.

(** Ready with [klippy_apis] loaded, and with nothing loaded. *)
Lemma cnc_ready_opens_guard_witness :
  (let r := CNCMCodesHandler.handle_klippy_ready
              (Sim.server (Sim.idle 0) [] false) in
   result r = Return tt /\
   cnc_klippy_apis (final r) = true /\
   gcodes (effects (CNCMCodesHandler.handle_pallet_change
                      (Sim.bare_request POST) (final r)))
     = ["M60"]) /\
  CNCMCodesHandler.handle_klippy_ready Bench.bare_server
    = Run (Raise (ServerError "Component (klippy_apis) not found"))
          Bench.bare_server [].
Proof.
  split.
  - destruct (proj1 (cnc_ready_opens_guard (Sim.server (Sim.idle 0) [] false)))
      as (Hr & Hset & _ & Hpallet).
    { cbn. set_solver. }
    split; [exact Hr|]. split; [exact Hset|].
    apply (Hpallet (Sim.bare_request POST)). by intros e.
  - assert (Hnone : "klippy_apis" ∉ components Bench.bare_server)
      by (cbn; set_solver).
    exact (proj2 (cnc_ready_opens_guard Bench.bare_server) Hnone).
Defined.

(** A DELETE on a stack of three, and an invalidate posted to it: nothing
    is cleared. *)
Lemma modal_state_serves_no_request_witness :
  CNCMCodesHandler.handle_modal_state
    (Sim.bare_request DELETE) (Sim.server (Sim.idle 3) [] true)
    = Run (Return [("result", RStr "error");
                   ("message", RStr "Invalid request type")])
          (Sim.server (Sim.idle 3) [] true) [] /\
  CNCMCodesHandler.handle_modal_state
    (Sim.action_request POST "invalidate") (Sim.server (Sim.idle 3) [] true)
    = Run (Return [("result", RStr "error");
                   ("message", RStr "Invalid request type")])
          (Sim.server (Sim.idle 3) [] true) [].
Proof.
  split.
  - exact (modal_state_serves_no_request (Sim.bare_request DELETE)
             (Sim.server (Sim.idle 3) [] true) eq_refl).
  - exact (modal_state_serves_no_request (Sim.action_request POST "invalidate")
             (Sim.server (Sim.idle 3) [] true) eq_refl).
Defined.

Lemma spindle_request_well_formed (direction : json Sim.number) :
  well_formed (int_arg (Bench.spindle_request direction) "speed").
Proof. intros e. cbn. by rewrite decide_True. Qed.

Lemma absent_well_formed {A} : well_formed (Absent (A:=A)).
Proof. by intros e. Qed.

(** Off, with direction [sideways] and speed 500; and off with the number
    1 as direction. *)
Lemma spindle_off_ignores_direction_witness :
  CNCMCodesHandler.handle_spindle Bench.spindle_off
                                  (Sim.server (Sim.idle 0) [] true)
    = Run (Return [("result", RStr "success"); ("enable", RBool false);
                   ("direction", RNone); ("speed", RInt 0)])
          (Sim.server (Sim.idle 0) [] true) [Gcode "M5" true] /\
  CNCMCodesHandler.handle_spindle Bench.spindle_numbered
                                  (Sim.server (Sim.idle 0) [] true)
    = Run (Raise (AttributeError "'int' object has no attribute 'lower'"))
          (Sim.server (Sim.idle 0) [] true) [].
Proof.
  split.
  - refine (eq_trans
              (proj1 (spindle_off_ignores_direction Bench.spindle_off
                        (Sim.server (Sim.idle 0) [] true) eq_refl eq_refl)
                     "sideways" eq_refl (spindle_request_well_formed _)) _).
    reflexivity.
  - refine (proj1 (proj2 (spindle_off_ignores_direction Bench.spindle_numbered
                            (Sim.server (Sim.idle 0) [] true) eq_refl eq_refl))
                  (JInt 1) eq_refl _).
    discriminate.
Defined.

(** A coolant GET without arguments, and a POST whose [mist] is no
    boolean. *)
Lemma coolant_one_script_witness :
  (attempts (effects (CNCMCodesHandler.handle_coolant
                        (Sim.bare_request GET)
                        (Sim.server (Sim.idle 0) [] true)))
     = [("", true)] /\
   queries (effects (CNCMCodesHandler.handle_coolant
                       (Sim.bare_request GET)
                       (Sim.server (Sim.idle 0) [] true)))
     = []) /\
  CNCMCodesHandler.handle_coolant
    Bench.coolant_maybe (Sim.server (Sim.idle 0) [] true)
    = Run (Raise (Sim.conversion_error "mist" "bool" "maybe"))
          (Sim.server (Sim.idle 0) [] true) [].
Proof.
  split.
  - exact (proj1 (coolant_one_script (Sim.bare_request GET)
                    (Sim.server (Sim.idle 0) [] true) eq_refl)
                 absent_well_formed absent_well_formed).
  - exact (proj2 (coolant_one_script Bench.coolant_maybe
                    (Sim.server (Sim.idle 0) [] true) eq_refl)
                 _ (or_introl eq_refl)).
Defined.

(** A call without [program]. *)
Lemma subroutine_without_program_witness :
  CNCMCodesHandler.handle_subroutine (Sim.bare_request POST)
                                     (Sim.server (Sim.idle 0) [] true)
  = Run (Return [("result", RStr "error");
                 ("message", RStr "No data for argument: program")])
        (Sim.server (Sim.idle 0) [] true)
        [Log ERROR
           "Subroutine operation failed: No data for argument: program"].
Proof.
  exact (subroutine_without_program (Sim.bare_request POST)
           (Sim.server (Sim.idle 0) [] true) eq_refl eq_refl eq_refl).
Defined.

(** A tool change without arguments: tool 0, pause and manual. *)
Lemma tool_change_script_witness :
  gcodes (effects (CNCMCodesHandler.handle_tool_change
                     (Sim.bare_request POST)
                     (Sim.server (Sim.idle 0) [] true)))
  = [join_lines ["M0"; "T0"; "M117 Insert Tool T{tool} and resume"]].
Proof.
  exact (tool_change_script (Sim.bare_request POST)
           (Sim.server (Sim.idle 0) [] true)
           absent_well_formed absent_well_formed absent_well_formed eq_refl).
Defined.

(** The typed shop has [klippy_connection] loaded, every tool has [id] and
    [type], and the workshop tools have no [type]. *)
Lemma typed_shop_types :
  all_have "type"
    (ToolDatabaseAPI.tools_of
       (ToolDatabaseAPI.tool_database_of (Sim.objects Bench.typed_shop))).
Proof. repeat constructor; vm_compute; eauto. Qed.

Lemma workshop_ids :
  all_have "id"
    (ToolDatabaseAPI.tools_of
       (ToolDatabaseAPI.tool_database_of (Sim.objects Sim.workshop))).
Proof. repeat constructor; vm_compute; eauto. Qed.

Lemma workshop_untyped :
  ~ all_have "type"
      (ToolDatabaseAPI.tools_of
         (ToolDatabaseAPI.tool_database_of (Sim.objects Sim.workshop))).
Proof.
  intros Hall. apply Forall_cons in Hall as [[v Hv] _].
  vm_compute in Hv. discriminate.
Qed.

(** Every usage figure of the worn shop is a number. *)
Lemma worn_shop_numeric :
  Forall numeric_usage (listing (Sim.objects Bench.worn_shop)).
Proof.
  repeat (apply Forall_cons; split); [..|apply Forall_nil];
    split; vm_compute; done.
Qed.


(** The drills of the typed shop. *)
Lemma list_tools_filter_witness :
  result (ToolDatabaseAPI.handle_list_tools
            (Bench.type_request "drill") (Sim.server Bench.typed_shop [] false))
  = Return [("tools", RTools [Bench.typed_tool 1 "drill";
                              Bench.typed_tool 3 "drill"]);
            ("current_tool", RTool (Some (Bench.typed_tool 2 "endmill")));
            ("tool_count", RInt 2)].
Proof.
  refine (eq_trans
            (proj1 (list_tools_filter (Bench.type_request "drill")
                      (Sim.server Bench.typed_shop [] false)
                      (Sim.objects Bench.typed_shop) Bench.typed_shop
                      (sim_connection_available _ _ _) eq_refl)
                   "drill" eq_refl _ typed_shop_types) _).
  - discriminate.
  - vm_compute. reflexivity.
Defined.

(** The same filter on the workshop, whose tools have no [type]. *)
Lemma list_tools_missing_type_witness :
  result (ToolDatabaseAPI.handle_list_tools
            (Bench.type_request "drill") (Sim.server Sim.workshop [] false))
    = Raise (KeyError "type") /\
  effects (ToolDatabaseAPI.handle_list_tools
             (Bench.type_request "drill") (Sim.server Sim.workshop [] false))
    = [Query "tool_database"].
Proof.
  apply (list_tools_missing_type (Bench.type_request "drill")
           (Sim.server Sim.workshop [] false)
           (Sim.objects Sim.workshop) Sim.workshop "drill");
    first [ apply sim_connection_available | reflexivity | discriminate
          | apply workshop_untyped ].
Defined.

(** Tool 3 of the workshop, and a tool that is not listed. *)
Lemma tool_info_by_id_witness :
  result (ToolDatabaseAPI.handle_tool_info
            (Sim.id_request 3) (Sim.server Sim.workshop [] false))
    = Return [("tool", RTool (Some (Sim.used_tool 3 9)))] /\
  result (ToolDatabaseAPI.handle_tool_info
            (Sim.id_request 7) (Sim.server Sim.workshop [] false))
    = Raise (HTTPError 404 "Tool not found").
Proof.
  split.
  - refine (eq_trans
              (proj2 (tool_info_by_id (Sim.id_request 3)
                        (Sim.server Sim.workshop [] false) 3
                        (Sim.objects Sim.workshop) Sim.workshop Sim.workshop
                        eq_refl _ (sim_connection_available _ _ _)
                        eq_refl eq_refl workshop_ids)) _).
    + discriminate.
    + vm_compute. reflexivity.
  - refine (eq_trans
              (proj2 (tool_info_by_id (Sim.id_request 7)
                        (Sim.server Sim.workshop [] false) 7
                        (Sim.objects Sim.workshop) Sim.workshop Sim.workshop
                        eq_refl _ (sim_connection_available _ _ _)
                        eq_refl eq_refl workshop_ids)) _).
    + discriminate.
    + vm_compute. reflexivity.
Defined.

(** An add request that carries an [id] only. *)
Lemma add_tool_requires_fields_witness :
  effects (ToolDatabaseAPI.handle_add_tool
             (Sim.id_request 4) (Sim.server Sim.workshop [] false)) = [] /\
  final (ToolDatabaseAPI.handle_add_tool
           (Sim.id_request 4) (Sim.server Sim.workshop [] false))
    = Sim.server Sim.workshop [] false /\
  exists e,
    result (ToolDatabaseAPI.handle_add_tool
              (Sim.id_request 4) (Sim.server Sim.workshop [] false))
      = Raise e /\
    argument_error (Sim.id_request 4) e.
Proof.
  apply (add_tool_requires_fields (Sim.id_request 4)
           (Sim.server Sim.workshop [] false)).
  reflexivity.
Defined.

(** The update of tool 1, whose [length] does not convert. *)
Lemma update_outcome_is_klippys_witness :
  result (ToolDatabaseAPI.handle_update_tool
            Sim.update_request (Sim.server Sim.workshop [] false))
  = Return [("success", RBool true);
            ("message", RStr "Tool 1 updated successfully")].
Proof.
  refine (eq_trans
            (f_equal result
               (update_outcome_is_klippys Sim.update_request
                  (Sim.server Sim.workshop [] false) 1 eq_refl
                  (sim_connection_available _ _ _))) _).
  vm_compute. reflexivity.
Defined.

(** Selecting tool 2 in the workshop. *)
Lemma select_reads_back_witness :
  ToolDatabaseAPI.handle_select_tool
    (Sim.id_request 2) (Sim.server Sim.workshop [] false)
  = Run (Return [("success", RBool true);
                 ("message", RStr "Tool 2 selected");
                 ("tool", RTool (Some (Sim.used_tool 2 9)))])
        (cached (Sim.server Sim.workshop [] false))
        [Gcode "SELECT_TOOL ID=2" true; Query "tool_database"].
Proof.
  refine (eq_trans
            (proj1 (select_reads_back (Sim.id_request 2)
                      (Sim.server Sim.workshop [] false) 2 eq_refl
                      (sim_connection_available _ _ _))
                   Sim.workshop Sim.workshop (Sim.objects Sim.workshop)
                   eq_refl eq_refl) _).
  vm_compute. reflexivity.
Defined.

(** A spindle request with Klippy unreachable. *)
Lemma cnc_endpoints_call_once_witness :
  (length (attempts (effects (CNCMCodesHandler.handle_spindle
                                Bench.spindle_off
                                (Sim.server Sim.unreachable [] true))))
   + length (queries (effects (CNCMCodesHandler.handle_spindle
                                 Bench.spindle_off
                                 (Sim.server Sim.unreachable [] true))))
   <= 1)%nat.
Proof.
  apply (cnc_endpoints_call_once CNCMCodesHandler.handle_spindle).
  unfold cnc_endpoints. set_solver.
Defined.

(** A spindle GET without arguments, and a coolant GET. *)
Lemma status_branches_never_taken_witness :
  queries (effects (CNCMCodesHandler.handle_coolant
                      (Sim.bare_request GET)
                      (Sim.server (Sim.idle 0) [] true))) = [] /\
  CNCMCodesHandler.handle_coolant
    (Sim.bare_request GET) (Sim.server (Sim.idle 0) [] true)
    = Run (Return [("result", RStr "success"); ("mist", RNone);
                   ("flood", RNone)])
          (Sim.server (Sim.idle 0) [] true) [Gcode "" true] /\
  CNCMCodesHandler.handle_spindle
    (Sim.bare_request GET) (Sim.server (Sim.idle 0) [] true)
    = Run (Raise (Sim.no_data_error "enable"))
          (Sim.server (Sim.idle 0) [] true) [].
Proof.
  split; [|split; vm_compute; reflexivity].
  apply (status_branches_never_taken CNCMCodesHandler.handle_coolant).
  unfold status_and_control_endpoints. set_solver.
Defined.

(** Klippy ready twice on a server without registrations. *)
Lemma ready_again_resets_again_witness :
  gcodes (effects (send_status_update
                     (Sim.print_state "complete")
                     (final (M30Handler.handle_klippy_ready
                               (final (M30Handler.handle_klippy_ready
                                         (Sim.server (Sim.idle 0) [] false)))))))
  = ["SDCARD_RESET_FILE"; "SDCARD_RESET_FILE"].
Proof.
  apply (ready_again_resets_again (Sim.server (Sim.idle 0) [] false)
           (Sim.print_state "complete")).
  - cbn. set_solver.
  - cbn. set_solver.
  - reflexivity.
Defined.
